(** * Viking -> Fitatu synchronisation: a shallow embedding of
      [viking_fitatu_integration.py] and the properties of its specification.

    The Python module is a sequential script: it reads an order from the
    vendor, reconciles one tracker product per meal and publishes a diet plan
    per date.  The embedding keeps that shape.

    - JSON scalars are the type [value].  A number is a Python [int], of
      any size, or a Python [float], an IEEE 754 binary64 value; the
      arithmetic on floats is that of [SpecFloat] at 53 bits, rounding to
      nearest with ties to even, so that sums, products, comparisons and
      the conversions from integers and from decimal texts round, overflow
      and propagate [nan] as in Python.
    - JSON objects with scalar fields (products, diet-plan items, nutrition
      tables) are insertion-ordered dictionaries [dict value].
    - Everything that leaves the process (HTTP requests, [uuid.uuid1],
      [datetime.now]) is a [request] of the monad [io]; a program is run
      against an arbitrary world, and the run yields the requests issued, in
      order, together with the value returned or the exception raised.
    - Logging has no effect on any result and is left out; the comparisons
      made for a log line are kept, since they can raise.
    - Texts are byte strings; of the white space and digits that Python
      accepts around and in a number, the ASCII ones are modelled. *)

From Stdlib Require Import ZArith QArith Qabs Qminmax Bool List String Ascii Lia.
From Stdlib Require Import DecimalString SpecFloat.
Import ListNotations.

Local Open Scope string_scope.
Local Open Scope Z_scope.
Local Open Scope list_scope.

(** ** Python values *)

(** The exceptions the script can raise.  [RequestException] stands for
    whatever [requests] raises when no response arrives (connection error,
    timeout); the script has no [try] around its HTTP calls. *)
Inductive exn : Type :=
| ValueError (msg : string)
| TypeError
| OverflowError
| KeyError
| AttributeError
| RequestException.

Inductive result (A : Type) : Type :=
| Ok (a : A)
| Err (e : exn).
Arguments Ok {A} a.
Arguments Err {A} e.

(** ** Binary64

    The values of Python's [float]: signed zeros, infinities, one [nan],
    and the finite numbers [m * 2 ^ e]. *)
Definition binary64 : Type := spec_float.

Module Binary64.

Definition prec : Z := 53.
Definition emax : Z := 1024.

Definition sub : binary64 -> binary64 -> binary64 := SFsub prec emax.
Definition mul : binary64 -> binary64 -> binary64 := SFmul prec emax.
Definition abs : binary64 -> binary64 := SFabs.
Definition eqb : binary64 -> binary64 -> bool := SFeqb.
Definition ltb : binary64 -> binary64 -> bool := SFltb.
Definition leb : binary64 -> binary64 -> bool := SFleb.

(** The float nearest to the quotient [n / d] of two integers, with the
    given sign: the correctly rounded division, on integers of any size. *)
Definition of_ratio (negative : bool) (n d : positive) : binary64 :=
  SFdiv prec emax (S754_finite negative n 0) (S754_finite false d 0).

(** The float nearest to an integer; an infinity beyond the range. *)
Definition of_Z (z : Z) : binary64 := binary_normalize prec emax z 0 false.

(** The float nearest to a rational: what a decimal numeral in a JSON
    text or in the source becomes. *)
Definition of_Q (q : Q) : binary64 :=
  match Qnum q with
  | Z0 => S754_zero false
  | Zpos n => of_ratio false n (Qden q)
  | Zneg n => of_ratio true n (Qden q)
  end.

(** The float nearest to [m * 10 ^ e], for [m] not negative, with the
    given sign. *)
Definition of_decimal (negative : bool) (m e : Z) : binary64 :=
  match m with
  | Zpos p =>
      if 0 <=? e then of_ratio negative (p * Z.to_pos (10 ^ e)) 1
      else of_ratio negative p (Z.to_pos (10 ^ (- e)))
  | _ => S754_zero negative
  end.

(** The exact value of a finite float; zero for the others. *)
Definition to_Q (f : binary64) : Q :=
  match f with
  | S754_finite s m e =>
      let n := if s then Z.neg m else Z.pos m in
      match e with
      | Z.neg k => Qmake n (2 ^ k)
      | _ => inject_Z (n * 2 ^ e)
      end
  | _ => 0%Q
  end.

(** [z == f] for an integer and a float: the values are compared exactly. *)
Definition eqb_Z (z : Z) (f : binary64) : bool :=
  match f with
  | S754_zero _ => z =? 0
  | S754_finite _ _ _ => Qeq_bool (inject_Z z) (to_Q f)
  | _ => false
  end.

End Binary64.

(** A JSON scalar as Python sees it after [response.json()]. *)
Inductive value : Type :=
| VNone
| VBool (b : bool)
| VInt (z : Z)
| VFloat (f : binary64)
| VStr (s : string).

(** [bool(v)], the test of [if v:]. *)
Definition truthy (v : value) : bool :=
  match v with
  | VNone => false
  | VBool b => b
  | VInt z => negb (z =? 0)
  | VFloat f => negb (Binary64.eqb f (S754_zero false))
  | VStr s => negb (String.eqb s "")
  end.

(** [a == b]: numbers compare by value, whatever their types, [True] is
    the number 1, [nan] equals nothing; strings compare by content. *)
Definition py_eq (a b : value) : bool :=
  match a, b with
  | VNone, VNone => true
  | VBool x, VBool y => Bool.eqb x y
  | VBool x, VInt z => Z.b2z x =? z
  | VInt z, VBool y => z =? Z.b2z y
  | VInt x, VInt y => x =? y
  | VBool x, VFloat f => Binary64.eqb_Z (Z.b2z x) f
  | VFloat f, VBool y => Binary64.eqb_Z (Z.b2z y) f
  | VInt z, VFloat f => Binary64.eqb_Z z f
  | VFloat f, VInt z => Binary64.eqb_Z z f
  | VFloat f, VFloat g => Binary64.eqb f g
  | VStr s, VStr t => String.eqb s t
  | _, _ => false
  end.

Definition is_none (v : value) : bool :=
  match v with VNone => true | _ => false end.

(** ** Numeric literals in strings

    [float(s)] and [int(s)] on a string: surrounding white space is dropped,
    one sign is allowed, digits may be grouped with single underscores. *)
Module Literal.

Definition is_space (c : ascii) : bool :=
  existsb (Ascii.eqb c)
          [" "; "009"; "010"; "011"; "012"; "013"; "028"; "029"; "030"; "031"]%char.

Definition digit (c : ascii) : option Z :=
  let n := Z.of_N (N_of_ascii c) in
  if (48 <=? n) && (n <=? 57) then Some (n - 48) else None.

Definition is_digit (c : ascii) : bool :=
  match digit c with Some _ => true | None => false end.

Fixpoint lstrip (l : list ascii) : list ascii :=
  match l with
  | c :: l' => if is_space c then lstrip l' else l
  | [] => []
  end.

Definition strip (l : list ascii) : list ascii :=
  rev (lstrip (rev (lstrip l))).

(** [digitpart l acc cnt]: reads [digit (["_"] digit)*] from the front of
    [l]; returns the number read, how many digits it had, and the rest. *)
Fixpoint digitpart (l : list ascii) (acc : Z) (cnt : nat)
  : Z * nat * list ascii :=
  match l with
  | c :: l' =>
      match digit c with
      | Some d => digitpart l' (10 * acc + d) (S cnt)
      | None =>
          if Ascii.eqb c "_" && negb (Nat.eqb cnt 0) then
            match l' with
            | c2 :: _ => if is_digit c2 then digitpart l' acc cnt
                         else (acc, cnt, l)
            | [] => (acc, cnt, l)
            end
          else (acc, cnt, l)
      end
  | [] => (acc, cnt, [])
  end.

(** An optional sign: the factor and the rest. *)
Definition sign (l : list ascii) : Z * list ascii :=
  match l with
  | "-"%char :: l' => (-1, l')
  | "+"%char :: l' => (1, l')
  | _ => (1, l)
  end.

(** [int(s)], base ten. *)
Definition int_of_string (s : string) : option Z :=
  let '(sg, l) := sign (strip (list_ascii_of_string s)) in
  match digitpart l 0 0 with
  | (n, S _, []) => Some (sg * n)
  | _ => None
  end.

(** The exponent of a float literal, when one is written. *)
Definition exponent (l : list ascii) : option Z :=
  match l with
  | [] => Some 0
  | c :: l' =>
      if Ascii.eqb c "e" || Ascii.eqb c "E" then
        let '(sg, l'') := sign l' in
        match digitpart l'' 0 0 with
        | (n, S _, []) => Some (sg * n)
        | _ => None
        end
      else None
  end.

Definition lower (c : ascii) : ascii :=
  let n := N_of_ascii c in
  if ((65 <=? n) && (n <=? 90))%N then ascii_of_N (n + 32) else c.

(** The text is the word, whatever the case of its letters. *)
Definition spells (word : string) (l : list ascii) : bool :=
  String.eqb (string_of_list_ascii (map lower l)) word.

(** [float(s)]: after the sign, one of the words [inf], [infinity] and
    [nan], or a decimal literal
    [number ::= [digitpart] "." digitpart | digitpart ["."]] with an
    optional exponent, which is rounded to the nearest float. *)
Definition float_of_string (s : string) : option binary64 :=
  let '(sg, l) := sign (strip (list_ascii_of_string s)) in
  let negative := sg <? 0 in
  if spells "inf" l || spells "infinity" l then Some (S754_infinity negative)
  else if spells "nan" l then Some S754_nan
  else
    let '(ip, n1, r1) := digitpart l 0 0 in
    let '(fp, n2, r2) :=
      match r1 with
      | "."%char :: r1' => digitpart r1' 0 0
      | _ => (0, 0%nat, r1)
      end in
    if Nat.eqb (n1 + n2) 0 then None
    else
      match exponent r2 with
      | Some e =>
          Some (Binary64.of_decimal negative
                  (ip * 10 ^ Z.of_nat n2 + fp) (e - Z.of_nat n2))
      | None => None
      end.

End Literal.

(** [float(v)]: [None] raises [TypeError], a string that is no literal
    raises [ValueError], an integer beyond the range of the floats raises
    [OverflowError]. *)
Definition float (v : value) : result binary64 :=
  match v with
  | VNone => Err TypeError
  | VBool b => Ok (Binary64.of_Z (Z.b2z b))
  | VInt z =>
      match Binary64.of_Z z with
      | S754_infinity _ => Err OverflowError
      | f => Ok f
      end
  | VFloat f => Ok f
  | VStr s => match Literal.float_of_string s with
              | Some f => Ok f
              | None => Err (ValueError "could not convert string to float")
              end
  end.

(** [int(v)]: a float is truncated toward zero, [nan] and the infinities
    raise; a string must be an integer literal. *)
Definition int (v : value) : result Z :=
  match v with
  | VNone => Err TypeError
  | VBool b => Ok (Z.b2z b)
  | VInt z => Ok z
  | VFloat f =>
      match f with
      | S754_nan => Err (ValueError "cannot convert float NaN to integer")
      | S754_infinity _ => Err OverflowError
      | _ => Ok (Z.quot (Qnum (Binary64.to_Q f)) (Z.pos (Qden (Binary64.to_Q f))))
      end
  | VStr s => match Literal.int_of_string s with
              | Some n => Ok n
              | None => Err (ValueError "invalid literal")
              end
  end.

(** ** Dictionaries

    A Python [dict] keeps its keys in insertion order; assigning to a key
    that is present replaces the value where it stands. *)
Definition dict (V : Type) : Type := list (string * V).

Section Dict.
Context {V : Type}.

Fixpoint lookup (k : string) (d : dict V) : option V :=
  match d with
  | (k', v) :: d' => if String.eqb k k' then Some v else lookup k d'
  | [] => None
  end.

(** [k in d] *)
Definition mem (k : string) (d : dict V) : bool :=
  match lookup k d with Some _ => true | None => false end.

(** [d.get(k, default)] *)
Definition get_or (k : string) (default : V) (d : dict V) : V :=
  match lookup k d with Some v => v | None => default end.

(** [d[k] = v] *)
Fixpoint set (k : string) (v : V) (d : dict V) : dict V :=
  match d with
  | (k', v') :: d' =>
      if String.eqb k k' then (k', v) :: d' else (k', v') :: set k v d'
  | [] => [(k, v)]
  end.

Definition keys (d : dict V) : list string := map fst d.
Definition values (d : dict V) : list V := map snd d.

(** [d.update(e)] *)
Definition update (d e : dict V) : dict V :=
  fold_left (fun acc kv => set (fst kv) (snd kv) acc) e d.
End Dict.

(** A JSON object whose fields are scalars. *)
Definition obj := dict value.

(** [o.get(k)]: a missing key reads as [None]. *)
Definition get (k : string) (o : obj) : value := get_or k VNone o.

(** [o[k]]: a missing key raises [KeyError]. *)
Definition item (k : string) (o : obj) : result value :=
  match lookup k o with Some v => Ok v | None => Err KeyError end.

(** [v in vs] *)
Definition py_in (v : value) (vs : list value) : bool := existsb (py_eq v) vs.

(** ** The payloads exchanged with the two services *)

(** One line of a delivery's menu.  [mealName] absent reads as the empty
    string and [nutrition] absent as the empty table, the defaults the
    script passes to [get]. *)
Record meal : Type := {
  deliveryMealId : value;
  mealName : string;
  menuMealName : value;
  nutrition : obj
}.

(** The body of the delivery-details response: an object without any key,
    which Python treats as false, or an object whose [deliveryMenuMeal]
    reads as the given list (empty when the key is missing). *)
Inductive details : Type :=
| EmptyObject
| Menu (deliveryMenuMeal : list meal).

Record measure : Type := {
  measureKey : string;
  measureUnit : string;
  weight_str : value   (* the argument of [str(weight)] *)
}.

(** The body of the create-product request. *)
Record product_data : Type := {
  pd_name : value;
  pd_brand : string;
  pd_energy : value;
  pd_carbohydrate : value;
  pd_sugars : value;
  pd_fat : value;
  pd_protein : value;
  pd_saturatedFat : value;
  pd_fiber : value;
  pd_measures : list measure;
  pd_salt : value
}.

(** What a POST answers: an object, or a list of objects. *)
Inductive reply : Type :=
| ReplyObj (o : obj)
| ReplyList (l : list obj).

(** The per-slot item lists of a day: [{slot: {"items": [...]}}]. *)
Definition plan := dict (list obj).

(** What [requests] hands back: nothing (it raised), or a response with its
    status code and decoded body. *)
Inductive http (T : Type) : Type :=
| NoResponse
| Response (status : Z) (json : T).
Arguments NoResponse {T}.
Arguments Response {T} status json.

(** ** Requests, programs and runs *)

Inductive request : Type :=
| GetDetails (delivery_id : value)
| GetSearch (date : string) (phrase : value)
| GetDietPlan (date : string)
| PostProduct (data : product_data)
| PostDietPlan (date : string) (p : plan)
| DeleteProduct (product_id : value)
| Uuid1
| Now.

Definition response (r : request) : Type :=
  match r with
  | GetDetails _ => http details
  | GetSearch _ _ => http (list obj)
  | GetDietPlan _ => http plan
  | PostProduct _ => http reply
  | PostDietPlan _ _ => http reply
  | DeleteProduct _ => http unit
  | Uuid1 => string
  | Now => string
  end.

(** A program: it returns, raises, or issues a request and goes on with the
    answer. *)
Inductive io (A : Type) : Type :=
| Ret (a : A)
| Raise (e : exn)
| Do (r : request) (k : response r -> io A).
Arguments Ret {A} a.
Arguments Raise {A} e.
Arguments Do {A} r k.

Fixpoint bind {A B : Type} (p : io A) (f : A -> io B) : io B :=
  match p with
  | Ret a => f a
  | Raise e => Raise e
  | Do r k => Do r (fun x => bind (k x) f)
  end.

Notation "x <- p ;; q" := (bind p (fun x => q))
  (at level 61, p at next level, right associativity).
Notation "p ;;; q" := (bind p (fun _ => q))
  (at level 61, right associativity).

Definition call (r : request) : io (response r) := Do r Ret.

(** A pure step that may raise. *)
Definition lift {A : Type} (r : result A) : io A :=
  match r with Ok a => Ret a | Err e => Raise e end.

(** The outside world: a state and, for every request, the answer given in
    a state together with the state that follows. *)
Record world : Type := {
  state : Type;
  answer : forall r : request, state -> response r * state
}.

(** [run W p s]: the result of [p] started in state [s] of the world [W],
    the requests it issued in order, and the state it left. *)
Fixpoint run (W : world) {A : Type} (p : io A) (s : state W)
  : result A * list request * state W :=
  match p with
  | Ret a => (Ok a, [], s)
  | Raise e => (Err e, [], s)
  | Do r k =>
      let '(x, s1) := answer W r s in
      let '(res, t, s2) := run W (k x) s1 in
      (res, r :: t, s2)
  end.

Definition returned {W A} (o : result A * list request * state W) : result A :=
  fst (fst o).
Definition issued {W A} (o : result A * list request * state W) : list request :=
  snd (fst o).
Definition final {W A} (o : result A * list request * state W) : state W :=
  snd o.

(** ** Configuration *)

Definition BRAND : string := "Viking".

(** The default of [MEAL_MAPPING]; [config] may replace it. *)
Definition default_MEAL_MAPPING : dict string :=
  [ ("Śniadanie", "breakfast");
    ("II śniadanie", "second_breakfast");
    ("Obiad", "dinner");
    ("Podwieczorek", "snack");
    ("Kolacja", "supper") ].

(** What [config] may hold for [TARGET_DATES] and [TARGET_DATE_RANGE]:
    nothing, a list of strings or a tuple of strings. *)
Inductive config_value : Type :=
| CfgNone
| CfgList (l : list string)
| CfgTuple (l : list string).

Definition cfg_truthy (c : config_value) : bool :=
  match c with
  | CfgNone | CfgList [] | CfgTuple [] => false
  | CfgList (_ :: _) | CfgTuple (_ :: _) => true
  end.

(** ** The three clients *)

(** [BaseClient.get], from the answer of [requests.get] on. *)
Definition BaseClient_get {T : Type} (h : http T) : io (option T) :=
  match h with
  | NoResponse => Raise RequestException
  | Response status json =>
      if status =? 200 then Ret (Some json) else Ret None
  end.

(** The scan of a list reply: an item with a true [errorMessage] makes the
    whole reply a failure. *)
Definition has_error (it : obj) : bool :=
  mem "errorMessage" it && truthy (get "errorMessage" it).

(** [BaseClient.post], from the answer of [requests.post] on. *)
Definition BaseClient_post (h : http reply) : io (option reply) :=
  match h with
  | NoResponse => Raise RequestException
  | Response status json =>
      if (status =? 200) || (status =? 201) || (status =? 202) then
        match json with
        | ReplyList l => if existsb has_error l then Ret None else Ret (Some json)
        | ReplyObj _ => Ret (Some json)
        end
      else Ret None
  end.

(** [BaseClient.delete], from the answer of [requests.delete] on. *)
Definition BaseClient_delete (h : http unit) : io bool :=
  match h with
  | NoResponse => Raise RequestException
  | Response status _ => Ret ((status =? 200) || (status =? 204))
  end.

(** ** Tracker operations *)

Definition search_all_products (name : value) (date : string) : io (list obj) :=
  products <- (h <- call (GetSearch date name) ;; BaseClient_get h) ;;
  match products with
  | Some (p :: ps) =>
      Ret (filter (fun p => py_eq (get "name" p) name
                            && py_eq (get "brand" p) (VStr BRAND)) (p :: ps))
  | _ => Ret []
  end.

(** [bool(response)] for what [post] returned. *)
Definition reply_truthy (r : option reply) : bool :=
  match r with
  | Some (ReplyObj (_ :: _)) | Some (ReplyList (_ :: _)) => true
  | _ => false
  end.

Definition create_product (data : product_data) : io value :=
  response <- (h <- call (PostProduct data) ;; BaseClient_post h) ;;
  match response with
  | Some (ReplyObj (f :: o)) => Ret (get "id" (f :: o))
  | Some (ReplyList (_ :: _)) => Raise AttributeError
  | _ => Ret VNone
  end.

Definition delete_product (product_id : value) : io bool :=
  h <- call (DeleteProduct product_id) ;; BaseClient_delete h.

Definition get_existing_diet_plan (date : string) : io plan :=
  response <- (h <- call (GetDietPlan date) ;; BaseClient_get h) ;;
  match response with
  | Some dietPlan =>
      Ret (map (fun kv =>
                  (fst kv,
                   filter (fun it => py_eq (get "brand" it) (VStr BRAND)) (snd kv)))
               dietPlan)
  | None => Ret []
  end.

Definition fetch_deliveries_for_date (deliveries : list obj) (target_date : string)
  : list obj :=
  filter (fun d => py_eq (get "date" d) (VStr target_date)) deliveries.

Definition fetch_viking_meal_details (delivery_id : value) : io (option details) :=
  h <- call (GetDetails delivery_id) ;; BaseClient_get h.

(** ** The product reconciler *)

(** [max(a, b)]: the second argument when it is greater, else the first. *)
Definition py_max (a b : binary64) : binary64 :=
  if Binary64.ltb a b then b else a.

(** The numeral [0.001] of the source. *)
Definition tolerance : binary64 := Binary64.of_Q (1 # 1000).

(** The test of [values_match] on two floats:
    [abs(existing - new) <= 0.001 * max(abs(existing), abs(new))]. *)
Definition within_tolerance (existing new : binary64) : bool :=
  Binary64.leb (Binary64.abs (Binary64.sub existing new))
               (Binary64.mul tolerance
                             (py_max (Binary64.abs existing) (Binary64.abs new))).

(** [except (ValueError, TypeError)] *)
Definition caught (e : exn) : bool :=
  match e with
  | ValueError _ | TypeError => true
  | _ => false
  end.

(** The helper nested in [create_or_find_product]; an exception of
    [float] that the [except] clause does not name leaves the helper. *)
Definition values_match (existing_val new_val : value) : result bool :=
  if py_eq new_val (VStr "N/A") then Ok true
  else if is_none existing_val then Ok true
  else
    match float existing_val with
    | Ok existing =>
        match float new_val with
        | Ok new => Ok (within_tolerance existing new)
        | Err e => if caught e then Ok true else Err e
        end
    | Err e => if caught e then Ok true else Err e
    end.

(** The first loop of [create_or_find_product]: the first product whose
    energy matches the calories. *)
Fixpoint first_match (calories : value) (existing_products : list obj)
  : result (option obj) :=
  match existing_products with
  | [] => Ok None
  | product :: rest =>
      match values_match (get "energy" product) calories with
      | Ok true => Ok (Some product)
      | Ok false => first_match calories rest
      | Err e => Err e
      end
  end.

(** The comparisons made for the mismatch warning, in order: the labels of
    the values of the first product that do not match the meal's. *)
Definition differences (first_product nutrition : obj) : result (list string) :=
  let compare label stored_key meal_key rest :=
    match values_match (get stored_key first_product)
                       (get_or meal_key (VStr "N/A") nutrition) with
    | Ok m =>
        match rest with
        | Ok l => Ok (if m then l else label :: l)
        | Err e => Err e
        end
    | Err e => Err e
    end in
  compare "Calories" "energy" "calories"
    (compare "Protein" "protein" "protein"
       (compare "Carbs" "carbohydrate" "carbohydrate"
          (compare "Fat" "fat" "fat" (Ok [])))).

(** The block under [if existing_products:] that prepares the warning: the
    comparisons are made on the first product, when there is one. *)
Definition mismatch_report (existing_products : list obj) (nutrition : obj)
  : result (list string) :=
  match existing_products with
  | first_product :: _ => differences first_product nutrition
  | [] => Ok []
  end.

(** The second loop of [create_or_find_product]: one delete per product
    whose id differs from the matched one; counts the deletions that
    succeeded. *)
Fixpoint delete_duplicates (matched_id : value) (existing_products : list obj)
  : io Z :=
  match existing_products with
  | [] => Ret 0
  | product :: rest =>
      let product_id := get "foodId" product in
      n <- (if negb (py_eq product_id matched_id)
            then ok <- delete_product product_id ;; Ret (if ok then 1 else 0)
            else Ret 0) ;;
      m <- delete_duplicates matched_id rest ;;
      Ret (n + m)
  end.

Definition new_product_data (menu_meal_name : value) (nutrition : obj)
  (weight : value) : product_data :=
  {| pd_name := menu_meal_name;
     pd_brand := BRAND;
     pd_energy := get_or "calories" (VStr "N/A") nutrition;
     pd_carbohydrate := get_or "carbohydrate" (VStr "N/A") nutrition;
     pd_sugars := get_or "sugar" (VStr "N/A") nutrition;
     pd_fat := get_or "fat" (VStr "N/A") nutrition;
     pd_protein := get_or "protein" (VStr "N/A") nutrition;
     pd_saturatedFat := get_or "saturatedFattyAcids" (VStr "N/A") nutrition;
     pd_fiber := get_or "dietaryFiber" (VStr "N/A") nutrition;
     pd_measures := [ {| measureKey := "PACKAGE"; measureUnit := "g";
                         weight_str := weight |} ];
     pd_salt := get_or "salt" (VStr "N/A") nutrition |}.

Definition create_or_find_product (menu_meal_name : value) (nutrition : obj)
  (weight : value) (target_date : string) : io value :=
  let calories := get_or "calories" (VStr "N/A") nutrition in
  existing_products <- search_all_products menu_meal_name target_date ;;
  matched_product <- lift (first_match calories existing_products) ;;
  match matched_product with
  | Some (f :: o) =>
      let matched_id := get "foodId" (f :: o) in
      delete_duplicates matched_id existing_products ;;;
      Ret matched_id
  | _ =>
      lift (mismatch_report existing_products nutrition) ;;;
      create_product (new_product_data menu_meal_name nutrition weight)
  end.

(** ** Meal processing *)

(** The loop of [process_meal] over the lines of a menu. *)
Fixpoint process_lines (target_date : string) (lines : list meal)
  (meal_ids meal_weights : dict value) : io (dict value * dict value) :=
  match lines with
  | [] => Ret (meal_ids, meal_weights)
  | m :: rest =>
      if is_none (deliveryMealId m) then
        process_lines target_date rest meal_ids meal_weights
      else if truthy (menuMealName m) then
        let weight := get_or "weight" (VStr "N/A") (nutrition m) in
        product_id <- create_or_find_product (menuMealName m) (nutrition m)
                        weight target_date ;;
        if truthy product_id then
          process_lines target_date rest
            (set (mealName m) product_id meal_ids)
            (set (mealName m) weight meal_weights)
        else process_lines target_date rest meal_ids meal_weights
      else process_lines target_date rest meal_ids meal_weights
  end.

(** [process_meal]: [None] stands for the pair [(None, None)]. *)
Definition process_meal (delivery : obj) (target_date : string)
  : io (option (dict value * dict value)) :=
  delivery_id <- lift (item "deliveryId" delivery) ;;
  viking_date_data <- fetch_viking_meal_details delivery_id ;;
  match viking_date_data with
  | Some (Menu lines) =>
      r <- process_lines target_date lines [] [] ;; Ret (Some r)
  | _ => Ret None
  end.

Fixpoint process_deliveries (target_date : string) (deliveries : list obj)
  (all_meal_ids all_meal_weights : dict value) : io (dict value * dict value) :=
  match deliveries with
  | [] => Ret (all_meal_ids, all_meal_weights)
  | delivery :: rest =>
      r <- process_meal delivery target_date ;;
      match r with
      | Some (f :: ids, meal_weights) =>
          process_deliveries target_date rest
            (update all_meal_ids (f :: ids))
            (update all_meal_weights meal_weights)
      | _ => process_deliveries target_date rest all_meal_ids all_meal_weights
      end
  end.

(** [process_date], given the [deliveries] of the order. *)
Definition process_date (target_date : string) (deliveries : list obj)
  : io (dict value * dict value) :=
  process_deliveries target_date
    (fetch_deliveries_for_date deliveries target_date) [] [].

(** ** The diet-plan publisher *)

Definition new_item (planDayDietItemId : string) (measureQuantity : Z)
  (productId : value) (updatedAt : string) : obj :=
  [ ("planDayDietItemId", VStr planDayDietItemId);
    ("foodType", VStr "PRODUCT");
    ("measureId", VInt 1);
    ("measureQuantity", VInt measureQuantity);
    ("productId", productId);
    ("source", VStr "API");
    ("updatedAt", VStr updatedAt) ].

(** [diet_plan.setdefault(key, {"items": []})["items"].append(it)] *)
Definition append_item (key : string) (it : obj) (diet_plan : plan) : plan :=
  set key (get_or key [] diet_plan ++ [it]) diet_plan.

(** The test that makes [add_meal_to_diet_plan] return without adding. *)
Definition already_planned (mapped_key : string) (meal_id : value)
  (existing_plan : plan) : bool :=
  truthy meal_id
  && mem mapped_key existing_plan
  && existsb (fun it => py_eq (get "productId" it) meal_id)
             (get_or mapped_key [] existing_plan).

(** [add_meal_to_diet_plan]; the plan being built is returned, since the
    Python code updates it in place. *)
Definition add_meal_to_diet_plan (MEAL_MAPPING : dict string) (diet_plan : plan)
  (meal_name : string) (meal_id meal_weight : value) (existing_plan : plan)
  : io plan :=
  match lookup meal_name MEAL_MAPPING with
  | None => Ret diet_plan
  | Some mapped_key =>
      if String.eqb mapped_key "" then Ret diet_plan
      else if already_planned mapped_key meal_id existing_plan then Ret diet_plan
      else
        u <- call Uuid1 ;;
        q <- lift (int meal_weight) ;;
        now <- call Now ;;
        Ret (append_item mapped_key (new_item u q meal_id now) diet_plan)
  end.

(** The inner loop of [publish_diet_plan]: an item whose product is not
    among the resolved ids gets [deletedAt]; every item is kept. *)
Fixpoint mark_items (ids : list value) (items : list obj) : io (list obj) :=
  match items with
  | [] => Ret []
  | it :: rest =>
      productId <- lift (item "productId" it) ;;
      it' <- (if negb (py_in productId ids)
              then now <- call Now ;; Ret (set "deletedAt" (VStr now) it)
              else Ret it) ;;
      rest' <- mark_items ids rest ;;
      Ret (it' :: rest')
  end.

(** The outer loop.  The items are changed in place, so the existing plan
    that the later tests read is the marked one; it is returned first, the
    plan being built second. *)
Fixpoint mark_plan (ids : list value) (existing_plan diet_plan : plan)
  : io (plan * plan) :=
  match existing_plan with
  | [] => Ret ([], diet_plan)
  | (meal_key, items) :: rest =>
      items_to_keep <- mark_items ids items ;;
      let diet_plan' :=
        match items_to_keep with
        | [] => diet_plan
        | _ :: _ => set meal_key items_to_keep diet_plan
        end in
      r <- mark_plan ids rest diet_plan' ;;
      Ret ((meal_key, items_to_keep) :: fst r, snd r)
  end.

(** The loop over [meal_ids.items()]. *)
Fixpoint add_meals (MEAL_MAPPING : dict string) (pairs : list (string * value))
  (meal_weights : dict value) (existing_plan diet_plan : plan) : io plan :=
  match pairs with
  | [] => Ret diet_plan
  | (meal_name, meal_id) :: rest =>
      diet_plan' <- add_meal_to_diet_plan MEAL_MAPPING diet_plan meal_name meal_id
                      (get_or meal_name (VInt 100) meal_weights) existing_plan ;;
      add_meals MEAL_MAPPING rest meal_weights existing_plan diet_plan'
  end.

(** [publish_diet_plan]; returns whether the tracker accepted the plan, the
    condition of the final log line. *)
Definition publish_diet_plan (MEAL_MAPPING : dict string) (date : string)
  (meal_ids meal_weights : dict value) : io bool :=
  existing_plan <- get_existing_diet_plan date ;;
  marked <- mark_plan (values meal_ids) existing_plan [] ;;
  diet_plan <- add_meals MEAL_MAPPING meal_ids meal_weights (fst marked) (snd marked) ;;
  response <- (h <- call (PostDietPlan date diet_plan) ;; BaseClient_post h) ;;
  Ret (reply_truthy response).

(** ** The date selector *)

Module Calendar.

Record date : Type := { year : Z; month : Z; day : Z }.

Definition is_leap (y : Z) : bool :=
  (y mod 4 =? 0) && (negb (y mod 100 =? 0) || (y mod 400 =? 0)).

Definition days_in_month (y m : Z) : Z :=
  if m =? 2 then (if is_leap y then 29 else 28)
  else if (m =? 4) || (m =? 6) || (m =? 9) || (m =? 11) then 30
  else 31.

(** Days before the first of January of year [y], counted from year 1. *)
Definition days_before_year (y : Z) : Z :=
  let p := y - 1 in p * 365 + p / 4 - p / 100 + p / 400.

(** Days of the year before the first of month [m]. *)
Definition days_before_month (y m : Z) : Z :=
  nth (Z.to_nat (m - 1)) [0; 31; 59; 90; 120; 151; 181; 212; 243; 273; 304; 334] 0
  + (if (2 <? m) && is_leap y then 1 else 0).

(** [date.toordinal()]: 0001-01-01 is day 1. *)
Definition toordinal (d : date) : Z :=
  days_before_year (year d) + days_before_month (year d) (month d) + day d.

(** The dates [datetime] accepts. *)
Definition valid (d : date) : bool :=
  (1 <=? year d) && (year d <=? 9999)
  && (1 <=? month d) && (month d <=? 12)
  && (1 <=? day d) && (day d <=? days_in_month (year d) (month d)).

(** Month and day are in range; the year is left free. *)
Definition wf (d : date) : Prop :=
  1 <= month d <= 12 /\ 1 <= day d <= days_in_month (year d) (month d).

(** The day after [d]. *)
Definition next_day (d : date) : date :=
  if day d <? days_in_month (year d) (month d)
  then {| year := year d; month := month d; day := day d + 1 |}
  else if month d <? 12
  then {| year := year d; month := month d + 1; day := 1 |}
  else {| year := year d + 1; month := 1; day := 1 |}.

(** [d + timedelta(days=n)] for [n >= 0]. *)
Fixpoint add_days (d : date) (n : nat) : date :=
  match n with
  | O => d
  | S n' => next_day (add_days d n')
  end.

(** [(e - s).days] *)
Definition days_between (s e : date) : Z := toordinal e - toordinal s.

Definition digit_char (n : Z) : ascii := ascii_of_N (Z.to_N (48 + n)).

Definition pad2 (n : Z) : list ascii :=
  [digit_char (n / 10); digit_char (n mod 10)].

Definition pad4 (n : Z) : list ascii :=
  [digit_char (n / 1000); digit_char (n / 100 mod 10);
   digit_char (n / 10 mod 10); digit_char (n mod 10)].

(** [d.strftime("%Y-%m-%d")] *)
Definition strftime (d : date) : string :=
  string_of_list_ascii
    (pad4 (year d) ++ "-"%char :: pad2 (month d) ++ "-"%char :: pad2 (day d)).

(** The month field, [1[0-2]|0[1-9]|[1-9]], up to the dash after it. *)
Definition parse_month (l : list ascii) : option (Z * list ascii) :=
  match l with
  | a :: "-"%char :: rest =>
      match Literal.digit a with
      | Some x => if 1 <=? x then Some (x, rest) else None
      | None => None
      end
  | a :: b :: "-"%char :: rest =>
      match Literal.digit a, Literal.digit b with
      | Some x, Some y =>
          let m := 10 * x + y in
          if (1 <=? m) && (m <=? 12) then Some (m, rest) else None
      | _, _ => None
      end
  | _ => None
  end.

(** The day field, [3[0-1]|[1-2]\d|0[1-9]|[1-9]| [1-9]], which must end the
    string. *)
Definition parse_day (l : list ascii) : option Z :=
  match l with
  | [a] =>
      match Literal.digit a with
      | Some x => if 1 <=? x then Some x else None
      | None => None
      end
  | [a; b] =>
      match Literal.digit b with
      | Some y =>
          if Ascii.eqb a " " then (if 1 <=? y then Some y else None)
          else
            match Literal.digit a with
            | Some x =>
                let d := 10 * x + y in
                if (1 <=? d) && (d <=? 31) then Some d else None
            | None => None
            end
      | None => None
      end
  | _ => None
  end.

Definition parse_fields (s : string) : option date :=
  match list_ascii_of_string s with
  | a :: b :: c :: d :: "-"%char :: l =>
      match Literal.digit a, Literal.digit b, Literal.digit c, Literal.digit d with
      | Some x3, Some x2, Some x1, Some x0 =>
          match parse_month l with
          | Some (m, l') =>
              match parse_day l' with
              | Some dd =>
                  Some {| year := 1000 * x3 + 100 * x2 + 10 * x1 + x0;
                          month := m; day := dd |}
              | None => None
              end
          | None => None
          end
      | _, _, _, _ => None
      end
  | _ => None
  end.

(** [datetime.strptime(s, "%Y-%m-%d")] *)
Definition strptime (s : string) : result date :=
  match parse_fields s with
  | Some d =>
      if valid d then Ok d
      else Err (ValueError "day is out of range for month")
  | None => Err (ValueError "time data does not match format")
  end.

End Calendar.

Definition both_given : string :=
  "Only one of TARGET_DATES or TARGET_DATE_RANGE should be provided.".

Definition select_dates (TARGET_DATES TARGET_DATE_RANGE : config_value)
  : result (list string) :=
  if cfg_truthy TARGET_DATES && cfg_truthy TARGET_DATE_RANGE
  then Err (ValueError both_given)
  else
    match TARGET_DATES with
    | CfgList l => Ok l
    | _ =>
        match TARGET_DATE_RANGE with
        | CfgTuple [a; b] =>
            match Calendar.strptime a with
            | Err e => Err e
            | Ok start_date =>
                match Calendar.strptime b with
                | Err e => Err e
                | Ok end_date =>
                    Ok (map (fun i => Calendar.strftime
                                        (Calendar.add_days start_date i))
                            (seq 0 (Z.to_nat
                                      (Calendar.days_between start_date end_date + 1))))
                end
            end
        | _ => Ok []
        end
    end.

(** ** Notions used by the statements *)



(** The float is a number: not [nan], not an infinity. *)
Definition finite (f : binary64) : bool :=
  match f with
  | S754_zero _ | S754_finite _ _ _ => true
  | _ => false
  end.

(** The filter of [search_all_products]: the name asked for and the brand. *)
Definition same_product (name : value) (p : obj) : bool :=
  py_eq (get "name" p) name && py_eq (get "brand" p) (VStr BRAND).

(** The product's id is not the matched one. *)
Definition differs (matched_id : value) (p : obj) : bool :=
  negb (py_eq (get "foodId" p) matched_id).

(** The delete request for a product. *)
Definition delete_of (p : obj) : request := DeleteProduct (get "foodId" p).

(** Every delete request gets a response, whatever its status. *)
Definition delete_answered (W : world) : Prop :=
  forall product_id s,
  exists status, fst (answer W (DeleteProduct product_id) s) = Response status tt.

(** The ids identify the entries of the list: two entries carry equal ids
    exactly when they are the same entry. *)
Definition distinct_ids (products : list obj) : Prop :=
  forall i j p q,
    nth_error products i = Some p -> nth_error products j = Some q ->
    (py_eq (get "foodId" p) (get "foodId" q) = true <-> i = j).

(** The delete requests among the requests issued. *)
Definition deleted (t : list request) : list value :=
  flat_map (fun r => match r with DeleteProduct i => [i] | _ => [] end) t.

(** ** A scripted world

    The world the examples run in: each kind of request has a fixed answer;
    the state counts the identifiers handed out, so that no two are equal. *)
Record script : Type := {
  on_details : value -> http details;
  on_search : http (list obj);
  on_diet_plan : http plan;
  on_create : http reply;
  on_publish : http reply;
  on_delete : value -> http unit;
  clock : string
}.

Definition uuid_of (n : nat) : string :=
  "uuid-" ++ NilZero.string_of_uint (Nat.to_uint n).

Definition scripted (sc : script) : world :=
  {| state := nat;
     answer := fun r =>
       match r as r0 return nat -> response r0 * nat with
       | GetDetails i => fun n => (on_details sc i, n)
       | GetSearch _ _ => fun n => (on_search sc, n)
       | GetDietPlan _ => fun n => (on_diet_plan sc, n)
       | PostProduct _ => fun n => (on_create sc, n)
       | PostDietPlan _ _ => fun n => (on_publish sc, n)
       | DeleteProduct i => fun n => (on_delete sc i, n)
       | Uuid1 => fun n => (uuid_of n, S n)
       | Now => fun n => (clock sc, n)
       end |}.

(** A script in which every request succeeds and nothing is stored. *)
Definition quiet : script :=
  {| on_details := fun _ => Response 200 (Menu []);
     on_search := Response 200 [];
     on_diet_plan := Response 200 [];
     on_create := Response 201 (ReplyObj [("id", VInt 1)]);
     on_publish := Response 200 (ReplyObj [("status", VStr "ok")]);
     on_delete := fun _ => Response 204 tt;
     clock := "2024-01-01 12:00:00" |}.

(** *** Meal processing *)

(** The two guards a menu line passes before it reaches the reconciler:
    a delivery id that is not null and a menu-meal name that is not empty. *)
Definition eligible (m : meal) : bool :=
  negb (is_none (deliveryMealId m)) && truthy (menuMealName m).

Definition weight_of (m : meal) : value :=
  get_or "weight" (VStr "N/A") (nutrition m).

(** The reconciliation of one line. *)
Definition reconcile (target_date : string) (m : meal) : io value :=
  create_or_find_product (menuMealName m) (nutrition m) (weight_of m) target_date.

(** The lines that reach the reconciler, in order, each with the product id
    the reconciler returned for it in the state reached; an exception of
    the reconciler ends the run. *)
Fixpoint reconciled (W : world) (target_date : string) (lines : list meal)
  (s : state W) : result (list (meal * value)) :=
  match lines with
  | [] => Ok []
  | m :: rest =>
      if eligible m then
        match run W (reconcile target_date m) s with
        | (Ok product_id, _, s1) =>
            match reconciled W target_date rest s1 with
            | Ok r => Ok ((m, product_id) :: r)
            | Err e => Err e
            end
        | (Err e, _, _) => Err e
        end
      else reconciled W target_date rest s
  end.

(** The entries the loop adds for the reconciled lines: a line whose
    product id is true sets its meal name in both maps. *)
Fixpoint recorded (r : list (meal * value)) (meal_ids meal_weights : dict value)
  : dict value * dict value :=
  match r with
  | [] => (meal_ids, meal_weights)
  | (m, product_id) :: r' =>
      if truthy product_id
      then recorded r' (set (mealName m) product_id meal_ids)
                       (set (mealName m) (weight_of m) meal_weights)
      else recorded r' meal_ids meal_weights
  end.

(** *** Publishing *)

(** The items of a slot in a plan, none when the slot is absent. *)
Definition slot_items (slot : string) (p : plan) : list obj := get_or slot [] p.

(** The existing plan has, under the slot, an item of the product. *)
Definition planned (slot : string) (product_id : value) (existing_plan : plan)
  : Prop :=
  exists items it,
    lookup slot existing_plan = Some items /\ In it items
    /\ py_eq (get "productId" it) product_id = true.

(** What the marking loop does to one item: it is left as it is when its
    product is among the resolved ids, and gets [deletedAt] otherwise. *)
Definition marked (ids : list value) (it it' : obj) : Prop :=
  (py_in (get "productId" it) ids = true -> it' = it)
  /\ (py_in (get "productId" it) ids = false ->
      exists now, it' = set "deletedAt" (VStr now) it
                  /\ get "deletedAt" it' = VStr now).

(** The plan that the marking loop builds from the entries it is done
    with: an entry that has items gives its slot those items. *)
Definition kept (entries : plan) (diet_plan : plan) : plan :=
  fold_left (fun d kv => match snd kv with
                         | [] => d
                         | _ :: _ => set (fst kv) (snd kv) d
                         end) entries diet_plan.

(** Only the clock was read. *)
Definition only_clock (t : list request) : Prop := Forall (fun r => r = Now) t.

(** Two entries of the same slot, the items of the second being the marked
    items of the first. *)
Definition same_slot_marked (ids : list value) (kv kv' : string * list obj) : Prop :=
  fst kv = fst kv' /\ Forall2 (marked ids) (snd kv) (snd kv').

(** Every item of the plan has a [productId]. *)
Definition with_product_ids (p : plan) : Prop :=
  forall slot items it,
    In (slot, items) p -> In it items -> lookup "productId" it <> None.

(** [int] accepts the weight of every meal of the map. *)
Definition weights_convert (meal_ids meal_weights : dict value) : Prop :=
  forall name product_id,
    In (name, product_id) meal_ids ->
    exists q, int (get_or name (VInt 100) meal_weights) = Ok q.

(** The plans posted among the requests issued. *)
Definition posted (t : list request) : list (string * plan) :=
  flat_map (fun r => match r with PostDietPlan d p => [(d, p)] | _ => [] end) t.

(** The (slot, product) pairs for which the loop over the resolved meals
    appends an item, in order. *)
Fixpoint additions (MEAL_MAPPING : dict string) (pairs : list (string * value))
  (existing_plan : plan) : list (string * value) :=
  match pairs with
  | [] => []
  | (meal_name, meal_id) :: rest =>
      match lookup meal_name MEAL_MAPPING with
      | Some mapped_key =>
          if String.eqb mapped_key "" then additions MEAL_MAPPING rest existing_plan
          else if already_planned mapped_key meal_id existing_plan
               then additions MEAL_MAPPING rest existing_plan
               else (mapped_key, meal_id) :: additions MEAL_MAPPING rest existing_plan
      | None => additions MEAL_MAPPING rest existing_plan
      end
  end.

(** The products of the pairs that belong to the slot. *)
Definition added_to (slot : string) (pairs : list (string * value)) : list value :=
  map snd (filter (fun a => String.eqb (fst a) slot) pairs).



(** ** Data of the examples *)




Definition dish : value := VStr "Kurczak z ryzem".

(** A tracker product of the dish with the given id and energy. *)
Definition stored (food_id energy : Z) : obj :=
  [ ("foodId", VInt food_id); ("name", dish); ("brand", VStr BRAND);
    ("energy", VInt energy) ].

(** Three products of the same name; only the second has 650 kcal. *)
Definition three_candidates : list obj :=
  [stored 11 500; stored 12 650; stored 13 700].

(** The nutrition table of the meal: 650 kcal, 400 g. *)
Definition lunch : obj := [("calories", VInt 650); ("weight", VInt 400)].

(** The search answers with the given status and products. *)
Definition searching (status : Z) (products : list obj) : script :=
  {| on_details := on_details quiet;
     on_search := Response status products;
     on_diet_plan := on_diet_plan quiet;
     on_create := Response 201 (ReplyObj [("id", VInt 99)]);
     on_publish := on_publish quiet;
     on_delete := on_delete quiet;
     clock := clock quiet |}.

(** The search gets no response at all. *)
Definition unreachable_search : script :=
  {| on_details := on_details quiet;
     on_search := NoResponse;
     on_diet_plan := on_diet_plan quiet;
     on_create := Response 201 (ReplyObj [("id", VInt 99)]);
     on_publish := on_publish quiet;
     on_delete := on_delete quiet;
     clock := clock quiet |}.

(** A delivered lunch and a supper that was not delivered. *)
Definition two_lines : list meal :=
  [ {| deliveryMealId := VInt 501; mealName := "Obiad"; menuMealName := dish;
       nutrition := lunch |};
    {| deliveryMealId := VNone; mealName := "Kolacja";
       menuMealName := VStr "Salatka"; nutrition := [("calories", VInt 300)] |} ].

(** The details of every delivery are the given lines; the tracker knows
    no product and creates one with the given id. *)
Definition delivering (lines : list meal) (new_id : value) : script :=
  {| on_details := fun _ => Response 200 (Menu lines);
     on_search := on_search quiet;
     on_diet_plan := on_diet_plan quiet;
     on_create := Response 201 (ReplyObj [("id", new_id)]);
     on_publish := on_publish quiet;
     on_delete := on_delete quiet;
     clock := clock quiet |}.

(** An item of product 7 that the tracker already marked as deleted. *)
Definition removed_lunch : obj :=
  [ ("productId", VInt 7); ("brand", VStr BRAND);
    ("deletedAt", VStr "2024-01-01 08:00:00") ].

(** The tracker returns the given plan for every date. *)
Definition planning (p : plan) : script :=
  {| on_details := on_details quiet;
     on_search := on_search quiet;
     on_diet_plan := Response 200 p;
     on_create := on_create quiet;
     on_publish := on_publish quiet;
     on_delete := on_delete quiet;
     clock := clock quiet |}.

(** Items of products 7 and 8 in the tracker's plan. *)
Definition planned_item (product_id : Z) : obj :=
  [ ("planDayDietItemId", VStr "item"); ("productId", VInt product_id);
    ("brand", VStr BRAND); ("source", VStr "API") ].


(** ** The main flow *)

(** The body of the order response: an object without any key, or an
    object whose [deliveries] read as the given list (empty when the key
    is missing). *)
Inductive order_json : Type :=
| EmptyOrder
| Order (deliveries : list obj).

(** The loop of [main] over the selected dates. *)
Fixpoint main_loop (MEAL_MAPPING : dict string) (deliveries : list obj)
  (dates : list string) : io unit :=
  match dates with
  | [] => Ret tt
  | target_date :: rest =>
      result <- process_date target_date deliveries ;;
      publish_diet_plan MEAL_MAPPING target_date (fst result) (snd result) ;;;
      main_loop MEAL_MAPPING deliveries rest
  end.

(** [main], from the answer to the order request on: the request for the
    order is the first thing [main] does, and [order_response] is what it
    gets. *)
Definition main (MEAL_MAPPING : dict string)
  (TARGET_DATES TARGET_DATE_RANGE : config_value)
  (order_response : http order_json) : io unit :=
  order_data <- BaseClient_get order_response ;;
  match order_data with
  | Some (Order deliveries) =>
      dates <- lift (select_dates TARGET_DATES TARGET_DATE_RANGE) ;;
      main_loop MEAL_MAPPING deliveries dates
  | _ => Ret tt
  end.

(** ** Notions of the further properties *)

(** The statuses [BaseClient.post] accepts. *)
Definition accepted (status : Z) : bool :=
  (status =? 200) || (status =? 201) || (status =? 202).

(** The request is a delete. *)
Definition is_delete (r : request) : Prop := exists i, r = DeleteProduct i.

(** The requests that concern tracker products or vendor details, and the
    requests that concern the diet plan. *)
Definition product_request (r : request) : Prop :=
  match r with
  | GetDetails _ | GetSearch _ _ | PostProduct _ | DeleteProduct _ => True
  | _ => False
  end.

Definition plan_request (r : request) : Prop :=
  match r with
  | GetDietPlan _ | PostDietPlan _ _ | Uuid1 | Now => True
  | _ => False
  end.

(** Products of the dish that the reply of a creation lists or reports. *)
Definition creating (status : Z) (r : reply) : script :=
  {| on_details := on_details quiet;
     on_search := Response 200 three_candidates;
     on_diet_plan := on_diet_plan quiet;
     on_create := Response status r;
     on_publish := on_publish quiet;
     on_delete := fun _ => NoResponse;
     clock := clock quiet |}.

(** A meal of 999 kcal, which none of the three candidates has. *)
Definition feast : obj := [("calories", VInt 999); ("weight", VInt 400)].

(** The two maps of the meal processing go together: every id is a true
    value, no meal name occurs twice, and the weights are recorded under
    the same names in the same order. *)
Definition resolved_maps (meal_ids meal_weights : dict value) : Prop :=
  Forall (fun v => truthy v = true) (values meal_ids)
  /\ NoDup (keys meal_ids)
  /\ keys meal_weights = keys meal_ids.

(** The request reads the clock or generates an identifier. *)
Definition clock_or_uuid (r : request) : Prop := r = Now \/ r = Uuid1.

(** The item has been given a deletion timestamp. *)
Definition soft_deleted (it it' : obj) : Prop :=
  exists now, it' = set "deletedAt" (VStr now) it.

(** The plan request is answered with the given outcome. *)
Definition plan_answering (h : http plan) : script :=
  {| on_details := on_details quiet;
     on_search := on_search quiet;
     on_diet_plan := h;
     on_create := on_create quiet;
     on_publish := on_publish quiet;
     on_delete := on_delete quiet;
     clock := clock quiet |}.

(** * Properties *)

(** ** Values *)





(** The conversions on well-known numerals: a tenth, the tolerance, 1e23
    (a tie, broken to even), the least positive float, the largest float
    and the first numeral beyond it, the words, a grouped numeral, the
    largest integer [float] converts and the first it refuses, [int] of a
    negative float, and an integer against the float nearest to it. *)
Lemma conversion_samples :
  Binary64.of_Q (1 # 10) = S754_finite false 7205759403792794 (-56)
  /\ tolerance = S754_finite false 4611686018427388 (-62)
  /\ Literal.float_of_string "1e23" = Some (S754_finite false 5960464477539062 24)
  /\ Literal.float_of_string "5e-324" = Some (S754_finite false 1 (-1074))
  /\ Literal.float_of_string "1.7976931348623157e308"
     = Some (S754_finite false 9007199254740991 971)
  /\ Literal.float_of_string "1.8e308" = Some (S754_infinity false)
  /\ Literal.float_of_string " -Infinity " = Some (S754_infinity true)
  /\ Literal.float_of_string "NaN" = Some S754_nan
  /\ Literal.float_of_string "1_000.5" = Some (S754_finite false 8800491068719104 (-43))
  /\ Literal.float_of_string "N/A" = None
  /\ float (VInt (2 ^ 1024 - 2 ^ 970 - 1)) = Ok (S754_finite false 9007199254740991 971)
  /\ float (VInt (2 ^ 1024 - 2 ^ 970)) = Err OverflowError
  /\ int (VFloat (Binary64.of_Q (- 2507 # 10))) = Ok (-250)
  /\ py_eq (VInt 7) (VFloat (Binary64.of_Q 7)) = true
  /\ py_eq (VInt (2 ^ 53 + 1)) (VFloat (Binary64.of_Z (2 ^ 53 + 1))) = false.
Proof. repeat split; vm_compute; reflexivity. Qed.

(** ** The tolerance test *)



(** ** The date selector *)

(** C6, as the code has it.  The guard of [select_dates] tests the two
    settings for truth, and an empty list is false: the error is raised when
    a non-empty list and a non-empty range are both given; with an empty
    list no error is raised and the empty list is returned, whatever the
    range; with neither setting the result is empty, without error. *)
Theorem select_dates_both_or_neither :
  (forall d ds r rs,
      select_dates (CfgList (d :: ds)) (CfgTuple (r :: rs))
      = Err (ValueError both_given))
  /\ (forall range, select_dates (CfgList []) range = Ok [])
  /\ select_dates CfgNone CfgNone = Ok [].
Proof.
  split; [| split].
  - intros. reflexivity.
  - intros range. unfold select_dates. simpl. reflexivity.
  - reflexivity.
Qed.

(** C6, against the claim as stated: an empty date list together with a
    date range raises nothing; the empty list is returned. *)
Lemma select_dates_empty_list_with_range :
  select_dates (CfgList []) (CfgTuple ["2024-01-01"; "2024-01-03"]) = Ok [].
Proof. reflexivity. Qed.

Module CalendarFacts.
Import Calendar.

Ltac month_cases m :=
  let H := fresh in
  assert (H : m = 1 \/ m = 2 \/ m = 3 \/ m = 4 \/ m = 5 \/ m = 6 \/ m = 7
              \/ m = 8 \/ m = 9 \/ m = 10 \/ m = 11 \/ m = 12) by lia;
  repeat (destruct H as [H | H]); subst m.

Lemma valid_wf (d : date) :
  valid d = true <-> (1 <= year d <= 9999 /\ wf d).
Proof.
  unfold valid, wf. rewrite !andb_true_iff, !Z.leb_le. tauto.
Qed.

Lemma days_in_month_bounds (y m : Z) : 28 <= days_in_month y m <= 31.
Proof.
  unfold days_in_month.
  destruct (m =? 2); [destruct (is_leap y); lia|].
  destruct ((m =? 4) || (m =? 6) || (m =? 9) || (m =? 11)); lia.
Qed.

Lemma days_before_year_succ (y : Z) :
  days_before_year (y + 1)
  = days_before_year y + 365 + (if is_leap y then 1 else 0).
Proof.
  unfold days_before_year, is_leap.
  replace (y + 1 - 1) with y by lia.
  destruct (Z.eqb_spec (y mod 4) 0), (Z.eqb_spec (y mod 100) 0),
    (Z.eqb_spec (y mod 400) 0); simpl;
    Z.div_mod_to_equations; lia.
Qed.

Lemma days_before_month_succ (y m : Z) :
  1 <= m <= 11 ->
  days_before_month y (m + 1) = days_before_month y m + days_in_month y m.
Proof.
  intro Hm. unfold days_before_month, days_in_month.
  month_cases m; try lia; simpl; destruct (is_leap y); reflexivity.
Qed.

Lemma days_before_december (y : Z) :
  days_before_month y 12 + 31 = 365 + (if is_leap y then 1 else 0).
Proof. unfold days_before_month. simpl. destruct (is_leap y); reflexivity. Qed.

Lemma days_before_january (y : Z) : days_before_month y 1 = 0.
Proof. reflexivity. Qed.

(** The day after has the next ordinal. *)
Lemma toordinal_next_day (d : date) :
  wf d -> toordinal (next_day d) = toordinal d + 1.
Proof.
  intros [Hm Hd]. unfold next_day, toordinal.
  destruct (Z.ltb_spec (day d) (days_in_month (year d) (month d))); simpl.
  - lia.
  - destruct (Z.ltb_spec (month d) 12); simpl.
    + rewrite days_before_month_succ by lia. lia.
    + assert (month d = 12) as E by lia. rewrite E in *.
      rewrite days_before_year_succ, days_before_january.
      pose proof (days_before_december (year d)).
      assert (days_in_month (year d) 12 = 31) by reflexivity.
      lia.
Qed.

Lemma wf_next_day (d : date) : wf d -> wf (next_day d).
Proof.
  intros [Hm Hd]. unfold next_day, wf.
  destruct (Z.ltb_spec (day d) (days_in_month (year d) (month d))); simpl.
  - lia.
  - destruct (Z.ltb_spec (month d) 12); simpl.
    + pose proof (days_in_month_bounds (year d) (month d + 1)). lia.
    + pose proof (days_in_month_bounds (year d + 1) 1). lia.
Qed.

Lemma wf_add_days (d : date) (n : nat) : wf d -> wf (add_days d n).
Proof. intro H. induction n; simpl; auto using wf_next_day. Qed.

Lemma toordinal_add_days (d : date) (n : nat) :
  wf d -> toordinal (add_days d n) = toordinal d + Z.of_nat n.
Proof.
  intro H. induction n as [| n IH]; simpl add_days.
  - lia.
  - rewrite toordinal_next_day by (apply wf_add_days; exact H). lia.
Qed.

(** A year has at least 365 days, so [days_before_year] grows with the
    year. *)
Lemma days_before_year_le (y : Z) (n : nat) :
  days_before_year y + 365 * Z.of_nat n <= days_before_year (y + Z.of_nat n).
Proof.
  induction n as [| n IH].
  - replace (y + Z.of_nat 0) with y by lia. lia.
  - replace (y + Z.of_nat (S n)) with (y + Z.of_nat n + 1) by lia.
    rewrite days_before_year_succ.
    destruct (is_leap (y + Z.of_nat n)); lia.
Qed.

Lemma days_before_year_mono (y1 y2 : Z) :
  y1 <= y2 -> days_before_year y1 <= days_before_year y2.
Proof.
  intro H. pose proof (days_before_year_le y1 (Z.to_nat (y2 - y1))) as L.
  rewrite Z2Nat.id in L by lia.
  replace (y1 + (y2 - y1)) with y2 in L by lia. lia.
Qed.

(** The ordinal of a date lies within its year. *)
Lemma toordinal_in_year (d : date) :
  wf d ->
  days_before_year (year d) < toordinal d <= days_before_year (year d + 1).
Proof.
  destruct d as [y m dd]. intros [Hm Hd]. simpl in *.
  unfold toordinal; simpl. rewrite days_before_year_succ.
  revert Hd. unfold days_before_month, days_in_month.
  month_cases m; simpl; destruct (is_leap y); simpl; lia.
Qed.

Lemma toordinal_year_le (d1 d2 : date) :
  wf d1 -> wf d2 -> toordinal d1 <= toordinal d2 -> year d1 <= year d2.
Proof.
  intros H1 H2 L.
  destruct (Z.le_gt_cases (year d1) (year d2)) as [|G]; [assumption|].
  pose proof (toordinal_in_year d1 H1).
  pose proof (toordinal_in_year d2 H2).
  pose proof (days_before_year_mono (year d2 + 1) (year d1)). lia.
Qed.

(** Two dates with the same ordinal are the same date. *)
Lemma toordinal_inj (d1 d2 : date) :
  wf d1 -> wf d2 -> toordinal d1 = toordinal d2 -> d1 = d2.
Proof.
  intros H1 H2 E.
  assert (year d1 = year d2) as Ey.
  { pose proof (toordinal_year_le d1 d2 H1 H2).
    pose proof (toordinal_year_le d2 d1 H2 H1). lia. }
  destruct d1 as [y1 m1 dd1], d2 as [y2 m2 dd2]; simpl in *. subst y2.
  destruct H1 as [Hm1 Hd1], H2 as [Hm2 Hd2]; simpl in *.
  unfold toordinal in E; simpl in E.
  assert (m1 = m2 /\ dd1 = dd2) as [-> ->]; [|reflexivity].
  revert E Hd1 Hd2. unfold days_before_month, days_in_month.
  month_cases m1; month_cases m2; simpl; destruct (is_leap y1); simpl; lia.
Qed.

(** *** Formatting and parsing *)

Lemma digit_digit_char (k : Z) :
  0 <= k <= 9 -> Literal.digit (digit_char k) = Some k.
Proof.
  intro H.
  assert (k = 0 \/ k = 1 \/ k = 2 \/ k = 3 \/ k = 4 \/ k = 5 \/ k = 6
          \/ k = 7 \/ k = 8 \/ k = 9) as C by lia.
  repeat (destruct C as [C | C]); subst k; reflexivity.
Qed.

Lemma parse_month_pad2 (m : Z) (rest : list ascii) :
  1 <= m <= 12 -> parse_month (pad2 m ++ "-"%char :: rest) = Some (m, rest).
Proof. intro H. month_cases m; reflexivity. Qed.

Lemma parse_day_pad2 (dd : Z) :
  1 <= dd <= 31 -> parse_day (pad2 dd) = Some dd.
Proof.
  intro H. rewrite <- (Z2Nat.id dd) by lia.
  assert (Z.to_nat dd <= 31)%nat as L by lia.
  assert (1 <= Z.to_nat dd)%nat as G by lia.
  revert L G. generalize (Z.to_nat dd) as k. intros k L G.
  do 32 (destruct k as [| k]; [try lia; reflexivity |]).
  lia.
Qed.

Lemma year_digits (y : Z) :
  0 <= y <= 9999 ->
  1000 * (y / 1000) + 100 * (y / 100 mod 10) + 10 * (y / 10 mod 10) + y mod 10 = y.
Proof. intro H. Z.div_mod_to_equations. lia. Qed.

(** A valid date is read back from its own text. *)
Lemma strptime_strftime (d : date) :
  valid d = true -> strptime (strftime d) = Ok d.
Proof.
  intro V. pose proof V as V'. apply valid_wf in V'.
  destruct V' as [Hy [Hm Hd]].
  destruct d as [y m dd]; simpl in *.
  pose proof (days_in_month_bounds y m) as B.
  unfold strptime, parse_fields, strftime.
  rewrite list_ascii_of_string_of_list_ascii.
  unfold pad4. cbn [app year month day].
  rewrite !digit_digit_char by (Z.div_mod_to_equations; lia).
  rewrite parse_month_pad2 by lia.
  rewrite parse_day_pad2 by lia.
  rewrite year_digits by lia.
  rewrite V. reflexivity.
Qed.

Lemma strptime_valid (s : string) (d : date) :
  strptime s = Ok d -> valid d = true.
Proof.
  unfold strptime. destruct (parse_fields s) as [d' |]; [|discriminate].
  destruct (valid d') eqn:V; [|discriminate].
  intro E. inversion E. subst. exact V.
Qed.

Lemma nth_error_map_seq {A : Type} (f : nat -> A) (n i : nat) (a : A) :
  nth_error (map f (seq 0 n)) i = Some a <-> (i < n)%nat /\ a = f i.
Proof.
  rewrite nth_error_map.
  destruct (nth_error (seq 0 n) i) as [j |] eqn:E; simpl.
  - pose proof E as E'. apply nth_error_nth with (d := O) in E'.
    assert (i < n)%nat as L.
    { rewrite <- (length_seq n 0). apply nth_error_Some. congruence. }
    rewrite seq_nth in E' by exact L. simpl in E'. subst j.
    split.
    + intro H. inversion H. auto.
    + intros [_ ->]. reflexivity.
  - split; [discriminate|].
    intros [L _]. apply nth_error_None in E. rewrite length_seq in E. lia.
Qed.

End CalendarFacts.

(** C7. For a well-formed pair of dates with the first not after the
    second, the selector returns the text of the dates from the first to
    the last inclusive: as many as the days between them plus one, the
    first being the start and the last the end, the i-th being a date of
    the calendar that lies i days after the start and is read back from its
    text; the range 2024-01-01 to 2024-01-03 gives the three days. *)
Theorem select_dates_range (s e : string) (start_date end_date : Calendar.date) :
  Calendar.strptime s = Ok start_date ->
  Calendar.strptime e = Ok end_date ->
  Calendar.toordinal start_date <= Calendar.toordinal end_date ->
  exists dates : list Calendar.date,
    select_dates CfgNone (CfgTuple [s; e]) = Ok (map Calendar.strftime dates)
    /\ Z.of_nat (List.length dates)
       = Calendar.toordinal end_date - Calendar.toordinal start_date + 1
    /\ nth_error dates 0 = Some start_date
    /\ nth_error dates (pred (List.length dates)) = Some end_date
    /\ (forall i d,
           nth_error dates i = Some d ->
           Calendar.valid d = true
           /\ Calendar.toordinal d = Calendar.toordinal start_date + Z.of_nat i
           /\ Calendar.strptime (Calendar.strftime d) = Ok d)
    /\ (forall i d d',
           nth_error dates i = Some d -> nth_error dates (S i) = Some d' ->
           d' = Calendar.next_day d)
    /\ select_dates CfgNone (CfgTuple ["2024-01-01"; "2024-01-03"])
       = Ok ["2024-01-01"; "2024-01-02"; "2024-01-03"].
Proof.
  intros Ps Pe L.
  pose proof (CalendarFacts.strptime_valid _ _ Ps) as Vs.
  pose proof (CalendarFacts.strptime_valid _ _ Pe) as Ve.
  pose proof Vs as Vs'. apply CalendarFacts.valid_wf in Vs'. destruct Vs' as [Ys Ws].
  pose proof Ve as Ve'. apply CalendarFacts.valid_wf in Ve'. destruct Ve' as [Ye We].
  set (n := Z.to_nat (Calendar.days_between start_date end_date + 1)).
  assert (Z.of_nat n = Calendar.toordinal end_date - Calendar.toordinal start_date + 1)
    as Hn by (unfold n, Calendar.days_between; lia).
  assert (forall i d, nth_error (map (Calendar.add_days start_date) (seq 0 n)) i = Some d ->
                      (i < n)%nat /\ d = Calendar.add_days start_date i) as Nth.
  { intros i d H. apply CalendarFacts.nth_error_map_seq in H. exact H. }
  exists (map (Calendar.add_days start_date) (seq 0 n)).
  rewrite length_map, length_seq.
  assert (forall i, (i < n)%nat ->
                    Calendar.valid (Calendar.add_days start_date i) = true) as Val.
  { intros i Li. apply CalendarFacts.valid_wf.
    assert (Calendar.wf (Calendar.add_days start_date i)) as Wi
        by auto using CalendarFacts.wf_add_days.
    pose proof (CalendarFacts.toordinal_add_days start_date i Ws) as Oi.
    split; [|exact Wi].
    pose proof (CalendarFacts.toordinal_year_le start_date _ Ws Wi).
    pose proof (CalendarFacts.toordinal_year_le _ end_date Wi We).
    lia. }
  split; [| split; [| split; [| split; [| split; [| split]]]]].
  - unfold select_dates. simpl. rewrite Ps, Pe. fold n. now rewrite map_map.
  - exact Hn.
  - apply CalendarFacts.nth_error_map_seq. split; [lia | reflexivity].
  - apply CalendarFacts.nth_error_map_seq. split; [lia |].
    apply CalendarFacts.toordinal_inj; auto using CalendarFacts.wf_add_days.
    rewrite CalendarFacts.toordinal_add_days by assumption. lia.
  - intros i d H. apply Nth in H. destruct H as [Li ->].
    split; [| split].
    + apply Val. exact Li.
    + apply CalendarFacts.toordinal_add_days. exact Ws.
    + apply CalendarFacts.strptime_strftime. apply Val. exact Li.
  - intros i d d' H H'. apply Nth in H. apply Nth in H'.
    destruct H as [_ ->], H' as [_ ->]. reflexivity.
  - reflexivity.
Qed.

(** The range of the specification's example, as an instance of C7. *)
Lemma select_dates_range_witness :
  exists dates : list Calendar.date,
    select_dates CfgNone (CfgTuple ["2024-01-01"; "2024-01-03"])
    = Ok (map Calendar.strftime dates)
    /\ List.length dates = 3%nat.
Proof.
  destruct (select_dates_range "2024-01-01" "2024-01-03"
              {| Calendar.year := 2024; Calendar.month := 1; Calendar.day := 1 |}
              {| Calendar.year := 2024; Calendar.month := 1; Calendar.day := 3 |}
              eq_refl eq_refl ltac:(vm_compute; discriminate))
    as (dates & E & Len & _).
  exists dates. split; [exact E|].
  change (Z.of_nat (List.length dates) = 3) in Len. lia.
Defined.

(** ** Runs *)

Section RunFacts.
Variable W : world.

(** Running [bind p f] runs [p] and, when [p] returned, [f] on its value
    from the state [p] left. *)
Lemma run_bind {A B : Type} (p : io A) (f : A -> io B) :
  forall s,
    run W (bind p f) s =
    match run W p s with
    | (Ok a, t1, s1) =>
        let '(res, t2, s2) := run W (f a) s1 in (res, t1 ++ t2, s2)
    | (Err e, t1, s1) => (Err e, t1, s1)
    end.
Proof.
  induction p as [a | e | r k IH]; intro s; simpl.
  - destruct (run W (f a) s) as [[res t2] s2]. reflexivity.
  - reflexivity.
  - destruct (answer W r s) as [x s1].
    rewrite IH.
    destruct (run W (k x) s1) as [[[a | e] t1] s2]; [|reflexivity].
    destruct (run W (f a) s2) as [[res t2] s3]. reflexivity.
Qed.

Lemma run_bind_ok {A B : Type} (p : io A) (f : A -> io B) s a t1 s1 res t2 s2 :
  run W p s = (Ok a, t1, s1) ->
  run W (f a) s1 = (res, t2, s2) ->
  run W (bind p f) s = (res, t1 ++ t2, s2).
Proof. intros E1 E2. rewrite run_bind, E1, E2. reflexivity. Qed.

Lemma run_bind_err {A B : Type} (p : io A) (f : A -> io B) s e t1 s1 :
  run W p s = (Err e, t1, s1) ->
  run W (bind p f) s = (Err e, t1, s1).
Proof. intro E. rewrite run_bind, E. reflexivity. Qed.

Lemma run_lift {A : Type} (r : result A) s : run W (lift r) s = (r, [], s).
Proof. destruct r; reflexivity. Qed.

(** *** The tracker operations, run *)

Lemma run_search_all_products (name : value) (date : string) s :
  run W (search_all_products name date) s =
  (match fst (answer W (GetSearch date name) s) with
   | NoResponse => Err RequestException
   | Response status products =>
       Ok (if status =? 200 then filter (same_product name) products else [])
   end,
   [GetSearch date name],
   snd (answer W (GetSearch date name) s)).
Proof.
  unfold search_all_products. simpl.
  destruct (answer W (GetSearch date name) s) as [h s1]; simpl.
  destruct h as [| status products]; simpl; [reflexivity|].
  destruct (status =? 200); simpl; [|reflexivity].
  destruct products; reflexivity.
Qed.

(** What the search returns carries the name asked for and the brand. *)
Lemma search_all_products_sound (name : value) (date : string) s found t s1 :
  run W (search_all_products name date) s = (Ok found, t, s1) ->
  Forall (fun p => same_product name p = true) found.
Proof.
  rewrite run_search_all_products.
  destruct (fst (answer W (GetSearch date name) s)) as [| status products];
    [discriminate|].
  intro E. inversion E; subst. clear E.
  destruct (status =? 200); [|constructor].
  apply Forall_forall. intros p H. apply filter_In in H. tauto.
Qed.

Lemma same_product_nonempty (name : value) (p : obj) :
  same_product name p = true -> exists f o, p = f :: o.
Proof.
  destruct p as [| f o]; [|eauto].
  unfold same_product. rewrite andb_true_iff. intros [_ H]. discriminate.
Qed.

Lemma run_delete_product (product_id : value) s :
  run W (delete_product product_id) s =
  (match fst (answer W (DeleteProduct product_id) s) with
   | NoResponse => Err RequestException
   | Response status _ => Ok ((status =? 200) || (status =? 204))
   end,
   [DeleteProduct product_id],
   snd (answer W (DeleteProduct product_id) s)).
Proof.
  unfold delete_product. simpl.
  destruct (answer W (DeleteProduct product_id) s) as [h s1]; simpl.
  destruct h; reflexivity.
Qed.

(** When deletes are answered, the loop issues one delete for each product
    whose id differs from the matched one, in order, and returns. *)
Lemma run_delete_duplicates (matched_id : value) (products : list obj) :
  delete_answered W ->
  forall s, exists n s',
    run W (delete_duplicates matched_id products) s
    = (Ok n, map delete_of (filter (differs matched_id) products), s').
Proof.
  intro D. induction products as [| p rest IH]; intro s.
  - simpl. eauto.
  - cbn [delete_duplicates filter]. unfold differs at 1.
    destruct (negb (py_eq (get "foodId" p) matched_id)) eqn:E.
    + destruct (D (get "foodId" p) s) as [status Hs].
      pose proof (run_delete_product (get "foodId" p) s) as R.
      rewrite Hs in R.
      destruct (IH (snd (answer W (DeleteProduct (get "foodId" p)) s)))
        as (m & s' & Rm).
      exists ((if (status =? 200) || (status =? 204) then 1 else 0) + m), s'.
      rewrite run_bind, run_bind, R. cbn [run app].
      rewrite run_bind, Rm. cbn [run map]. rewrite app_nil_r. reflexivity.
    + destruct (IH s) as (m & s' & Rm).
      exists (0 + m), s'.
      rewrite run_bind. cbn [run].
      rewrite run_bind, Rm. cbn [run app]. rewrite app_nil_r. reflexivity.
Qed.

End RunFacts.

(** ** The product reconciler *)

Lemma first_match_first (calories : value) (before after : list obj) (x : obj) :
  Forall (fun p => values_match (get "energy" p) calories = Ok false) before ->
  values_match (get "energy" x) calories = Ok true ->
  first_match calories (before ++ x :: after) = Ok (Some x).
Proof.
  intros Hb Hx. induction Hb as [| a l Ha _ IH]; cbn [app first_match].
  - now rewrite Hx.
  - now rewrite Ha.
Qed.

Lemma filter_all {A : Type} (f : A -> bool) (l : list A) :
  (forall a, In a l -> f a = true) -> filter f l = l.
Proof.
  induction l as [| a l IH]; intro H; simpl; [reflexivity|].
  rewrite (H a (or_introl eq_refl)). f_equal. apply IH.
  intros b Hb. apply H. now right.
Qed.

(** With distinct ids, the products whose id differs from the chosen one
    are all the others. *)
Lemma others_of_distinct (before after : list obj) (product : obj) :
  distinct_ids (before ++ product :: after) ->
  filter (differs (get "foodId" product)) (before ++ product :: after)
  = before ++ after.
Proof.
  intro D.
  assert (nth_error (before ++ product :: after) (List.length before) = Some product)
    as Hp.
  { rewrite nth_error_app2 by lia. now rewrite Nat.sub_diag. }
  rewrite filter_app. cbn [filter]. unfold differs at 2.
  rewrite (proj2 (D _ _ _ _ Hp Hp) eq_refl). cbn [negb].
  f_equal; apply filter_all; intros q Hq; unfold differs;
    apply In_nth_error in Hq; destruct Hq as [i Hi];
    apply negb_true_iff;
    destruct (py_eq (get "foodId" q) (get "foodId" product)) eqn:E;
    try reflexivity; exfalso.
  - assert (i < List.length before)%nat as Li
        by (apply nth_error_Some; congruence).
    assert (nth_error (before ++ product :: after) i = Some q) as Hq
        by now rewrite nth_error_app1.
    apply (D _ _ _ _ Hq Hp) in E. lia.
  - assert (nth_error (before ++ product :: after) (List.length before + S i)
            = Some q) as Hq.
    { rewrite nth_error_app2 by lia.
      replace (List.length before + S i - List.length before)%nat with (S i) by lia.
      exact Hi. }
    apply (D _ _ _ _ Hq Hp) in E. lia.
Qed.

Lemma deleted_delete_of (products : list obj) :
  deleted (map delete_of products) = map (get "foodId") products.
Proof.
  induction products as [| p l IH]; [reflexivity|].
  cbn [map]. unfold deleted in *. cbn [flat_map delete_of app]. now rewrite IH.
Qed.

Section Reconciler.
Variable W : world.

(** C1. Let the date-scoped search return the candidates (all of the name
    and brand asked for), and let [product] be the first of them, in the
    order returned, whose energy matches the meal's calories.  When deletes
    are answered, the reconciler returns the id of [product] and issues,
    after the search, exactly one delete for each candidate whose id is not
    that of [product], whatever its nutrition values, and nothing else;
    when the ids identify the candidates (an id equals itself and no id of
    another candidate) these are all the other candidates, one delete
    each. *)
Theorem create_or_find_product_reuses
  (menu_meal_name : value) (nutrition : obj) (weight : value) (target_date : string)
  (s s0 : state W) (t0 : list request)
  (candidates before after : list obj) (product : obj) :
  let calories := get_or "calories" (VStr "N/A") nutrition in
  let outcome := run W (create_or_find_product menu_meal_name nutrition weight
                          target_date) s in
  run W (search_all_products menu_meal_name target_date) s = (Ok candidates, t0, s0) ->
  candidates = before ++ product :: after ->
  Forall (fun p => values_match (get "energy" p) calories = Ok false) before ->
  values_match (get "energy" product) calories = Ok true ->
  delete_answered W ->
  returned outcome = Ok (get "foodId" product)
  /\ issued outcome
     = t0 ++ map delete_of (filter (differs (get "foodId" product)) candidates)
  /\ (distinct_ids candidates ->
      issued outcome = t0 ++ map delete_of (before ++ after)
      /\ List.length (deleted (issued outcome)) = (List.length candidates - 1)%nat).
Proof.
  intros calories outcome Hs Hc Hb Hm D.
  assert (exists f o, product = f :: o) as (f & o & Ep).
  { pose proof (search_all_products_sound W _ _ _ _ _ _ Hs) as F.
    rewrite Forall_forall in F.
    apply (same_product_nonempty menu_meal_name), F.
    rewrite Hc. apply in_or_app. right. now left. }
  destruct (run_delete_duplicates W (get "foodId" product) candidates D s0)
    as (n & s' & Rd).
  assert (run W (create_or_find_product menu_meal_name nutrition weight target_date) s
          = (Ok (get "foodId" product),
             t0 ++ map delete_of (filter (differs (get "foodId" product)) candidates),
             s')) as R.
  { unfold create_or_find_product.
    rewrite run_bind, Hs.
    fold calories.
    rewrite Hc at 1. rewrite (first_match_first _ before after product Hb Hm).
    cbn [lift bind].
    rewrite Ep at 1. rewrite <- Ep.
    rewrite run_bind, Rd. cbn [run]. now rewrite app_nil_r. }
  subst outcome. rewrite R. unfold returned, issued. cbn [fst snd].
  split; [reflexivity|]. split; [reflexivity|].
  intro Dn. subst candidates. rewrite others_of_distinct by exact Dn.
  split; [reflexivity|].
  assert (deleted t0 = []) as Dt.
  { rewrite run_search_all_products in Hs. inversion Hs. reflexivity. }
  unfold deleted at 1. rewrite flat_map_app. fold (deleted t0).
  rewrite Dt. cbn [app]. fold (deleted (map delete_of (before ++ after))).
  rewrite deleted_delete_of, length_map, !length_app. cbn [List.length]. lia.
Qed.

End Reconciler.

Lemma scripted_delete_answered (sc : script) :
  (forall i, exists status, on_delete sc i = Response status tt) ->
  delete_answered (scripted sc).
Proof. intros H i s. destruct (H i) as [status E]. exists status. exact E. Qed.

(** C1 on the example of the specification: of three products of the same
    name only the second has the meal's calories; the reconciler returns
    the second's id and issues two deletes, for the first and the third. *)
Lemma create_or_find_product_second_of_three :
  returned (run (scripted (searching 200 three_candidates))
              (create_or_find_product dish lunch (VInt 400) "2024-01-01") 0%nat)
  = Ok (VInt 12)
  /\ deleted (issued (run (scripted (searching 200 three_candidates))
                        (create_or_find_product dish lunch (VInt 400) "2024-01-01")
                        0%nat))
     = [VInt 11; VInt 13].
Proof.
  destruct (create_or_find_product_reuses (scripted (searching 200 three_candidates))
              dish lunch (VInt 400) "2024-01-01" 0%nat 0%nat
              [GetSearch "2024-01-01" dish]
              three_candidates [stored 11 500] [stored 13 700] (stored 12 650)
              eq_refl eq_refl
              ltac:(constructor; [reflexivity | constructor]) eq_refl
              ltac:(apply scripted_delete_answered; intro; exists 204; reflexivity))
    as (R & I & _).
  split; [exact R|]. rewrite I. reflexivity.
Defined.

Section SearchFailure.
Variable W : world.

(** C10, as the code has it.  When the search is answered with a status
    other than 200, [search_all_products] returns the empty list, whatever
    the tracker holds, and the reconciler issues the search and then one
    create request for the meal, deleting nothing, and returns what the
    creation returns.  When the search gets no response, the exception
    raised by the request propagates: the reconciler issues the search
    only and creates nothing. *)
Theorem search_failure_outcomes
  (menu_meal_name : value) (nutrition : obj) (weight : value) (target_date : string)
  (s : state W) :
  let search := GetSearch target_date menu_meal_name in
  let data := new_product_data menu_meal_name nutrition weight in
  let s1 := snd (answer W search s) in
  (forall status products,
      fst (answer W search s) = Response status products -> status <> 200 ->
      run W (search_all_products menu_meal_name target_date) s = (Ok [], [search], s1)
      /\ returned (run W (create_or_find_product menu_meal_name nutrition weight
                            target_date) s)
         = returned (run W (create_product data) s1)
      /\ issued (run W (create_or_find_product menu_meal_name nutrition weight
                          target_date) s)
         = [search; PostProduct data])
  /\ (fst (answer W search s) = NoResponse ->
      run W (search_all_products menu_meal_name target_date) s
      = (Err RequestException, [search], s1)
      /\ run W (create_or_find_product menu_meal_name nutrition weight target_date) s
         = (Err RequestException, [search], s1)).
Proof.
  intros search data s1. split.
  - intros status products Ha Hs.
    assert (run W (search_all_products menu_meal_name target_date) s
            = (Ok [], [search], s1)) as R.
    { rewrite run_search_all_products. fold search. rewrite Ha.
      apply Z.eqb_neq in Hs. rewrite Hs. reflexivity. }
    split; [exact R|].
    unfold create_or_find_product. rewrite run_bind, R.
    cbn [first_match mismatch_report lift bind]. fold data.
    destruct (run W (create_product data) s1) as [[res t] s2] eqn:Rc.
    unfold returned, issued. cbn [fst snd]. split; [reflexivity|].
    unfold create_product in Rc. simpl in Rc.
    destruct (answer W (PostProduct data) s1) as [h s3].
    destruct (run W _ s3) as [[res' t'] s4] eqn:Rk in Rc.
    inversion Rc; subst. cbn [app]. do 2 f_equal.
    destruct h as [| status' json]; simpl in Rk.
    + inversion Rk. reflexivity.
    + destruct ((status' =? 200) || (status' =? 201) || (status' =? 202)).
      * destruct json as [o | l].
        -- simpl in Rk. destruct o; inversion Rk; reflexivity.
        -- destruct (existsb has_error l); simpl in Rk.
           ++ inversion Rk; reflexivity.
           ++ destruct l; inversion Rk; reflexivity.
      * simpl in Rk. inversion Rk. reflexivity.
  - intro Ha.
    assert (run W (search_all_products menu_meal_name target_date) s
            = (Err RequestException, [search], s1)) as R.
    { rewrite run_search_all_products. fold search. now rewrite Ha. }
    split; [exact R|].
    unfold create_or_find_product. now rewrite run_bind, R.
Qed.

End SearchFailure.

(** C10, against the claim as stated: when the search gets no response
    (a transport error), [search_all_products] does not return the empty
    list; it raises, and the reconciler creates no product. *)
Lemma search_transport_error_raises :
  run (scripted unreachable_search) (search_all_products dish "2024-01-01") 0%nat
  = (Err RequestException, [GetSearch "2024-01-01" dish], 0%nat)
  /\ run (scripted unreachable_search)
         (create_or_find_product dish lunch (VInt 400) "2024-01-01") 0%nat
     = (Err RequestException, [GetSearch "2024-01-01" dish], 0%nat).
Proof. split; reflexivity. Qed.

(** C10 on an example: the tracker holds a product that matches the meal,
    the search is answered with status 500, and a second product is
    created. *)
Lemma search_failure_creates_duplicate :
  run (scripted (searching 500 three_candidates))
      (search_all_products dish "2024-01-01") 0%nat
  = (Ok [], [GetSearch "2024-01-01" dish], 0%nat)
  /\ returned (run (scripted (searching 500 three_candidates))
                  (create_or_find_product dish lunch (VInt 400) "2024-01-01") 0%nat)
     = Ok (VInt 99)
  /\ issued (run (scripted (searching 500 three_candidates))
                (create_or_find_product dish lunch (VInt 400) "2024-01-01") 0%nat)
     = [GetSearch "2024-01-01" dish;
        PostProduct (new_product_data dish lunch (VInt 400))].
Proof.
  destruct (search_failure_outcomes (scripted (searching 500 three_candidates))
              dish lunch (VInt 400) "2024-01-01" 0%nat) as [H _].
  destruct (H 500 three_candidates eq_refl ltac:(discriminate)) as (R & Rr & Ri).
  split; [exact R|]. split; [|exact Ri].
  rewrite Rr. reflexivity.
Defined.

(** ** Meal processing *)

Lemma lookup_set {V : Type} (k k' : string) (v : V) (d : dict V) :
  lookup k (set k' v d) = if String.eqb k k' then Some v else lookup k d.
Proof.
  induction d as [| [k0 v0] d IH]; simpl.
  - reflexivity.
  - destruct (String.eqb k' k0) eqn:E0; simpl.
    + apply String.eqb_eq in E0. subst k0.
      destruct (String.eqb k k'); reflexivity.
    + destruct (String.eqb k k0) eqn:E1.
      * apply String.eqb_eq in E1. subst k0.
        rewrite String.eqb_sym, E0. reflexivity.
      * exact IH.
Qed.

Lemma mem_set {V : Type} (k k' : string) (v : V) (d : dict V) :
  mem k (set k' v d) = String.eqb k k' || mem k d.
Proof. unfold mem. rewrite lookup_set. destruct (String.eqb k k'); reflexivity. Qed.

Section MealProcessing.
Variable W : world.
Variable target_date : string.

Lemma run_process_lines (lines : list meal) :
  forall s meal_ids meal_weights r,
    reconciled W target_date lines s = Ok r ->
    returned (run W (process_lines target_date lines meal_ids meal_weights) s)
    = Ok (recorded r meal_ids meal_weights).
Proof.
  induction lines as [| m rest IH]; intros s ids ws r H.
  - inversion H. reflexivity.
  - cbn [reconciled] in H. cbn [process_lines].
    unfold eligible in H.
    destruct (is_none (deliveryMealId m)); cbn [negb andb] in H.
    { apply IH. exact H. }
    destruct (truthy (menuMealName m)).
    2:{ apply IH. exact H. }
    unfold reconcile, weight_of in H.
    rewrite run_bind.
    destruct (run W (create_or_find_product _ _ _ _) s) as [[[pid | e] t1] s1];
      [|discriminate].
    destruct (reconciled W target_date rest s1) as [r' | e] eqn:Er; [|discriminate].
    inversion H; subst r. cbn [recorded]. unfold weight_of.
    destruct (truthy pid).
    + specialize (IH s1 (set (mealName m) pid ids)
                    (set (mealName m) (get_or "weight" (VStr "N/A") (nutrition m)) ws)
                    r' Er).
      destruct (run W (process_lines _ rest _ _) s1) as [[res t2] s2].
      exact IH.
    + specialize (IH s1 ids ws r' Er).
      destruct (run W (process_lines _ rest _ _) s1) as [[res t2] s2].
      exact IH.
Qed.

Lemma reconciled_lines (lines : list meal) :
  forall s r, reconciled W target_date lines s = Ok r ->
              map fst r = filter eligible lines.
Proof.
  induction lines as [| m rest IH]; intros s r H; cbn [reconciled] in H.
  - inversion H. reflexivity.
  - cbn [filter]. destruct (eligible m).
    + destruct (run W (reconcile target_date m) s) as [[[pid | e] t1] s1];
        [|discriminate].
      destruct (reconciled W target_date rest s1) as [r' | e] eqn:Er; [|discriminate].
      inversion H; subst r. cbn [map fst]. f_equal. eapply IH. exact Er.
    + eapply IH. exact H.
Qed.

(** A name is a key of the first map after the loop exactly when it was
    one before or a reconciled line of that name had a true product id;
    the second map gets the same keys. *)
Lemma recorded_mem (r : list (meal * value)) :
  forall meal_ids meal_weights k,
    (mem k (fst (recorded r meal_ids meal_weights)) = true <->
     mem k meal_ids = true
     \/ exists m product_id,
         In (m, product_id) r /\ mealName m = k /\ truthy product_id = true)
    /\ (mem k (snd (recorded r meal_ids meal_weights)) = true <->
        mem k meal_weights = true
        \/ exists m product_id,
            In (m, product_id) r /\ mealName m = k /\ truthy product_id = true).
Proof.
  induction r as [| [m pid] r IH]; intros ids ws k; cbn [recorded].
  - cbn [fst snd]. split; (split; [tauto|]); intros [H | (m & pid & [] & _)]; exact H.
  - destruct (truthy pid) eqn:T.
    + destruct (IH (set (mealName m) pid ids) (set (mealName m) (weight_of m) ws) k)
        as [I1 I2].
      rewrite I1, I2, !mem_set, !orb_true_iff, String.eqb_eq.
      split; split.
      * intros [[E | M] | (m' & pid' & Hin & E & T')]; auto.
        -- right. exists m, pid. repeat split; auto. now left.
        -- right. exists m', pid'. repeat split; auto. now right.
      * intros [M | (m' & pid' & [Hin | Hin] & E & T')]; auto.
        -- inversion Hin; subst. auto.
        -- right. exists m', pid'. auto.
      * intros [[E | M] | (m' & pid' & Hin & E & T')]; auto.
        -- right. exists m, pid. repeat split; auto. now left.
        -- right. exists m', pid'. repeat split; auto. now right.
      * intros [M | (m' & pid' & [Hin | Hin] & E & T')]; auto.
        -- inversion Hin; subst. auto.
        -- right. exists m', pid'. auto.
    + destruct (IH ids ws k) as [I1 I2]. rewrite I1, I2.
      split; split.
      * intros [M | (m' & pid' & Hin & E & T')]; auto.
        right. exists m', pid'. repeat split; auto. now right.
      * intros [M | (m' & pid' & [Hin | Hin] & E & T')]; auto.
        -- inversion Hin; subst. congruence.
        -- right. exists m', pid'. auto.
      * intros [M | (m' & pid' & Hin & E & T')]; auto.
        right. exists m', pid'. repeat split; auto. now right.
      * intros [M | (m' & pid' & [Hin | Hin] & E & T')]; auto.
        -- inversion Hin; subst. congruence.
        -- right. exists m', pid'. auto.
Qed.

(** An entry of the first map is the id of a reconciled line of that
    name. *)
Lemma recorded_lookup (r : list (meal * value)) :
  forall meal_ids meal_weights k product_id,
    lookup k (fst (recorded r meal_ids meal_weights)) = Some product_id ->
    lookup k meal_ids = Some product_id
    \/ exists m, In (m, product_id) r /\ mealName m = k
                 /\ truthy product_id = true.
Proof.
  induction r as [| [m pid] r IH]; intros ids ws k v H; cbn [recorded] in H.
  - now left.
  - destruct (truthy pid) eqn:T.
    + apply IH in H. destruct H as [H | (m' & Hin & E & T')].
      * rewrite lookup_set in H. destruct (String.eqb k (mealName m)) eqn:E.
        -- inversion H; subst. right. exists m.
           apply String.eqb_eq in E. repeat split; auto. now left.
        -- now left.
      * right. exists m'. repeat split; auto. now right.
    + apply IH in H. destruct H as [H | (m' & Hin & E & T')]; [now left|].
      right. exists m'. repeat split; auto. now right.
Qed.

End MealProcessing.

Lemma truthy_not_none (v : value) : truthy v = true -> is_none v = false.
Proof. destruct v; simpl; auto; discriminate. Qed.

(** C9, as the code has it.  Let the detail fetch of a delivery succeed
    and let every reconciliation return.  Then [process_meal] returns two
    maps; the lines that reached the reconciler are the lines with a
    delivery id that is not null and a menu-meal name that is not empty; a
    meal name is a key of the id map exactly when such a line of that name
    was reconciled to an id that is true (not null, and not zero, false or
    the empty text either), the weight map has the same keys, every entry
    of the id map is the id of such a line, and the name of a meal whose
    lines all have a null delivery id is in neither map. *)
Theorem process_meal_maps (W : world) (target_date : string)
  (delivery : obj) (delivery_id : value) (lines : list meal) (s : state W)
  (r : list (meal * value)) :
  item "deliveryId" delivery = Ok delivery_id ->
  fst (answer W (GetDetails delivery_id) s) = Response 200 (Menu lines) ->
  reconciled W target_date lines (snd (answer W (GetDetails delivery_id) s)) = Ok r ->
  exists meal_ids meal_weights,
    returned (run W (process_meal delivery target_date) s)
    = Ok (Some (meal_ids, meal_weights))
    /\ map fst r = filter eligible lines
    /\ (forall k, mem k meal_ids = true <->
                  exists m product_id,
                    In (m, product_id) r /\ mealName m = k
                    /\ truthy product_id = true)
    /\ (forall k, mem k meal_weights = mem k meal_ids)
    /\ (forall k product_id,
           lookup k meal_ids = Some product_id ->
           exists m, In (m, product_id) r /\ mealName m = k
                     /\ truthy product_id = true)
    /\ (forall k,
           (forall m, In m lines -> mealName m = k -> deliveryMealId m = VNone) ->
           mem k meal_ids = false /\ mem k meal_weights = false).
Proof.
  intros Hid Hf Hr.
  pose proof (run_process_lines W target_date lines _ [] [] r Hr) as R.
  pose proof (reconciled_lines W target_date lines _ r Hr) as L.
  exists (fst (recorded r [] [])), (snd (recorded r [] [])).
  assert (forall k,
             mem k (fst (recorded r [] [])) = true <->
             exists m product_id,
               In (m, product_id) r /\ mealName m = k /\ truthy product_id = true)
    as Keys.
  { intro k. destruct (recorded_mem r [] [] k) as [I _]. rewrite I.
    split.
    - intros [M | (m & pid & Hin & E & T)]; [discriminate|].
      exists m, pid. auto.
    - intros (m & pid & Hin & E & N). right. exists m, pid. auto. }
  assert (forall k, mem k (snd (recorded r [] [])) = mem k (fst (recorded r [] [])))
    as Same.
  { intro k. destruct (recorded_mem r [] [] k) as [I1 I2].
    apply eq_true_iff_eq. rewrite I1, I2. tauto. }
  split; [| split; [exact L | split; [exact Keys | split; [exact Same | split]]]].
  - unfold process_meal. rewrite run_bind, run_lift, Hid.
    unfold fetch_viking_meal_details.
    rewrite run_bind. cbn [bind call run].
    destruct (answer W (GetDetails delivery_id) s) as [h s1]; cbn [fst snd] in *.
    subst h. cbn [BaseClient_get Z.eqb Pos.eqb run bind].
    rewrite run_bind.
    destruct (run W (process_lines target_date lines [] []) s1) as [[res t] s2].
    unfold returned in *. cbn [fst snd] in *. subst res.
    destruct (recorded r [] []). reflexivity.
  - intros k pid H. apply recorded_lookup in H.
    destruct H as [H | (m & Hin & E & T)]; [discriminate|].
    exists m. auto.
  - intros k Hnull.
    assert (mem k (fst (recorded r [] [])) = false) as N.
    { destruct (mem k (fst (recorded r [] []))) eqn:M; [|reflexivity].
      apply Keys in M. destruct M as (m & pid & Hin & E & _).
      assert (In m (filter eligible lines)) as Hm.
      { rewrite <- L. apply (in_map fst) in Hin. exact Hin. }
      apply filter_In in Hm. destruct Hm as [Hl He].
      unfold eligible in He. rewrite (Hnull m Hl E) in He. discriminate. }
    split; [exact N|]. rewrite Same. exact N.
Qed.

(** C9 on an example: of a delivered lunch and a supper without a
    delivery id, the lunch is in the maps returned and the supper is not. *)
Lemma process_meal_maps_example :
  exists meal_ids meal_weights,
    returned (run (scripted (delivering two_lines (VInt 7)))
                (process_meal [("deliveryId", VInt 5)] "2024-01-01") 0%nat)
    = Ok (Some (meal_ids, meal_weights))
    /\ lookup "Obiad" meal_ids = Some (VInt 7)
    /\ mem "Kolacja" meal_ids = false
    /\ mem "Kolacja" meal_weights = false.
Proof.
  destruct (process_meal_maps (scripted (delivering two_lines (VInt 7)))
              "2024-01-01" [("deliveryId", VInt 5)] (VInt 5) two_lines 0%nat
              [(nth 0 two_lines (Build_meal VNone "" VNone []), VInt 7)]
              eq_refl eq_refl eq_refl)
    as (ids & ws & R & _ & _ & _ & _ & N).
  exists ids, ws. split; [exact R|].
  split.
  - change (Ok (Some ([("Obiad", VInt 7)], [("Obiad", VInt 400)]))
            = Ok (Some (ids, ws))) in R.
    inversion R. reflexivity.
  - apply N. intros m [<- | [<- | []]]; [discriminate | reflexivity].
Defined.

(** C9, against the claim as stated: the tracker reports the id 0 for the
    product it created.  The lunch has a delivery id and a menu-meal name
    and is reconciled to an id that is not null, and yet it is in neither
    map: the code tests the id for truth. *)
Lemma process_meal_drops_zero_id :
  returned (run (scripted (delivering two_lines (VInt 0)))
              (process_meal [("deliveryId", VInt 5)] "2024-01-01") 0%nat)
  = Ok (Some ([], []))
  /\ reconciled (scripted (delivering two_lines (VInt 0))) "2024-01-01" two_lines 0%nat
     = Ok [(nth 0 two_lines (Build_meal VNone "" VNone []), VInt 0)]
  /\ eligible (nth 0 two_lines (Build_meal VNone "" VNone [])) = true
  /\ is_none (VInt 0) = false
  /\ truthy (VInt 0) = false.
Proof. repeat split; vm_compute; reflexivity. Qed.

(** ** The publisher *)

Section Publisher.
Variable W : world.
Variable MEAL_MAPPING : dict string.

Lemma already_planned_iff (slot : string) (meal_id : value) (existing_plan : plan) :
  truthy meal_id = true ->
  (already_planned slot meal_id existing_plan = true
   <-> planned slot meal_id existing_plan).
Proof.
  intro T. unfold already_planned, planned, mem, get_or. rewrite T. cbn [andb].
  destruct (lookup slot existing_plan) as [items |]; cbn [andb].
  - rewrite existsb_exists. split.
    + intros (it & Hin & E). exists items, it. auto.
    + intros (items' & it & E & Hin & P). inversion E; subst. exists it. auto.
  - split; [discriminate|]. intros (items' & it & E & _). discriminate.
Qed.

(** The run of [add_meal_to_diet_plan], case by case. *)
Lemma run_add_meal (diet_plan : plan) (meal_name : string)
  (meal_id meal_weight : value) (existing_plan : plan) (s : state W) :
  run W (add_meal_to_diet_plan MEAL_MAPPING diet_plan meal_name meal_id meal_weight
           existing_plan) s
  = match lookup meal_name MEAL_MAPPING with
    | None => (Ok diet_plan, [], s)
    | Some mapped_key =>
        if String.eqb mapped_key "" then (Ok diet_plan, [], s)
        else if already_planned mapped_key meal_id existing_plan
        then (Ok diet_plan, [], s)
        else
          let u := fst (answer W Uuid1 s) in
          let s1 := snd (answer W Uuid1 s) in
          match int meal_weight with
          | Err e => (Err e, [Uuid1], s1)
          | Ok q =>
              (Ok (append_item mapped_key
                     (new_item u q meal_id (fst (answer W Now s1))) diet_plan),
               [Uuid1; Now], snd (answer W Now s1))
          end
    end.
Proof.
  unfold add_meal_to_diet_plan.
  destruct (lookup meal_name MEAL_MAPPING) as [key |]; [|reflexivity].
  destruct (String.eqb key ""); [reflexivity|].
  destruct (already_planned key meal_id existing_plan); [reflexivity|].
  cbn [bind call run].
  destruct (answer W Uuid1 s) as [u s1]. cbn [fst snd].
  destruct (int meal_weight) as [q | e]; cbn [lift bind run]; [|reflexivity].
  destruct (answer W Now s1) as [now s2]. reflexivity.
Qed.

(** C4, as the code has it.  For a resolved meal (its product id is a true
    value) whose name maps to a slot, the publisher appends nothing and
    issues no request exactly when the existing plan has, under that slot,
    an item of the same product, whether or not the item carries a
    deletion timestamp; otherwise it generates an identifier and, the
    weight being convertible, appends one item to the slot. *)
Theorem add_meal_skips_iff_planned
  (diet_plan : plan) (meal_name mapped_key : string) (meal_id meal_weight : value)
  (existing_plan : plan) (s : state W) :
  lookup meal_name MEAL_MAPPING = Some mapped_key ->
  mapped_key <> "" ->
  truthy meal_id = true ->
  let outcome := run W (add_meal_to_diet_plan MEAL_MAPPING diet_plan meal_name
                          meal_id meal_weight existing_plan) s in
  (planned mapped_key meal_id existing_plan ->
   outcome = (Ok diet_plan, [], s))
  /\ (~ planned mapped_key meal_id existing_plan ->
      hd_error (issued outcome) = Some Uuid1
      /\ forall q, int meal_weight = Ok q ->
           exists it, returned outcome = Ok (append_item mapped_key it diet_plan)
                      /\ get "productId" it = meal_id)
  /\ (forall it timestamp items,
        lookup mapped_key existing_plan = Some items -> In it items ->
        py_eq (get "productId" it) meal_id = true ->
        get "deletedAt" it = VStr timestamp ->
        outcome = (Ok diet_plan, [], s)).
Proof.
  intros Hk Hne T outcome. subst outcome. rewrite run_add_meal, Hk.
  apply String.eqb_neq in Hne. rewrite Hne.
  pose proof (already_planned_iff mapped_key meal_id existing_plan T) as I.
  split; [| split].
  - intro P. apply I in P. now rewrite P.
  - intro NP.
    destruct (already_planned mapped_key meal_id existing_plan) eqn:A.
    { exfalso. apply NP, I. reflexivity. }
    split.
    + destruct (int meal_weight); reflexivity.
    + intros q Hq. rewrite Hq. eexists. split; reflexivity.
  - intros it ts items Hl Hin Hp _.
    assert (already_planned mapped_key meal_id existing_plan = true) as A.
    { apply I. exists items, it. auto. }
    now rewrite A.
Qed.

End Publisher.

(** C4 on an example: the only item of the slot and product carries a
    deletion timestamp, and the meal is skipped. *)
Lemma add_meal_skips_deleted_item :
  run (scripted quiet)
      (add_meal_to_diet_plan default_MEAL_MAPPING [] "Obiad" (VInt 7) (VInt 400)
         [("dinner", [removed_lunch])]) 0%nat
  = (Ok [], [], 0%nat).
Proof.
  destruct (add_meal_skips_iff_planned (scripted quiet) default_MEAL_MAPPING
              [] "Obiad" "dinner" (VInt 7) (VInt 400)
              [("dinner", [removed_lunch])] 0%nat
              eq_refl ltac:(discriminate) eq_refl) as [H _].
  apply H. exists [removed_lunch], removed_lunch.
  split; [reflexivity|]. split; [now left | reflexivity].
Defined.

(** C4, against the claim as stated: the existing plan has one item of the
    slot and product, which carries a deletion timestamp; publishing the
    meal appends no new item: the plan posted holds the old item alone. *)
Lemma publish_skips_deleted_item :
  posted (issued (run (scripted (planning [("dinner", [removed_lunch])]))
                    (publish_diet_plan default_MEAL_MAPPING "2024-01-02"
                       [("Obiad", VInt 7)] [("Obiad", VInt 400)]) 0%nat))
  = [("2024-01-02", [("dinner", [removed_lunch])])].
Proof. reflexivity. Qed.

Section NewItems.
Variable W : world.
Variable MEAL_MAPPING : dict string.

(** C8, as the code has it.  When a meal is not skipped and [int] accepts
    its weight, the publisher issues [uuid1] and then reads the clock, and
    appends to the slot, after the items already there, one item that
    carries the identifier just generated, the source "API", the time just
    read, the product id, and as quantity [int] of the weight: an integer
    is taken as it is, and a float is truncated toward zero. *)
Theorem appended_item_fields
  (diet_plan : plan) (meal_name mapped_key : string) (meal_id meal_weight : value)
  (existing_plan : plan) (s : state W) (q : Z) :
  lookup meal_name MEAL_MAPPING = Some mapped_key ->
  mapped_key <> "" ->
  already_planned mapped_key meal_id existing_plan = false ->
  int meal_weight = Ok q ->
  let u := fst (answer W Uuid1 s) in
  let s1 := snd (answer W Uuid1 s) in
  let now := fst (answer W Now s1) in
  exists it,
    run W (add_meal_to_diet_plan MEAL_MAPPING diet_plan meal_name meal_id
             meal_weight existing_plan) s
    = (Ok (append_item mapped_key it diet_plan), [Uuid1; Now], snd (answer W Now s1))
    /\ slot_items mapped_key (append_item mapped_key it diet_plan)
       = slot_items mapped_key diet_plan ++ [it]
    /\ get "planDayDietItemId" it = VStr u
    /\ get "source" it = VStr "API"
    /\ get "updatedAt" it = VStr now
    /\ get "productId" it = meal_id
    /\ get "measureQuantity" it = VInt q
    /\ (forall z, meal_weight = VInt z -> q = z)
    /\ (forall f, meal_weight = VFloat f ->
                  finite f = true
                  /\ q = Z.quot (Qnum (Binary64.to_Q f)) (Z.pos (Qden (Binary64.to_Q f)))
                  /\ (Z.abs q * Z.pos (Qden (Binary64.to_Q f))
                      <= Z.abs (Qnum (Binary64.to_Q f))
                      < (Z.abs q + 1) * Z.pos (Qden (Binary64.to_Q f)))).
Proof.
  intros Hk Hne Ha Hq u s1 now.
  exists (new_item u q meal_id now).
  split; [| split; [| repeat split]].
  - rewrite run_add_meal, Hk. apply String.eqb_neq in Hne. rewrite Hne, Ha, Hq.
    reflexivity.
  - unfold slot_items, append_item, get_or. rewrite lookup_set, String.eqb_refl.
    reflexivity.
  - intros z E. subst meal_weight. inversion Hq. reflexivity.
  - subst meal_weight. destruct f; try discriminate; reflexivity.
  - subst meal_weight. destruct f; try discriminate; inversion Hq; reflexivity.
  - subst meal_weight.
    assert (q = Z.quot (Qnum (Binary64.to_Q f)) (Z.pos (Qden (Binary64.to_Q f)))) as ->
        by (destruct f; try discriminate; inversion Hq; reflexivity).
    destruct (Binary64.to_Q f) as [n d]. cbn [Qnum Qden].
    pose proof (Z.quot_abs n (Z.pos d) ltac:(lia)) as A. rewrite <- A.
    replace (Z.abs (Z.pos d)) with (Z.pos d) by lia.
    pose proof (Z.mul_quot_le (Z.abs n) (Z.pos d) ltac:(lia) ltac:(lia)). lia.
  - subst meal_weight.
    assert (q = Z.quot (Qnum (Binary64.to_Q f)) (Z.pos (Qden (Binary64.to_Q f)))) as ->
        by (destruct f; try discriminate; inversion Hq; reflexivity).
    destruct (Binary64.to_Q f) as [n d]. cbn [Qnum Qden].
    pose proof (Z.quot_abs n (Z.pos d) ltac:(lia)) as A. rewrite <- A.
    replace (Z.abs (Z.pos d)) with (Z.pos d) by lia.
    pose proof (Z.mul_succ_quot_gt (Z.abs n) (Z.pos d) ltac:(lia) ltac:(lia)). lia.
Qed.

End NewItems.

(** C8 on an example: a weight of 400 g. *)
Lemma appended_item_for_400_grams :
  exists it,
    returned (run (scripted quiet)
                (add_meal_to_diet_plan default_MEAL_MAPPING [] "Obiad" (VInt 7)
                   (VInt 400) []) 0%nat)
    = Ok (append_item "dinner" it [])
    /\ get "planDayDietItemId" it = VStr (uuid_of 0)
    /\ get "source" it = VStr "API"
    /\ get "measureQuantity" it = VInt 400.
Proof.
  destruct (appended_item_fields (scripted quiet) default_MEAL_MAPPING
              [] "Obiad" "dinner" (VInt 7) (VInt 400) [] 0%nat 400
              eq_refl ltac:(discriminate) eq_refl eq_refl)
    as (it & R & _ & Hu & Hs & _ & _ & Hm & _).
  exists it. rewrite R. repeat split; assumption.
Defined.

(** C8, against the claim as stated: a weight of 250.7 g becomes 250, not
    the nearest count 251; for the weight "N/A" the conversion raises after
    the identifier was generated, and no item is appended. *)
Lemma weight_is_truncated_and_na_raises :
  returned (run (scripted quiet)
              (add_meal_to_diet_plan default_MEAL_MAPPING [] "Obiad" (VInt 7)
                 (VFloat (Binary64.of_Q (2507 # 10))) []) 0%nat)
  = Ok [("dinner", [new_item (uuid_of 0) 250 (VInt 7) (clock quiet)])]
  /\ (Qabs ((2507 # 10) - 251) < Qabs ((2507 # 10) - 250))%Q
  /\ run (scripted quiet)
         (add_meal_to_diet_plan default_MEAL_MAPPING [] "Obiad" (VInt 7)
            (VStr "N/A") []) 0%nat
     = (Err (ValueError "invalid literal"), [Uuid1], 1%nat).
Proof. repeat split. Qed.

(** ** Marking the existing plan *)

Lemma get_set_same (k : string) (v : value) (o : obj) : get k (set k v o) = v.
Proof. unfold get, get_or. now rewrite lookup_set, String.eqb_refl. Qed.

Lemma get_set_other (k k' : string) (v : value) (o : obj) :
  k <> k' -> get k (set k' v o) = get k o.
Proof.
  intro H. unfold get, get_or. rewrite lookup_set.
  apply String.eqb_neq in H. now rewrite H.
Qed.

(** Marking leaves the product id of an item as it is. *)
Lemma marked_product_id (ids : list value) (it it' : obj) :
  marked ids it it' -> get "productId" it' = get "productId" it.
Proof.
  intros [Hin Hout].
  destruct (py_in (get "productId" it) ids) eqn:E.
  - now rewrite (Hin eq_refl).
  - destruct (Hout eq_refl) as (now & -> & _).
    apply get_set_other. discriminate.
Qed.

Section Marking.
Variable W : world.
Variable ids : list value.

Lemma run_mark_items (items : list obj) :
  (forall it, In it items -> lookup "productId" it <> None) ->
  forall s, exists items' t s',
    run W (mark_items ids items) s = (Ok items', t, s')
    /\ Forall2 (marked ids) items items'
    /\ only_clock t.
Proof.
  induction items as [| it rest IH]; intros Hp s.
  - exists [], [], s. repeat split; constructor.
  - assert (exists pid, lookup "productId" it = Some pid) as [pid Hpid].
    { destruct (lookup "productId" it) eqn:E; [eauto|].
      exfalso. apply (Hp it); [now left | exact E]. }
    assert (get "productId" it = pid) as Hget
        by (unfold get, get_or; now rewrite Hpid).
    cbn [mark_items]. unfold item. rewrite Hpid. cbn [lift bind].
    destruct (py_in pid ids) eqn:Ein; cbn [negb].
    + destruct (IH (fun x H => Hp x (or_intror H)) s) as (rest' & t & s' & R & F & C).
      exists (it :: rest'), t, s'. split; [| split; [|exact C]].
      * cbn [bind]. rewrite run_bind, R. cbn [run]. now rewrite app_nil_r.
      * constructor; [|exact F]. split; intro H; [reflexivity|].
        rewrite Hget in H. congruence.
    + destruct (answer W Now s) as [now s1] eqn:Ea.
      destruct (IH (fun x H => Hp x (or_intror H)) s1) as (rest' & t & s' & R & F & C).
      exists (set "deletedAt" (VStr now) it :: rest'), (Now :: t), s'.
      split; [| split].
      * cbn [bind call run]. rewrite Ea. cbn [bind].
        rewrite run_bind, R. cbn [run]. now rewrite app_nil_r.
      * constructor; [|exact F]. split; intro H.
        -- rewrite Hget in H. congruence.
        -- exists now. split; [reflexivity | apply get_set_same].
      * constructor; [reflexivity | exact C].
Qed.

Lemma run_mark_plan (existing_plan : plan) :
  with_product_ids existing_plan ->
  forall diet_plan s, exists existing' t s',
    run W (mark_plan ids existing_plan diet_plan) s
    = (Ok (existing', kept existing' diet_plan), t, s')
    /\ Forall2 (same_slot_marked ids) existing_plan existing'
    /\ only_clock t.
Proof.
  induction existing_plan as [| [slot items] rest IH]; intros Hp dp s.
  - exists [], [], s. repeat split; constructor.
  - destruct (run_mark_items items (fun it H => Hp slot items it (or_introl eq_refl) H) s)
      as (items' & t1 & s1 & R1 & F1 & C1).
    assert (with_product_ids rest) as Hrest.
    { intros k l it Hin. apply (Hp k l it). now right. }
    destruct (IH Hrest
                (match items' with [] => dp | _ :: _ => set slot items' dp end) s1)
      as (rest' & t2 & s2 & R2 & F2 & C2).
    exists ((slot, items') :: rest'), (t1 ++ t2), s2.
    split; [| split].
    + cbn [mark_plan]. rewrite run_bind, R1. rewrite run_bind, R2.
      cbn [run fst snd kept fold_left]. now rewrite app_nil_r.
    + constructor; [|exact F2]. split; [reflexivity | exact F1].
    + apply Forall_app. split; assumption.
Qed.

End Marking.

Lemma lookup_none_keys {V : Type} (k : string) (d : dict V) :
  lookup k d = None <-> ~ In k (keys d).
Proof.
  induction d as [| [k' v] d IH]; simpl.
  - tauto.
  - destruct (String.eqb k k') eqn:E.
    + apply String.eqb_eq in E. subst. split; [discriminate | intro H; exfalso; auto].
    + apply String.eqb_neq in E. rewrite IH. split.
      * intros H [H' | H']; [congruence | auto].
      * intros H H'. apply H. now right.
Qed.

Lemma lookup_in {V : Type} (k : string) (v : V) (d : dict V) :
  lookup k d = Some v -> In (k, v) d.
Proof.
  induction d as [| [k' v'] d IH]; simpl; [discriminate|].
  destruct (String.eqb k k') eqn:E.
  - apply String.eqb_eq in E. subst. intro H. inversion H. now left.
  - intro H. right. auto.
Qed.

Lemma in_lookup {V : Type} (k : string) (v : V) (d : dict V) :
  NoDup (keys d) -> In (k, v) d -> lookup k d = Some v.
Proof.
  induction d as [| [k' v'] d IH]; simpl; [tauto|].
  intros N [H | H].
  - inversion H; subst. now rewrite String.eqb_refl.
  - inversion N as [| ? ? Hn N']; subst.
    destruct (String.eqb k k') eqn:E.
    + apply String.eqb_eq in E. subst. exfalso. apply Hn.
      change k' with (fst (k', v)). now apply in_map.
    + auto.
Qed.

(** The slots of [kept]: an entry with items gives its slot those items,
    the other slots stay as they were. *)
Lemma slot_items_kept (entries : plan) :
  NoDup (keys entries) ->
  forall diet_plan slot,
    slot_items slot (kept entries diet_plan)
    = match lookup slot entries with
      | Some (it :: items) => it :: items
      | _ => slot_items slot diet_plan
      end.
Proof.
  induction entries as [| [k items] rest IH]; intros N dp slot.
  - reflexivity.
  - inversion N as [| ? ? Hn N']; subst.
    cbn [kept fold_left fst snd]. fold (kept rest).
    change (fold_left _ rest ?d) with (kept rest d).
    rewrite IH by exact N'. cbn [lookup].
    destruct (String.eqb slot k) eqn:E.
    + apply String.eqb_eq in E. subst k.
      assert (lookup slot rest = None) as Hl by (apply lookup_none_keys; exact Hn).
      rewrite Hl. destruct items as [| it items]; [reflexivity|].
      unfold slot_items, get_or. now rewrite lookup_set, String.eqb_refl.
    + destruct (lookup slot rest) as [[| it l] |]; try reflexivity;
        destruct items as [| it' items]; try reflexivity;
        unfold slot_items, get_or; now rewrite lookup_set, E.
Qed.

(** ** Adding the resolved meals *)

Section Adding.
Variable W : world.
Variable MEAL_MAPPING : dict string.

Lemma lookup_marked (ids : list value) (existing existing' : plan) :
  Forall2 (same_slot_marked ids) existing existing' ->
  forall slot,
    match lookup slot existing, lookup slot existing' with
    | Some l, Some l' => Forall2 (marked ids) l l'
    | None, None => True
    | _, _ => False
    end.
Proof.
  induction 1 as [| [k l] [k' l'] rest rest' [Hk Hl] _ IH]; intro slot; simpl.
  - exact I.
  - simpl in Hk, Hl. subst k'.
    destruct (String.eqb slot k); [exact Hl | apply IH].
Qed.

Lemma already_planned_marked (ids : list value) (existing existing' : plan)
  (slot : string) (meal_id : value) :
  Forall2 (same_slot_marked ids) existing existing' ->
  already_planned slot meal_id existing' = already_planned slot meal_id existing.
Proof.
  intro F. pose proof (lookup_marked ids existing existing' F slot) as L.
  unfold already_planned, mem, get_or.
  destruct (lookup slot existing) as [l |], (lookup slot existing') as [l' |];
    try contradiction; [|reflexivity].
  f_equal.
  induction L as [| it it' l l' Hm _ IH]; [reflexivity|].
  cbn [existsb]. rewrite IH, (marked_product_id ids it it' Hm). reflexivity.
Qed.

Lemma additions_marked (ids : list value) (existing existing' : plan)
  (pairs : list (string * value)) :
  Forall2 (same_slot_marked ids) existing existing' ->
  additions MEAL_MAPPING pairs existing' = additions MEAL_MAPPING pairs existing.
Proof.
  intro F. induction pairs as [| [name id] rest IH]; [reflexivity|].
  cbn [additions]. destruct (lookup name MEAL_MAPPING) as [key |]; [|exact IH].
  destruct (String.eqb key ""); [exact IH|].
  rewrite (already_planned_marked ids existing existing' key id F), IH.
  reflexivity.
Qed.

Lemma slot_items_append (slot key : string) (it : obj) (diet_plan : plan) :
  slot_items slot (append_item key it diet_plan)
  = if String.eqb slot key then slot_items slot diet_plan ++ [it]
    else slot_items slot diet_plan.
Proof.
  unfold slot_items, append_item, get_or. rewrite lookup_set.
  destruct (String.eqb slot key) eqn:E; [|reflexivity].
  apply String.eqb_eq in E. now subst.
Qed.

(** When every weight converts, the loop over the resolved meals returns;
    it posts nothing, and each slot of the plan gains, after the items it
    had, one item per pair of [additions] for that slot, in order. *)
Lemma run_add_meals (meal_weights : dict value) (existing_plan : plan)
  (pairs : list (string * value)) :
  (forall name id, In (name, id) pairs ->
                   exists q, int (get_or name (VInt 100) meal_weights) = Ok q) ->
  forall diet_plan s, exists diet_plan' t s',
    run W (add_meals MEAL_MAPPING pairs meal_weights existing_plan diet_plan) s
    = (Ok diet_plan', t, s')
    /\ posted t = []
    /\ forall slot, exists news,
        slot_items slot diet_plan' = slot_items slot diet_plan ++ news
        /\ map (get "productId") news
           = added_to slot (additions MEAL_MAPPING pairs existing_plan)
        /\ Forall (fun it => get "deletedAt" it = VNone) news.
Proof.
  induction pairs as [| [name id] rest IH]; intros Hw dp s.
  - exists dp, [], s. repeat split. intro slot. exists [].
    rewrite app_nil_r. repeat split. constructor.
  - assert (forall n i, In (n, i) rest ->
                        exists q, int (get_or n (VInt 100) meal_weights) = Ok q)
      as Hrest by (intros n i H; apply (Hw n i); now right).
    destruct (Hw name id (or_introl eq_refl)) as [q Hq].
    cbn [add_meals additions]. rewrite run_bind, run_add_meal.
    destruct (lookup name MEAL_MAPPING) as [key |].
    2:{ destruct (IH Hrest dp s) as (dp' & t & s' & R & P & S).
        exists dp', t, s'. rewrite R. auto. }
    destruct (String.eqb key "").
    { destruct (IH Hrest dp s) as (dp' & t & s' & R & P & S).
      exists dp', t, s'. rewrite R. auto. }
    destruct (already_planned key id existing_plan).
    { destruct (IH Hrest dp s) as (dp' & t & s' & R & P & S).
      exists dp', t, s'. rewrite R. auto. }
    rewrite Hq. cbv zeta.
    set (it := new_item _ q id _).
    destruct (IH Hrest (append_item key it dp)
                (snd (answer W Now (snd (answer W Uuid1 s)))))
      as (dp' & t & s' & R & P & S).
    exists dp', ([Uuid1; Now] ++ t), s'. rewrite R.
    split; [reflexivity|]. split; [exact P|].
    intro slot. destruct (S slot) as (news & Hs & Hm & Hd).
    rewrite slot_items_append in Hs.
    unfold added_to. cbn [filter fst].
    rewrite (String.eqb_sym key slot).
    destruct (String.eqb slot key).
    + exists (it :: news). rewrite Hs, <- app_assoc. split; [reflexivity|].
      split.
      * cbn [map snd]. f_equal. exact Hm.
      * constructor; [reflexivity | exact Hd].
    + exists news. auto.
Qed.

Lemma run_get_existing_diet_plan (date : string) (s : state W) :
  issued (run W (get_existing_diet_plan date) s) = [GetDietPlan date].
Proof.
  unfold get_existing_diet_plan, issued. simpl.
  destruct (answer W (GetDietPlan date) s) as [h s1].
  destruct h as [| status json]; simpl; [reflexivity|].
  destruct (status =? 200); reflexivity.
Qed.

Lemma posted_only_clock (t : list request) : only_clock t -> posted t = [].
Proof.
  induction 1 as [| r t Hr _ IH]; [reflexivity|].
  subst r. exact IH.
Qed.

Lemma posted_app (t1 t2 : list request) : posted (t1 ++ t2) = posted t1 ++ posted t2.
Proof. unfold posted. apply flat_map_app. Qed.

(** The plan that [publish_diet_plan] posts: the existing items, marked,
    followed in each slot by the items added for the resolved meals. *)
Lemma run_publish_diet_plan (date : string) (meal_ids meal_weights : dict value)
  (s s0 : state W) (existing_plan : plan) (t0 : list request) :
  run W (get_existing_diet_plan date) s = (Ok existing_plan, t0, s0) ->
  with_product_ids existing_plan ->
  weights_convert meal_ids meal_weights ->
  exists existing' payload,
    posted (issued (run W (publish_diet_plan MEAL_MAPPING date meal_ids meal_weights) s))
    = [(date, payload)]
    /\ Forall2 (same_slot_marked (values meal_ids)) existing_plan existing'
    /\ forall slot, exists news,
        slot_items slot payload = slot_items slot (kept existing' []) ++ news
        /\ map (get "productId") news
           = added_to slot (additions MEAL_MAPPING meal_ids existing_plan)
        /\ Forall (fun it => get "deletedAt" it = VNone) news.
Proof.
  intros Rg Hp Hw.
  destruct (run_mark_plan W (values meal_ids) existing_plan Hp [] s0)
    as (existing' & t1 & s1 & Rm & Fm & Cm).
  destruct (run_add_meals meal_weights existing' meal_ids Hw (kept existing' []) s1)
    as (payload & t2 & s2 & Ra & Pa & Sa).
  exists existing', payload.
  split; [| split; [exact Fm|]].
  - assert (t0 = [GetDietPlan date]) as Et.
    { pose proof (run_get_existing_diet_plan date s) as I.
      rewrite Rg in I. exact I. }
    unfold publish_diet_plan.
    rewrite run_bind, Rg, run_bind, Rm. cbn [fst snd].
    rewrite run_bind, Ra.
    cbn [bind call run].
    destruct (answer W (PostDietPlan date payload) s2) as [h s3].
    destruct (run W _ s3) as [[res t3] s4] eqn:Rp.
    assert (t3 = []) as Et3.
    { destruct h as [| status json]; cbn in Rp.
      - inversion Rp. reflexivity.
      - destruct ((status =? 200) || (status =? 201) || (status =? 202)); cbn in Rp.
        + destruct json as [o | l]; cbn in Rp.
          * inversion Rp. reflexivity.
          * destruct (existsb has_error l); cbn in Rp; inversion Rp; reflexivity.
        + inversion Rp. reflexivity. }
    subst t0 t3. unfold issued. cbn [fst snd].
    rewrite !posted_app, (posted_only_clock t1 Cm), Pa. reflexivity.
  - intro slot. destruct (Sa slot) as (news & Hs & Hm & Hd).
    exists news. split; [exact Hs|]. split; [|exact Hd].
    rewrite Hm. f_equal. apply (additions_marked (values meal_ids)). exact Fm.
Qed.

End Adding.

Lemma keys_marked (ids : list value) (existing existing' : plan) :
  Forall2 (same_slot_marked ids) existing existing' -> keys existing' = keys existing.
Proof.
  induction 1 as [| kv kv' l l' [Hk _] _ IH]; [reflexivity|].
  unfold keys in *. cbn [map]. now rewrite IH, Hk.
Qed.

(** C5. Let the tracker return the existing, brand-filtered plan of the
    date, every item of which has a product id, and let the weights of the
    resolved meals convert.  The publish posts one plan, and for every
    slot of the existing plan the posted items of that slot start with the
    existing items, in order, each marked: an item whose product is not
    among the resolved ids has received a deletion timestamp, and an item
    whose product is among them is the item as it was, no field changed. *)
Theorem publish_marks_stale_items (W : world) (MEAL_MAPPING : dict string)
  (date : string) (meal_ids meal_weights : dict value)
  (s s0 : state W) (existing_plan : plan) (t0 : list request) :
  run W (get_existing_diet_plan date) s = (Ok existing_plan, t0, s0) ->
  NoDup (keys existing_plan) ->
  with_product_ids existing_plan ->
  weights_convert meal_ids meal_weights ->
  exists payload,
    posted (issued (run W (publish_diet_plan MEAL_MAPPING date meal_ids meal_weights) s))
    = [(date, payload)]
    /\ forall slot items,
        In (slot, items) existing_plan ->
        exists items' news,
          slot_items slot payload = items' ++ news
          /\ Forall2 (marked (values meal_ids)) items items'.
Proof.
  intros Rg N Hp Hw.
  destruct (run_publish_diet_plan W MEAL_MAPPING date meal_ids meal_weights
              s s0 existing_plan t0 Rg Hp Hw)
    as (existing' & payload & P & F & S).
  exists payload. split; [exact P|].
  intros slot items Hin.
  destruct (S slot) as (news & Hs & _).
  pose proof (lookup_marked (values meal_ids) existing_plan existing' F slot) as L.
  rewrite (in_lookup slot items existing_plan N Hin) in L.
  destruct (lookup slot existing') as [items' |] eqn:E'; [|contradiction].
  exists items', news. split; [|exact L].
  rewrite Hs. f_equal.
  rewrite slot_items_kept, E'.
  - destruct items'; reflexivity.
  - rewrite (keys_marked _ _ _ F). exact N.
Qed.

(** C5 on an example: the plan holds items of products 7 and 8 for dinner
    and only product 7 is resolved; the posted dinner starts with the item
    of product 7 as it was and the item of product 8 with a deletion
    timestamp. *)
Lemma publish_marks_stale_items_example :
  exists payload kept_item stale_item news now,
    posted (issued (run (scripted (planning [("dinner", [planned_item 7; planned_item 8])]))
                      (publish_diet_plan default_MEAL_MAPPING "2024-01-02"
                         [("Obiad", VInt 7)] [("Obiad", VInt 400)]) 0%nat))
    = [("2024-01-02", payload)]
    /\ slot_items "dinner" payload = [kept_item; stale_item] ++ news
    /\ kept_item = planned_item 7
    /\ stale_item = set "deletedAt" (VStr now) (planned_item 8).
Proof.
  destruct (publish_marks_stale_items
              (scripted (planning [("dinner", [planned_item 7; planned_item 8])]))
              default_MEAL_MAPPING "2024-01-02"
              [("Obiad", VInt 7)] [("Obiad", VInt 400)] 0%nat 0%nat
              [("dinner", [planned_item 7; planned_item 8])]
              [GetDietPlan "2024-01-02"] eq_refl
              ltac:(repeat constructor; simpl; tauto)
              ltac:(intros slot items it [E | []] Hin; inversion E; subst;
                    destruct Hin as [<- | [<- | []]]; discriminate)
              ltac:(intros name id [E | []]; inversion E; subst;
                    exists 400; reflexivity))
    as (payload & P & S).
  destruct (S "dinner" [planned_item 7; planned_item 8] (or_introl eq_refl))
    as (items' & news & Hs & F).
  inversion F as [| a a' l l' Ma F' ]; subst.
  inversion F' as [| b b' l2 l2' Mb F'' ]; subst.
  inversion F''; subst.
  destruct Ma as [Ka _]. destruct Mb as [_ Sb].
  destruct (Sb eq_refl) as (now & Eb & _).
  exists payload, a', b', news, now.
  split; [exact P|]. split; [exact Hs|]. split; [apply Ka; reflexivity | exact Eb].
Defined.

(** ** Publishing twice *)


Lemma in_keys {V : Type} (k : string) (v : V) (d : dict V) :
  In (k, v) d -> In k (keys d).
Proof. intro H. change k with (fst (k, v)). now apply in_map. Qed.



Section Additions.
Variable MEAL_MAPPING : dict string.





End Additions.




(** ** The maps that reach the publisher *)

Lemma keys_set {V : Type} (k : string) (v : V) (d : dict V) :
  keys (set k v d) = if mem k d then keys d else keys d ++ [k].
Proof.
  unfold mem, keys. induction d as [| [k' v'] d IH]; [reflexivity|].
  cbn [set lookup].
  destruct (String.eqb k k'); cbn [map fst]; [reflexivity|].
  rewrite IH. destruct (lookup k d); reflexivity.
Qed.

Lemma nodup_keys_set {V : Type} (k : string) (v : V) (d : dict V) :
  NoDup (keys d) -> NoDup (keys (set k v d)).
Proof.
  intro N. rewrite keys_set. destruct (mem k d) eqn:M; [exact N|].
  apply NoDup_app; [exact N | repeat constructor; auto |].
  intros x Hx [E | []]. subst x.
  unfold mem in M. destruct (lookup k d) eqn:L; [discriminate|].
  apply lookup_none_keys in L. contradiction.
Qed.

Lemma values_set {V : Type} (P : V -> Prop) (k : string) (v : V) (d : dict V) :
  P v -> Forall P (values d) -> Forall P (values (set k v d)).
Proof.
  intros Hv. induction d as [| [k' v'] d IH]; simpl; intro F.
  - repeat constructor. exact Hv.
  - inversion F; subst. destruct (String.eqb k k'); simpl.
    + constructor; assumption.
    + constructor; auto.
Qed.

(** The id map that [process_meal] builds holds true values under distinct
    names: what the publisher receives are resolved ids. *)
Lemma recorded_resolved (r : list (meal * value)) :
  forall meal_ids meal_weights,
    Forall (fun v => truthy v = true) (values meal_ids) ->
    NoDup (keys meal_ids) ->
    Forall (fun v => truthy v = true) (values (fst (recorded r meal_ids meal_weights)))
    /\ NoDup (keys (fst (recorded r meal_ids meal_weights))).
Proof.
  induction r as [| [m pid] r IH]; intros ids ws F N; cbn [recorded].
  - auto.
  - destruct (truthy pid) eqn:T.
    + apply IH; [apply values_set; assumption | apply nodup_keys_set; assumption].
    + apply IH; assumption.
Qed.

(** Merging the maps of the deliveries of a date keeps both properties. *)
Lemma update_resolved (d e : dict value) :
  Forall (fun v => truthy v = true) (values d) -> NoDup (keys d) ->
  Forall (fun v => truthy v = true) (values e) ->
  Forall (fun v => truthy v = true) (values (update d e))
  /\ NoDup (keys (update d e)).
Proof.
  unfold update. revert d.
  induction e as [| [k v] e IH]; intros d Fd Nd Fe; cbn [fold_left fst snd].
  - auto.
  - inversion Fe; subst.
    apply IH; [apply values_set; assumption | apply nodup_keys_set; assumption
               | assumption].
Qed.

(** * Further properties of the code *)

(** ** The tolerance test on floats *)

Lemma abs_binary_round (s s' : bool) (m : positive) (e : Z) :
  SFabs (binary_round Binary64.prec Binary64.emax s m e)
  = SFabs (binary_round Binary64.prec Binary64.emax s' m e).
Proof.
  unfold binary_round, binary_round_aux.
  destruct (shl_align _ _ _) as [mz ez].
  destruct (shr_fexp _ _ _ _ _) as [mrs' e'].
  destruct (shr_fexp _ _ _ _ _) as [mrs'' e''].
  destruct (shr_m mrs''); [reflexivity | | reflexivity].
  destruct (e'' <=? _); reflexivity.
Qed.

Lemma abs_binary_normalize_opp (z e : Z) :
  SFabs (binary_normalize Binary64.prec Binary64.emax (- z) e false)
  = SFabs (binary_normalize Binary64.prec Binary64.emax z e false).
Proof.
  destruct z; cbn [Z.opp binary_normalize]; [reflexivity | |]; apply abs_binary_round.
Qed.

Lemma abs_sub_sym (a b : binary64) :
  Binary64.abs (Binary64.sub a b) = Binary64.abs (Binary64.sub b a).
Proof.
  unfold Binary64.abs, Binary64.sub.
  destruct a as [sa | sa | | sa ma ea], b as [sb | sb | | sb mb eb];
    try reflexivity; try (destruct sa, sb; reflexivity).
  cbn [SFsub]. rewrite (Z.min_comm eb ea).
  rewrite <- abs_binary_normalize_opp. f_equal. f_equal. ring.
Qed.

Lemma py_max_abs_sym (a b : binary64) :
  a <> S754_nan -> b <> S754_nan ->
  py_max (Binary64.abs a) (Binary64.abs b) = py_max (Binary64.abs b) (Binary64.abs a).
Proof.
  intros Ha Hb. unfold py_max, Binary64.ltb, Binary64.abs, SFltb.
  destruct a as [sa | sa | | sa ma ea], b as [sb | sb | | sb mb eb];
    try reflexivity; try congruence.
  cbn [SFabs SFcompare].
  rewrite (Z.compare_antisym ea eb).
  change (Pos.compare_cont Eq mb ma) with (Pos.compare mb ma).
  change (Pos.compare_cont Eq ma mb) with (Pos.compare ma mb).
  rewrite (Pos.compare_antisym ma mb).
  destruct (Z.compare_spec ea eb) as [E | L | G]; cbn [CompOpp]; try reflexivity.
  destruct (Pos.compare_spec ma mb) as [E' | L' | G']; cbn [CompOpp]; try reflexivity.
  now subst.
Qed.

(** X1. On two floats the verdict of [values_match] does not depend on the
    order of the arguments: the test [abs(a - b) <= 0.001 * max(abs(a),
    abs(b))] gives the same answer both ways round, [nan] included.  On
    other values the order matters: a missing existing value matches an
    integer beyond the floats, and the other way round the helper raises. *)
Theorem within_tolerance_symmetric :
  (forall a b : binary64, within_tolerance a b = within_tolerance b a)
  /\ (forall a b : binary64,
         values_match (VFloat a) (VFloat b) = values_match (VFloat b) (VFloat a))
  /\ values_match VNone (VInt (10 ^ 400)) = Ok true
  /\ values_match (VInt (10 ^ 400)) VNone = Err OverflowError.
Proof.
  assert (forall a b : binary64, within_tolerance a b = within_tolerance b a) as S.
  { intros a b. unfold within_tolerance. rewrite (abs_sub_sym a b).
    destruct a as [sa | sa | | sa ma ea] eqn:Ea; try reflexivity;
      destruct b as [sb | sb | | sb mb eb] eqn:Eb; try reflexivity;
      rewrite <- Ea, <- Eb;
      rewrite (py_max_abs_sym a b) by (subst; discriminate); reflexivity. }
  split; [exact S|]. split; [| split; vm_compute; reflexivity].
  intros a b. unfold values_match. cbn [py_eq is_none float]. now rewrite S.
Qed.

(** X2. What the test does off the finite numbers: [nan] matches nothing,
    not even itself; an infinity does not match itself, but it matches the
    infinity of the other sign and every finite number, since
    [0.001 * inf] is [inf].  So the texts nan and nan do not match, and a
    stored energy inf matches 650. *)
Theorem within_tolerance_not_finite :
  (forall a : binary64,
      within_tolerance a S754_nan = false /\ within_tolerance S754_nan a = false)
  /\ (forall s : bool,
         within_tolerance (S754_infinity s) (S754_infinity s) = false
         /\ within_tolerance (S754_infinity s) (S754_infinity (negb s)) = true)
  /\ (forall (s : bool) (a : binary64),
         finite a = true ->
         within_tolerance (S754_infinity s) a = true
         /\ within_tolerance a (S754_infinity s) = true)
  /\ values_match (VStr "nan") (VStr "nan") = Ok false
  /\ values_match (VStr "inf") (VInt 650) = Ok true.
Proof.
  split; [| split; [| split; [| split; vm_compute; reflexivity]]].
  - intro a. split; destruct a as [sa | sa | | sa ma ea]; reflexivity.
  - intros []; split; vm_compute; reflexivity.
  - intros s a Fa.
    destruct a as [sa | sa | | sa ma ea]; try discriminate;
      destruct s; split; vm_compute; reflexivity.
Qed.

(** ** The date selector off the straight path *)

Lemma valid_add_days (start_date end_date : Calendar.date) (i : nat) :
  Calendar.valid start_date = true -> Calendar.valid end_date = true ->
  Calendar.toordinal start_date + Z.of_nat i <= Calendar.toordinal end_date ->
  Calendar.valid (Calendar.add_days start_date i) = true.
Proof.
  intros Vs Ve L.
  apply CalendarFacts.valid_wf in Vs. destruct Vs as [Ys Ws].
  apply CalendarFacts.valid_wf in Ve. destruct Ve as [Ye We].
  apply CalendarFacts.valid_wf.
  assert (Calendar.wf (Calendar.add_days start_date i)) as Wi
      by auto using CalendarFacts.wf_add_days.
  pose proof (CalendarFacts.toordinal_add_days start_date i Ws) as Oi.
  split; [|exact Wi].
  pose proof (CalendarFacts.toordinal_year_le start_date _ Ws Wi).
  pose proof (CalendarFacts.toordinal_year_le _ end_date Wi We).
  lia.
Qed.

(** X3. A range whose end lies before its start is no error: the selector
    returns no date at all. *)
Theorem select_dates_reversed_range (s e : string)
  (start_date end_date : Calendar.date) :
  Calendar.strptime s = Ok start_date ->
  Calendar.strptime e = Ok end_date ->
  Calendar.toordinal end_date < Calendar.toordinal start_date ->
  select_dates CfgNone (CfgTuple [s; e]) = Ok [].
Proof.
  intros Ps Pe L. unfold select_dates. simpl. rewrite Ps, Pe.
  unfold Calendar.days_between.
  replace (Z.to_nat (Calendar.toordinal end_date - Calendar.toordinal start_date + 1))
    with 0%nat by lia.
  reflexivity.
Qed.

(** X3 on an example: from the third of January back to the first. *)
Lemma select_dates_reversed_range_example :
  select_dates CfgNone (CfgTuple ["2024-01-03"; "2024-01-01"]) = Ok [].
Proof.
  apply (select_dates_reversed_range "2024-01-03" "2024-01-01"
           {| Calendar.year := 2024; Calendar.month := 1; Calendar.day := 3 |}
           {| Calendar.year := 2024; Calendar.month := 1; Calendar.day := 1 |}
           eq_refl eq_refl).
  reflexivity.
Defined.

(** X4. With a range of two texts and no list, the selector raises exactly
    when one of the texts is not a date, with the error of the first text
    that fails; it never raises the configuration error.  A tuple that is
    no pair is not an error either: the result is empty. *)
Theorem select_dates_range_errors :
  (forall s e err,
      select_dates CfgNone (CfgTuple [s; e]) = Err err <->
      Calendar.strptime s = Err err
      \/ (exists start_date, Calendar.strptime s = Ok start_date
                             /\ Calendar.strptime e = Err err))
  /\ (forall l, List.length l <> 2%nat -> select_dates CfgNone (CfgTuple l) = Ok []).
Proof.
  split.
  - intros s e err. unfold select_dates. simpl.
    destruct (Calendar.strptime s) as [ds | es].
    + destruct (Calendar.strptime e) as [de | ee].
      * split; [discriminate|].
        intros [H | (d & _ & H)]; discriminate.
      * split.
        -- intro H. right. exists ds. split; [reflexivity | congruence].
        -- intros [H | (d & _ & H)]; [discriminate | congruence].
    + split.
      * intro H. left. congruence.
      * intros [H | (d & H & _)]; [congruence | discriminate].
  - intros l H. destruct l as [| a [| b [| c l]]]; try reflexivity.
    exfalso. apply H. reflexivity.
Qed.

Lemma nodup_map_injective {A B : Type} (f : A -> B) (l : list A) :
  (forall x y, In x l -> In y l -> f x = f y -> x = y) ->
  NoDup l -> NoDup (map f l).
Proof.
  intros Inj N. induction N as [| a l Ha N IH]; simpl; constructor.
  - intro H. apply in_map_iff in H. destruct H as (b & E & Hb).
    assert (b = a) by (apply Inj; [now right | now left | exact E]).
    subst b. contradiction.
  - apply IH. intros x y Hx Hy. apply Inj; now right.
Qed.

(** X5. The dates returned for a range are pairwise different texts: no
    date is processed twice. *)
Theorem select_dates_range_distinct (s e : string)
  (start_date end_date : Calendar.date) :
  Calendar.strptime s = Ok start_date ->
  Calendar.strptime e = Ok end_date ->
  exists dates,
    select_dates CfgNone (CfgTuple [s; e]) = Ok dates /\ NoDup dates.
Proof.
  intros Ps Pe.
  pose proof (CalendarFacts.strptime_valid _ _ Ps) as Vs.
  pose proof (CalendarFacts.strptime_valid _ _ Pe) as Ve.
  eexists. split.
  - unfold select_dates. simpl. rewrite Ps, Pe. reflexivity.
  - apply nodup_map_injective; [|apply seq_NoDup].
    intros i j Hi Hj E.
    apply in_seq in Hi. apply in_seq in Hj.
    unfold Calendar.days_between in Hi, Hj.
    assert (Calendar.valid (Calendar.add_days start_date i) = true) as Vi
        by (apply (valid_add_days _ end_date); auto; lia).
    assert (Calendar.valid (Calendar.add_days start_date j) = true) as Vj
        by (apply (valid_add_days _ end_date); auto; lia).
    pose proof (CalendarFacts.strptime_strftime _ Vi) as Ri.
    pose proof (CalendarFacts.strptime_strftime _ Vj) as Rj.
    rewrite E in Ri. rewrite Ri in Rj. inversion Rj as [Ed].
    apply (f_equal Calendar.toordinal) in Ed.
    apply CalendarFacts.valid_wf in Vs. destruct Vs as [_ Ws].
    rewrite !CalendarFacts.toordinal_add_days in Ed by exact Ws. lia.
Qed.

(** X5 on an example: the end of February in a leap year. *)
Lemma select_dates_range_distinct_example :
  exists dates,
    select_dates CfgNone (CfgTuple ["2024-02-28"; "2024-03-01"]) = Ok dates
    /\ NoDup dates.
Proof.
  exact (select_dates_range_distinct "2024-02-28" "2024-03-01"
           {| Calendar.year := 2024; Calendar.month := 2; Calendar.day := 28 |}
           {| Calendar.year := 2024; Calendar.month := 3; Calendar.day := 1 |}
           eq_refl eq_refl).
Defined.

(** ** Runs, composed *)

Section Footprints.
Variable W : world.

Lemma issued_bind {A B : Type} (p : io A) (f : A -> io B) (s : state W) :
  issued (run W (bind p f) s)
  = issued (run W p s)
    ++ match returned (run W p s) with
       | Ok a => issued (run W (f a) (final (run W p s)))
       | Err _ => []
       end.
Proof.
  rewrite run_bind. unfold issued, returned, final.
  destruct (run W p s) as [[[a | e] t1] s1]; cbn [fst snd].
  - destruct (run W (f a) s1) as [[res t2] s2]. reflexivity.
  - now rewrite app_nil_r.
Qed.

Lemma returned_bind {A B : Type} (p : io A) (f : A -> io B) (s : state W) :
  returned (run W (bind p f) s)
  = match returned (run W p s) with
    | Ok a => returned (run W (f a) (final (run W p s)))
    | Err e => Err e
    end.
Proof.
  rewrite run_bind. unfold returned, final.
  destruct (run W p s) as [[[a | e] t1] s1]; cbn [fst snd]; [|reflexivity].
  destruct (run W (f a) s1) as [[res t2] s2]. reflexivity.
Qed.

(** A property of requests that holds of what [p] issues and of what
    every continuation issues holds of what [bind p f] issues. *)
Lemma footprint_bind {A B : Type} (P : request -> Prop) (p : io A) (f : A -> io B) :
  (forall s, Forall P (issued (run W p s))) ->
  (forall a s, Forall P (issued (run W (f a) s))) ->
  forall s, Forall P (issued (run W (bind p f) s)).
Proof.
  intros Hp Hf s. rewrite issued_bind. apply Forall_app. split; [apply Hp|].
  destruct (returned (run W p s)); [apply Hf | constructor].
Qed.

Lemma footprint_ret {A : Type} (P : request -> Prop) (a : A) (s : state W) :
  Forall P (issued (run W (Ret a) s)).
Proof. constructor. Qed.

Lemma footprint_raise {A : Type} (P : request -> Prop) (e : exn) (s : state W) :
  Forall P (issued (run W (@Raise A e) s)).
Proof. constructor. Qed.

Lemma footprint_lift {A : Type} (P : request -> Prop) (r : result A) (s : state W) :
  Forall P (issued (run W (lift r) s)).
Proof. destruct r; constructor. Qed.

Lemma issued_get {T : Type} (r : request) (k : response r -> io (option T))
  (s : state W) :
  (forall x s', issued (run W (k x) s') = []) ->
  issued (run W (Do r k) s) = [r].
Proof.
  intro H. unfold issued in *. cbn [run].
  destruct (answer W r s) as [x s1].
  specialize (H x s1). destruct (run W (k x) s1) as [[res t] s2].
  cbn [fst snd] in *. now subst t.
Qed.

Lemma issued_base_get {T : Type} (h : http T) (s : state W) :
  issued (run W (BaseClient_get h) s) = [].
Proof.
  destruct h as [| status json]; [reflexivity|].
  cbn [BaseClient_get]. destruct (status =? 200); reflexivity.
Qed.

Lemma issued_base_post (h : http reply) (s : state W) :
  issued (run W (BaseClient_post h) s) = [].
Proof.
  destruct h as [| status json]; [reflexivity|].
  cbn [BaseClient_post].
  destruct ((status =? 200) || (status =? 201) || (status =? 202)); [|reflexivity].
  destruct json as [o | l]; [reflexivity|].
  destruct (existsb has_error l); reflexivity.
Qed.

Lemma issued_base_delete (h : http unit) (s : state W) :
  issued (run W (BaseClient_delete h) s) = [].
Proof. destruct h; reflexivity. Qed.

(** Each tracker operation issues its one request, whatever the answer. *)
Lemma issued_search_all_products (name : value) (date : string) (s : state W) :
  issued (run W (search_all_products name date) s) = [GetSearch date name].
Proof. rewrite run_search_all_products. reflexivity. Qed.

Lemma issued_create_product (data : product_data) (s : state W) :
  issued (run W (create_product data) s) = [PostProduct data].
Proof.
  unfold create_product. rewrite issued_bind.
  assert (issued (run W (h <- call (PostProduct data) ;; BaseClient_post h) s)
          = [PostProduct data]) as ->.
  { cbn [bind call]. apply issued_get. intros x s'. cbn [bind].
    apply issued_base_post. }
  destruct (returned _) as [[[[| f o] | [| it l]] |] | e]; reflexivity.
Qed.

Lemma issued_delete_product (product_id : value) (s : state W) :
  issued (run W (delete_product product_id) s) = [DeleteProduct product_id].
Proof. rewrite run_delete_product. reflexivity. Qed.

Lemma issued_fetch_viking_meal_details (delivery_id : value) (s : state W) :
  issued (run W (fetch_viking_meal_details delivery_id) s) = [GetDetails delivery_id].
Proof.
  unfold fetch_viking_meal_details. cbn [bind call]. apply issued_get.
  intros x s'. cbn [bind]. apply issued_base_get.
Qed.

End Footprints.

(** ** The tracker operations *)

(** X6. [search_all_products] issues the one search request, and when the
    tracker answers, the products returned are exactly the products of the
    answer that carry the name asked for and the brand, provided the
    status is 200; under any other status nothing is returned. *)
Theorem search_all_products_filters (W : world) (name : value) (date : string)
  (s : state W) :
  issued (run W (search_all_products name date) s) = [GetSearch date name]
  /\ forall status products,
      fst (answer W (GetSearch date name) s) = Response status products ->
      exists found,
        returned (run W (search_all_products name date) s) = Ok found
        /\ forall p, In p found <->
                     status = 200 /\ In p products
                     /\ py_eq (get "name" p) name = true
                     /\ py_eq (get "brand" p) (VStr BRAND) = true.
Proof.
  split; [apply issued_search_all_products|].
  intros status products Ha. rewrite run_search_all_products, Ha.
  eexists. split; [reflexivity|]. intro p.
  destruct (Z.eqb_spec status 200) as [E | E].
  - rewrite filter_In. unfold same_product. rewrite andb_true_iff. tauto.
  - split; [intros [] | intros [H _]; contradiction].
Qed.

(** X7. [create_product] issues the one creation request.  It returns
    the [id] of the reply when the status is 200, 201 or 202 and the reply
    is an object, and null when the status is another one, when the reply
    is a list that reports an error, or when the reply is empty; a list
    reply without an error makes it raise [AttributeError], and a request
    without response makes it raise. *)
Theorem create_product_outcomes (W : world) (data : product_data) (s : state W) :
  issued (run W (create_product data) s) = [PostProduct data]
  /\ (fst (answer W (PostProduct data) s) = NoResponse ->
      returned (run W (create_product data) s) = Err RequestException)
  /\ forall status json,
      fst (answer W (PostProduct data) s) = Response status json ->
      (accepted status = false ->
       returned (run W (create_product data) s) = Ok VNone)
      /\ (accepted status = true ->
          (forall o, json = ReplyObj o ->
                     returned (run W (create_product data) s) = Ok (get "id" o))
          /\ (forall l, json = ReplyList l ->
                (existsb has_error l = true \/ l = [] ->
                 returned (run W (create_product data) s) = Ok VNone)
                /\ (existsb has_error l = false -> l <> [] ->
                    returned (run W (create_product data) s)
                    = Err AttributeError))).
Proof.
  split; [apply issued_create_product|].
  unfold create_product, returned. cbn [bind call run].
  destruct (answer W (PostProduct data) s) as [h s1]. cbn [fst].
  split.
  - intros ->. reflexivity.
  - intros status json ->. unfold accepted. cbn [bind BaseClient_post].
    destruct ((status =? 200) || (status =? 201) || (status =? 202)).
    + split; [discriminate|]. intros _. split.
      * intros o ->. destruct o; reflexivity.
      * intros l ->. split.
        -- intros [H | ->]; [rewrite H; reflexivity|]. reflexivity.
        -- intros H Hl. rewrite H. destruct l; [contradiction | reflexivity].
    + split; [reflexivity | discriminate].
Qed.

Section ReconcilerPaths.
Variable W : world.

Lemma first_match_none (calories : value) (candidates : list obj) :
  Forall (fun p => values_match (get "energy" p) calories = Ok false) candidates ->
  first_match calories candidates = Ok None.
Proof.
  induction 1 as [| p l Hp _ IH]; [reflexivity|].
  cbn [first_match]. now rewrite Hp.
Qed.

Lemma first_match_some (calories : value) (candidates : list obj) (product : obj) :
  first_match calories candidates = Ok (Some product) ->
  In product candidates /\ values_match (get "energy" product) calories = Ok true.
Proof.
  induction candidates as [| p l IH]; cbn [first_match]; [discriminate|].
  destruct (values_match (get "energy" p) calories) as [[|] | e] eqn:E; intro H.
  - inversion H; subst. split; [now left | exact E].
  - destruct (IH H). split; [now right | assumption].
  - discriminate.
Qed.

(** X8. When the search returns candidates none of which has the meal's
    calories, the reconciler deletes nothing.  It makes the comparisons of
    the mismatch warning on the first candidate; when none of them raises,
    it issues after the search one creation request, for a product of the
    meal's name, the brand, the meal's calories and one package measure of
    the meal's weight, and returns what the creation returns; when one
    raises, the reconciler raises after the search and creates nothing. *)
Theorem create_or_find_product_mismatch
  (menu_meal_name : value) (nutrition : obj) (weight : value) (target_date : string)
  (s s0 : state W) (t0 : list request) (candidates : list obj) :
  let calories := get_or "calories" (VStr "N/A") nutrition in
  let data := new_product_data menu_meal_name nutrition weight in
  let outcome := run W (create_or_find_product menu_meal_name nutrition weight
                          target_date) s in
  run W (search_all_products menu_meal_name target_date) s = (Ok candidates, t0, s0) ->
  Forall (fun p => values_match (get "energy" p) calories = Ok false) candidates ->
  deleted (issued outcome) = []
  /\ (forall labels,
         mismatch_report candidates nutrition = Ok labels ->
         issued outcome = t0 ++ [PostProduct data]
         /\ returned outcome = returned (run W (create_product data) s0))
  /\ (forall e,
         mismatch_report candidates nutrition = Err e ->
         outcome = (Err e, t0, s0))
  /\ pd_name data = menu_meal_name /\ pd_brand data = BRAND
  /\ pd_energy data = calories
  /\ pd_measures data = [ {| measureKey := "PACKAGE"; measureUnit := "g";
                             weight_str := weight |} ].
Proof.
  intros calories data outcome Hs Hn.
  assert (t0 = [GetSearch target_date menu_meal_name]) as Et.
  { pose proof (issued_search_all_products W menu_meal_name target_date s) as I.
    rewrite Hs in I. exact I. }
  assert (outcome
          = match mismatch_report candidates nutrition with
            | Ok _ => (returned (run W (create_product data) s0),
                       t0 ++ [PostProduct data],
                       final (run W (create_product data) s0))
            | Err e => (Err e, t0, s0)
            end) as E.
  { subst outcome. unfold create_or_find_product.
    rewrite run_bind, Hs. fold calories.
    rewrite (first_match_none calories candidates Hn). cbn [lift bind].
    rewrite run_bind, run_lift. fold data.
    destruct (mismatch_report candidates nutrition) as [labels | e].
    - pose proof (issued_create_product W data s0) as I.
      unfold issued, returned, final in *.
      destruct (run W (create_product data) s0) as [[res t] s1].
      cbn [fst snd app] in *. now subst t.
    - now rewrite app_nil_r. }
  split; [| split; [| split; [| repeat split]]].
  - rewrite E, Et. destruct (mismatch_report candidates nutrition); reflexivity.
  - intros labels Hl. rewrite E, Hl. split; reflexivity.
  - intros e He. rewrite E, He. reflexivity.
Qed.

(** The loop of deletions stops at the first delete that gets no
    response. *)
Lemma run_delete_duplicates_no_response (matched_id : value) (products : list obj) :
  forall (p : obj) (rest : list obj) (s : state W),
    filter (differs matched_id) products = p :: rest ->
    fst (answer W (DeleteProduct (get "foodId" p)) s) = NoResponse ->
    run W (delete_duplicates matched_id products) s
    = (Err RequestException, [delete_of p],
       snd (answer W (DeleteProduct (get "foodId" p)) s)).
Proof.
  induction products as [| q l IH]; intros p rest s Hf Ha; [discriminate|].
  cbn [filter] in Hf. cbn [delete_duplicates].
  unfold differs in Hf at 1.
  destruct (negb (py_eq (get "foodId" q) matched_id)).
  - inversion Hf; subst q.
    rewrite run_bind, run_bind, run_delete_product, Ha. reflexivity.
  - rewrite run_bind. cbn [run]. rewrite run_bind, (IH p rest s Hf Ha).
    reflexivity.
Qed.

(** X9. A delete that gets no response ends the reconciliation: when the
    first candidate to delete is [p] and its delete request gets no
    response, the reconciler raises instead of returning the matched id,
    and the candidates after [p] are not deleted. *)
Theorem create_or_find_product_delete_raises
  (menu_meal_name : value) (nutrition : obj) (weight : value) (target_date : string)
  (s s0 : state W) (t0 : list request)
  (candidates rest : list obj) (product p : obj) :
  let calories := get_or "calories" (VStr "N/A") nutrition in
  run W (search_all_products menu_meal_name target_date) s = (Ok candidates, t0, s0) ->
  first_match calories candidates = Ok (Some product) ->
  filter (differs (get "foodId" product)) candidates = p :: rest ->
  fst (answer W (DeleteProduct (get "foodId" p)) s0) = NoResponse ->
  run W (create_or_find_product menu_meal_name nutrition weight target_date) s
  = (Err RequestException, t0 ++ [delete_of p],
     snd (answer W (DeleteProduct (get "foodId" p)) s0)).
Proof.
  intros calories Hs Hf Hd Ha.
  assert (exists f o, product = f :: o) as (f & o & Ep).
  { pose proof (search_all_products_sound W _ _ _ _ _ _ Hs) as F.
    rewrite Forall_forall in F.
    apply (same_product_nonempty menu_meal_name), F.
    apply first_match_some in Hf. tauto. }
  unfold create_or_find_product. rewrite run_bind, Hs. fold calories.
  rewrite Hf. cbn [lift bind]. rewrite Ep at 1. rewrite <- Ep.
  rewrite run_bind, (run_delete_duplicates_no_response _ _ p rest s0 Hd Ha).
  reflexivity.
Qed.

(** The path without a match: the report, then the creation. *)
Lemma issued_report_create (found : list obj) (nutrition : obj) (data : product_data)
  (s : state W) :
  Forall is_delete
         (issued (run W (lift (mismatch_report found nutrition) ;;;
                         create_product data) s))
  \/ issued (run W (lift (mismatch_report found nutrition) ;;;
                    create_product data) s)
     = [PostProduct data].
Proof.
  rewrite issued_bind, run_lift. cbn [issued returned final fst snd app].
  destruct (mismatch_report found nutrition); [right | left; constructor].
  apply issued_create_product.
Qed.

Lemma footprint_delete_duplicates (matched_id : value) (products : list obj) :
  forall s, Forall is_delete (issued (run W (delete_duplicates matched_id products) s)).
Proof.
  induction products as [| p l IH]; intro s; [constructor|].
  cbn [delete_duplicates]. apply footprint_bind.
  - intro s'. destruct (negb (py_eq (get "foodId" p) matched_id)); [|constructor].
    apply footprint_bind.
    + intro s''. rewrite issued_delete_product. repeat constructor. eexists.
      reflexivity.
    + intros a s''. constructor.
  - intros n s'. apply footprint_bind; [apply IH|]. intros m s''. constructor.
Qed.

(** X10. Whatever the tracker answers, a reconciliation starts with the
    one search and then either only deletes or issues the one creation
    request, never both. *)
Theorem create_or_find_product_footprint
  (menu_meal_name : value) (nutrition : obj) (weight : value) (target_date : string)
  (s : state W) :
  exists rest,
    issued (run W (create_or_find_product menu_meal_name nutrition weight
                     target_date) s)
    = GetSearch target_date menu_meal_name :: rest
    /\ (Forall is_delete rest
        \/ rest = [PostProduct (new_product_data menu_meal_name nutrition weight)]).
Proof.
  unfold create_or_find_product. rewrite issued_bind, issued_search_all_products.
  cbn [app]. eexists. split; [reflexivity|].
  destruct (returned (run W (search_all_products _ _) s)) as [found | e];
    [| left; constructor].
  rewrite issued_bind, run_lift. cbn [issued returned final fst snd app].
  destruct (first_match _ found) as [[[| f o] |] | e]; [| | | left; constructor].
  - apply issued_report_create.
  - left. rewrite issued_bind.
    apply Forall_app. split; [apply footprint_delete_duplicates|].
    destruct (returned _); constructor.
  - apply issued_report_create.
Qed.

End ReconcilerPaths.

(** X8 on an example: three candidates, none of 999 kcal. *)
Lemma create_or_find_product_mismatch_example :
  issued (run (scripted (searching 200 three_candidates))
            (create_or_find_product dish feast (VInt 400) "2024-01-01") 0%nat)
  = [GetSearch "2024-01-01" dish; PostProduct (new_product_data dish feast (VInt 400))]
  /\ returned (run (scripted (searching 200 three_candidates))
                  (create_or_find_product dish feast (VInt 400) "2024-01-01") 0%nat)
     = Ok (VInt 99).
Proof.
  destruct (create_or_find_product_mismatch (scripted (searching 200 three_candidates))
              dish feast (VInt 400) "2024-01-01" 0%nat 0%nat
              [GetSearch "2024-01-01" dish] three_candidates eq_refl
              ltac:(repeat constructor))
    as (_ & C & _).
  destruct (C ["Calories"] eq_refl) as [I R].
  split; [exact I | rewrite R; reflexivity].
Defined.

(** X9 on an example: the second candidate matches and the delete of the
    first gets no response. *)
Lemma create_or_find_product_delete_raises_example :
  run (scripted (creating 201 (ReplyObj [("id", VInt 99)])))
      (create_or_find_product dish lunch (VInt 400) "2024-01-01") 0%nat
  = (Err RequestException,
     [GetSearch "2024-01-01" dish; DeleteProduct (VInt 11)], 0%nat).
Proof.
  exact (create_or_find_product_delete_raises
           (scripted (creating 201 (ReplyObj [("id", VInt 99)])))
           dish lunch (VInt 400) "2024-01-01" 0%nat 0%nat
           [GetSearch "2024-01-01" dish] three_candidates [stored 13 700]
           (stored 12 650) (stored 11 500) eq_refl eq_refl eq_refl eq_refl).
Defined.

(** ** Meal processing off the straight path *)

(** X11. Without a delivery id [process_meal] raises [KeyError] before any
    request.  With one, it issues the details request first; when that is
    answered with a status other than 200, or with an empty object, it
    returns no maps and issues nothing else; when it gets no response,
    [process_meal] raises. *)
Theorem process_meal_without_details (W : world) (delivery : obj)
  (target_date : string) (s : state W) :
  (lookup "deliveryId" delivery = None ->
   run W (process_meal delivery target_date) s = (Err KeyError, [], s))
  /\ forall delivery_id,
      lookup "deliveryId" delivery = Some delivery_id ->
      let s1 := snd (answer W (GetDetails delivery_id) s) in
      (fst (answer W (GetDetails delivery_id) s) = NoResponse ->
       run W (process_meal delivery target_date) s
       = (Err RequestException, [GetDetails delivery_id], s1))
      /\ (forall status json,
            fst (answer W (GetDetails delivery_id) s) = Response status json ->
            status <> 200 \/ json = EmptyObject ->
            run W (process_meal delivery target_date) s
            = (Ok None, [GetDetails delivery_id], s1)).
Proof.
  unfold process_meal, item. split.
  - intros ->. reflexivity.
  - intros delivery_id Hid. rewrite Hid. clear Hid. cbv zeta. cbn [lift bind].
    unfold fetch_viking_meal_details. cbn [bind call run].
    destruct (answer W (GetDetails delivery_id) s) as [h s1]. cbn [fst snd].
    split.
    + intros ->. reflexivity.
    + intros status json -> H. cbn [bind BaseClient_get].
      destruct (Z.eqb_spec status 200) as [E | E].
      * destruct H as [H | ->]; [contradiction | reflexivity].
      * reflexivity.
Qed.

Lemma mem_keys {V : Type} (k : string) (d : dict V) :
  mem k d = true <-> In k (keys d).
Proof.
  unfold mem. destruct (lookup k d) eqn:L.
  - split; [|reflexivity]. intros _. apply lookup_in in L.
    apply (in_keys _ _ _ L).
  - split; [discriminate|]. intro H. apply lookup_none_keys in L. contradiction.
Qed.

Lemma mem_same_keys {V : Type} (k : string) (d e : dict V) :
  keys d = keys e -> mem k d = mem k e.
Proof.
  intro E. apply eq_true_iff_eq. rewrite !mem_keys, E. tauto.
Qed.

Lemma resolved_maps_set (k : string) (product_id w : value)
  (meal_ids meal_weights : dict value) :
  truthy product_id = true ->
  resolved_maps meal_ids meal_weights ->
  resolved_maps (set k product_id meal_ids) (set k w meal_weights).
Proof.
  intros T (F & N & K). split; [| split].
  - apply values_set; assumption.
  - apply nodup_keys_set. exact N.
  - rewrite !keys_set, (mem_same_keys k meal_weights meal_ids K), K. reflexivity.
Qed.

Lemma resolved_maps_update (e e' : dict value) :
  forall d d',
    resolved_maps d d' -> resolved_maps e e' ->
    resolved_maps (update d e) (update d' e').
Proof.
  unfold update. revert e'.
  induction e as [| [k v] e IH]; intros e' d d' Hd (F & N & K).
  - destruct e'; [exact Hd | discriminate].
  - destruct e' as [| [k' v'] e']; [discriminate|].
    unfold keys in K. cbn [map fst] in K. inversion K as [[Ek Ke]]. subst k'.
    cbn [fold_left fst snd].
    inversion F; subst. inversion N; subst.
    apply IH.
    + apply resolved_maps_set; assumption.
    + split; [assumption | split; [assumption | exact Ke]].
Qed.

Section Pipeline.
Variable W : world.
Variable target_date : string.

Lemma process_lines_resolved (lines : list meal) :
  forall s meal_ids meal_weights r,
    resolved_maps meal_ids meal_weights ->
    returned (run W (process_lines target_date lines meal_ids meal_weights) s) = Ok r ->
    resolved_maps (fst r) (snd r).
Proof.
  induction lines as [| m rest IH]; intros s ids ws r Inv H.
  - inversion H. exact Inv.
  - cbn [process_lines] in H.
    destruct (is_none (deliveryMealId m)); [eapply IH; eassumption|].
    destruct (truthy (menuMealName m)); [|eapply IH; eassumption].
    rewrite returned_bind in H.
    destruct (returned (run W (create_or_find_product _ _ _ _) s)) as [pid | e];
      [|discriminate].
    destruct (truthy pid) eqn:T; [|eapply IH; eassumption].
    eapply IH; [|exact H]. apply resolved_maps_set; assumption.
Qed.

Lemma process_meal_resolved (delivery : obj) (s : state W) (r : dict value * dict value) :
  returned (run W (process_meal delivery target_date) s) = Ok (Some r) ->
  resolved_maps (fst r) (snd r).
Proof.
  unfold process_meal. rewrite returned_bind, run_lift. unfold returned at 1, final.
  cbn [fst snd].
  destruct (item "deliveryId" delivery) as [id | e]; [|discriminate].
  rewrite returned_bind.
  destruct (returned (run W (fetch_viking_meal_details id) s)) as [[[| lines] |] | e];
    try discriminate.
  rewrite returned_bind.
  destruct (returned (run W (process_lines _ lines [] []) _)) as [r' | e] eqn:E;
    [|discriminate].
  intro H. inversion H; subst r'.
  eapply process_lines_resolved; [|exact E].
  repeat split; constructor.
Qed.

Lemma process_deliveries_resolved (deliveries : list obj) :
  forall s all_meal_ids all_meal_weights r,
    resolved_maps all_meal_ids all_meal_weights ->
    returned (run W (process_deliveries target_date deliveries all_meal_ids
                       all_meal_weights) s) = Ok r ->
    resolved_maps (fst r) (snd r).
Proof.
  induction deliveries as [| d rest IH]; intros s ids ws r Inv H.
  - inversion H. exact Inv.
  - cbn [process_deliveries] in H. rewrite returned_bind in H.
    destruct (returned (run W (process_meal d target_date) s))
      as [[[[| f mids] mws] |] | e] eqn:E; try discriminate;
      try (eapply IH; eassumption).
    eapply IH; [|exact H].
    apply resolved_maps_update; [exact Inv|].
    apply (process_meal_resolved d s (f :: mids, mws) E).
Qed.

(** X12. Whatever the services answer, the maps that [process_date]
    returns go together: every product id is a true value (never null,
    zero or empty), no meal name occurs twice, and the weights are
    recorded under exactly the names of the ids; so the publisher finds a
    weight for every meal, and its default of 100 is never used on them. *)
Theorem process_date_resolved (deliveries : list obj) (s : state W)
  (meal_ids meal_weights : dict value) :
  returned (run W (process_date target_date deliveries) s)
  = Ok (meal_ids, meal_weights) ->
  resolved_maps meal_ids meal_weights
  /\ forall meal_name product_id,
      In (meal_name, product_id) meal_ids ->
      exists w, lookup meal_name meal_weights = Some w
                /\ get_or meal_name (VInt 100) meal_weights = w.
Proof.
  intro H.
  assert (resolved_maps meal_ids meal_weights) as Inv.
  { apply (process_deliveries_resolved
             (fetch_deliveries_for_date deliveries target_date) s [] []
             (meal_ids, meal_weights));
      [repeat split; constructor | exact H]. }
  split; [exact Inv|].
  intros name id Hin. destruct Inv as (_ & _ & K).
  assert (mem name meal_weights = true) as M.
  { rewrite (mem_same_keys name meal_weights meal_ids K).
    apply mem_keys. apply (in_keys _ _ _ Hin). }
  unfold mem in M. unfold get_or.
  destruct (lookup name meal_weights) as [w |]; [|discriminate].
  exists w. auto.
Qed.

Lemma footprint_create_or_find_product
  (menu_meal_name : value) (nutrition : obj) (weight : value) (s : state W) :
  Forall product_request
         (issued (run W (create_or_find_product menu_meal_name nutrition weight
                           target_date) s)).
Proof.
  unfold create_or_find_product. revert s. apply footprint_bind.
  - intro s. rewrite issued_search_all_products. repeat constructor.
  - intros found. apply footprint_bind; [intro; apply footprint_lift|].
    intros [[| f o] |] s.
    + revert s. apply footprint_bind; [intro; apply footprint_lift|].
      intros labels s. rewrite issued_create_product. repeat constructor.
    + revert s. apply footprint_bind; [|intros; constructor].
      intro s. eapply Forall_impl; [|apply footprint_delete_duplicates].
      intros r [i ->]. exact I.
    + revert s. apply footprint_bind; [intro; apply footprint_lift|].
      intros labels s. rewrite issued_create_product. repeat constructor.
Qed.

Lemma footprint_process_lines (lines : list meal) :
  forall meal_ids meal_weights s,
    Forall product_request
           (issued (run W (process_lines target_date lines meal_ids meal_weights) s)).
Proof.
  induction lines as [| m rest IH]; intros ids ws s; [constructor|].
  cbn [process_lines].
  destruct (is_none (deliveryMealId m)); [apply IH|].
  destruct (truthy (menuMealName m)); [|apply IH].
  revert s. apply footprint_bind.
  - apply footprint_create_or_find_product.
  - intros pid s. destruct (truthy pid); apply IH.
Qed.

Lemma footprint_process_meal (delivery : obj) (s : state W) :
  Forall product_request (issued (run W (process_meal delivery target_date) s)).
Proof.
  unfold process_meal. revert s. apply footprint_bind.
  - intro s. apply footprint_lift.
  - intros id. apply footprint_bind.
    + intro s. rewrite issued_fetch_viking_meal_details. repeat constructor.
    + intros [[| lines] |] s; try constructor.
      revert s. apply footprint_bind; [apply footprint_process_lines|].
      intros; constructor.
Qed.

Lemma footprint_process_deliveries (ds : list obj) :
  forall ids ws s,
    Forall product_request
           (issued (run W (process_deliveries target_date ds ids ws) s)).
Proof.
  induction ds as [| d rest IH]; intros ids ws s; [constructor|].
  cbn [process_deliveries]. revert s. apply footprint_bind.
  - apply footprint_process_meal.
  - intros [[[| f mids] mws] |] s; apply IH.
Qed.

(** X13. Whatever the services answer, [process_date] only asks for
    delivery details and searches, creates and deletes products: it never
    reads or posts a diet plan. *)
Theorem process_date_footprint (deliveries : list obj) (s : state W) :
  Forall product_request (issued (run W (process_date target_date deliveries) s)).
Proof. unfold process_date. apply footprint_process_deliveries. Qed.

End Pipeline.

(** X12 on an example: one delivery with a delivered lunch and a supper
    that was not delivered. *)
Lemma process_date_resolved_example :
  resolved_maps [("Obiad", VInt 7)] [("Obiad", VInt 400)]
  /\ exists w, lookup "Obiad" [("Obiad", VInt 400)] = Some w
               /\ get_or "Obiad" (VInt 100) [("Obiad", VInt 400)] = w.
Proof.
  destruct (process_date_resolved (scripted (delivering two_lines (VInt 7)))
              "2024-01-01"
              [[("deliveryId", VInt 5); ("date", VStr "2024-01-01")]] 0%nat
              [("Obiad", VInt 7)] [("Obiad", VInt 400)] eq_refl) as [Inv D].
  split; [exact Inv|]. apply (D "Obiad" (VInt 7)). now left.
Defined.

(** ** The publisher off the straight path *)

Lemma lookup_map_values {V U : Type} (f : V -> U) (k : string) (d : dict V) :
  lookup k (map (fun kv => (fst kv, f (snd kv))) d) = option_map f (lookup k d).
Proof.
  induction d as [| [k' v] d IH]; [reflexivity|].
  cbn [map lookup fst snd]. destruct (String.eqb k k'); [reflexivity | exact IH].
Qed.

(** X14. [get_existing_diet_plan] issues the one plan request.  Answered
    with status 200, it returns the slots of the answer, in order, each
    with those of its items that carry the brand, in order; a slot whose
    items are all of other brands stays, with no item.  Answered with
    another status, it returns the empty plan. *)
Theorem get_existing_diet_plan_filters (W : world) (date : string) (s : state W) :
  issued (run W (get_existing_diet_plan date) s) = [GetDietPlan date]
  /\ forall status raw,
      fst (answer W (GetDietPlan date) s) = Response status raw ->
      (status <> 200 -> returned (run W (get_existing_diet_plan date) s) = Ok [])
      /\ (status = 200 ->
          exists existing_plan,
            returned (run W (get_existing_diet_plan date) s) = Ok existing_plan
            /\ keys existing_plan = keys raw
            /\ forall slot,
                mem slot existing_plan = mem slot raw
                /\ slot_items slot existing_plan
                   = filter (fun it => py_eq (get "brand" it) (VStr BRAND))
                            (slot_items slot raw)).
Proof.
  split; [apply run_get_existing_diet_plan|].
  intros status raw Ha. unfold get_existing_diet_plan, returned.
  cbn [bind call run].
  destruct (answer W (GetDietPlan date) s) as [h s1]. cbn [fst] in Ha. subst h.
  cbn [bind BaseClient_get]. split.
  - intro H. apply Z.eqb_neq in H. rewrite H. reflexivity.
  - intros ->. cbn [Z.eqb Pos.eqb bind run fst].
    eexists. split; [reflexivity|]. split.
    + unfold keys. rewrite map_map. reflexivity.
    + intro slot. unfold mem, slot_items, get_or.
      rewrite (lookup_map_values
                 (filter (fun it => py_eq (get "brand" it) (VStr BRAND))) slot raw).
      destruct (lookup slot raw); split; reflexivity.
Qed.

Section PublisherPaths.
Variable W : world.
Variable MEAL_MAPPING : dict string.

(** X15. A meal whose name the mapping does not know, or maps to the empty
    slot, is left out before anything else happens: nothing is requested,
    the plan stays as it is, and the weight is not even converted. *)
Theorem add_meal_unmapped (diet_plan : plan) (meal_name : string)
  (meal_id meal_weight : value) (existing_plan : plan) (s : state W) :
  lookup meal_name MEAL_MAPPING = None \/ lookup meal_name MEAL_MAPPING = Some "" ->
  run W (add_meal_to_diet_plan MEAL_MAPPING diet_plan meal_name meal_id meal_weight
           existing_plan) s
  = (Ok diet_plan, [], s).
Proof.
  intros [H | H]; rewrite run_add_meal, H; reflexivity.
Qed.

(** The plan posted when no meal is resolved. *)
Lemma posted_without_meals (date : string) (meal_weights : dict value)
  (s s0 : state W) (existing_plan : plan) (t0 : list request) :
  run W (get_existing_diet_plan date) s = (Ok existing_plan, t0, s0) ->
  NoDup (keys existing_plan) ->
  with_product_ids existing_plan ->
  exists payload,
    posted (issued (run W (publish_diet_plan MEAL_MAPPING date [] meal_weights) s))
    = [(date, payload)]
    /\ forall slot items,
        In (slot, items) existing_plan ->
        Forall2 soft_deleted items (slot_items slot payload).
Proof.
  intros Rg N Hp.
  destruct (run_publish_diet_plan W MEAL_MAPPING date [] meal_weights
              s s0 existing_plan t0 Rg Hp)
    as (existing' & payload & P & F & S).
  { intros name id []. }
  exists payload. split; [exact P|].
  intros slot items Hin.
  destruct (S slot) as (news & Hs & Hm & _).
  cbn [additions added_to filter map] in Hm.
  apply map_eq_nil in Hm. subst news. rewrite app_nil_r in Hs.
  pose proof (lookup_marked (values []) existing_plan existing' F slot) as L.
  rewrite (in_lookup slot items existing_plan N Hin) in L.
  destruct (lookup slot existing') as [items' |] eqn:E'; [|contradiction].
  assert (slot_items slot payload = items') as ->.
  { rewrite Hs, slot_items_kept, E'.
    - destruct items'; reflexivity.
    - rewrite (keys_marked _ _ _ F). exact N. }
  eapply Forall2_impl; [|exact L].
  intros it it' [_ Hout]. destruct (Hout eq_refl) as (now & E & _).
  exists now. exact E.
Qed.

(** X16. Publishing with no resolved meal soft-deletes the whole vendor
    plan of the date: the plan posted holds, in every slot of the existing
    plan, the existing items, each with a deletion timestamp, and no new
    item. *)
Theorem publish_without_meals (date : string) (meal_weights : dict value)
  (s s0 : state W) (existing_plan : plan) (t0 : list request) :
  run W (get_existing_diet_plan date) s = (Ok existing_plan, t0, s0) ->
  NoDup (keys existing_plan) ->
  with_product_ids existing_plan ->
  exists payload,
    posted (issued (run W (publish_diet_plan MEAL_MAPPING date [] meal_weights) s))
    = [(date, payload)]
    /\ forall slot items,
        In (slot, items) existing_plan ->
        Forall2 soft_deleted items (slot_items slot payload).
Proof. exact (posted_without_meals date meal_weights s s0 existing_plan t0). Qed.

Lemma additions_nothing_planned (pairs : list (string * value))
  (name slot : string) (id : value) :
  In (name, id) pairs -> lookup name MEAL_MAPPING = Some slot -> slot <> "" ->
  In (slot, id) (additions MEAL_MAPPING pairs []).
Proof.
  intros Hin Hl Hne. induction pairs as [| [n i] rest IH]; [destruct Hin|].
  cbn [additions].
  assert (forall k, already_planned k i [] = false) as A.
  { intro k. unfold already_planned. cbn. now rewrite andb_false_r. }
  destruct Hin as [E | Hin].
  - inversion E; subst. rewrite Hl. apply String.eqb_neq in Hne. rewrite Hne, A.
    now left.
  - specialize (IH Hin).
    destruct (lookup n MEAL_MAPPING) as [k |]; [|exact IH].
    destruct (String.eqb k ""); [exact IH|]. rewrite A. now right.
Qed.

Lemma in_added_to (slot : string) (id : value) (pairs : list (string * value)) :
  In (slot, id) pairs -> In id (added_to slot pairs).
Proof.
  intro H. unfold added_to. apply in_map_iff. exists (slot, id).
  split; [reflexivity|]. apply filter_In. split; [exact H|].
  apply String.eqb_refl.
Qed.

(** X17. When the plan request is answered with a status other than 200,
    the publisher goes on as if the date had no plan: nothing is marked,
    and every resolved meal whose name maps to a slot gets a new item,
    whether or not the tracker already holds one. *)
Theorem publish_after_failed_fetch (date : string)
  (meal_ids meal_weights : dict value) (s : state W) (status : Z) (raw : plan) :
  fst (answer W (GetDietPlan date) s) = Response status raw ->
  status <> 200 ->
  weights_convert meal_ids meal_weights ->
  exists payload,
    posted (issued (run W (publish_diet_plan MEAL_MAPPING date meal_ids
                             meal_weights) s)) = [(date, payload)]
    /\ (forall slot,
           map (get "productId") (slot_items slot payload)
           = added_to slot (additions MEAL_MAPPING meal_ids [])
           /\ Forall (fun it => get "deletedAt" it = VNone) (slot_items slot payload))
    /\ forall name id slot,
        In (name, id) meal_ids -> lookup name MEAL_MAPPING = Some slot ->
        slot <> "" ->
        In id (map (get "productId") (slot_items slot payload)).
Proof.
  intros Ha Hs Hw.
  assert (run W (get_existing_diet_plan date) s
          = (Ok [], [GetDietPlan date], snd (answer W (GetDietPlan date) s))) as Rg.
  { unfold get_existing_diet_plan. cbn [bind call run].
    destruct (answer W (GetDietPlan date) s) as [h s1]. cbn [fst snd] in *. subst h.
    cbn [bind BaseClient_get]. apply Z.eqb_neq in Hs. rewrite Hs. reflexivity. }
  destruct (run_publish_diet_plan W MEAL_MAPPING date meal_ids meal_weights
              s _ [] _ Rg) as (existing' & payload & P & F & S).
  { intros slot items it []. }
  { exact Hw. }
  inversion F; subst existing'.
  exists payload. split; [exact P|].
  assert (forall slot,
             map (get "productId") (slot_items slot payload)
             = added_to slot (additions MEAL_MAPPING meal_ids [])
             /\ Forall (fun it => get "deletedAt" it = VNone) (slot_items slot payload))
    as Slots.
  { intro slot. destruct (S slot) as (news & E & Hm & Hd).
    cbn in E. rewrite E. auto. }
  split; [exact Slots|].
  intros name id slot Hin Hl Hne.
  destruct (Slots slot) as [-> _].
  apply in_added_to, (additions_nothing_planned meal_ids name); assumption.
Qed.

Lemma footprint_mark_items (ids : list value) (items : list obj) :
  forall s, Forall clock_or_uuid (issued (run W (mark_items ids items) s)).
Proof.
  induction items as [| it rest IH]; intro s; [constructor|].
  cbn [mark_items]. revert s. apply footprint_bind; [intro; apply footprint_lift|].
  intros pid. apply footprint_bind.
  - intro s. destruct (negb (py_in pid ids)); [|constructor].
    unfold issued. cbn [bind call run]. destruct (answer W Now s).
    cbn [fst snd]. apply Forall_cons; [now left | apply Forall_nil].
  - intros it'. apply footprint_bind; [exact IH | intros; constructor].
Qed.

Lemma footprint_mark_plan (ids : list value) (existing_plan : plan) :
  forall diet_plan s,
    Forall clock_or_uuid (issued (run W (mark_plan ids existing_plan diet_plan) s)).
Proof.
  induction existing_plan as [| [k items] rest IH]; intros dp s; [constructor|].
  cbn [mark_plan]. revert s. apply footprint_bind; [apply footprint_mark_items|].
  intros items'. apply footprint_bind; [apply IH | intros; constructor].
Qed.

Lemma footprint_add_meals (pairs : list (string * value)) (meal_weights : dict value)
  (existing_plan : plan) :
  forall diet_plan s,
    Forall clock_or_uuid
           (issued (run W (add_meals MEAL_MAPPING pairs meal_weights existing_plan
                             diet_plan) s)).
Proof.
  induction pairs as [| [name id] rest IH]; intros dp s; [constructor|].
  cbn [add_meals]. revert s. apply footprint_bind; [|intros; apply IH].
  intro s. rewrite run_add_meal.
  destruct (lookup name MEAL_MAPPING) as [key |]; [|constructor].
  destruct (String.eqb key ""); [constructor|].
  destruct (already_planned key id existing_plan); [constructor|].
  cbv zeta. destruct (int _); unfold issued; cbn [fst snd];
    repeat (apply Forall_cons; [unfold clock_or_uuid; auto|]); apply Forall_nil.
Qed.

Lemma issued_post_plan (date : string) (payload : plan) (s : state W) :
  issued (run W (response <- (h <- call (PostDietPlan date payload) ;;
                              BaseClient_post h) ;;
                 Ret (reply_truthy response)) s)
  = [PostDietPlan date payload].
Proof.
  rewrite issued_bind.
  assert (issued (run W (h <- call (PostDietPlan date payload) ;; BaseClient_post h) s)
          = [PostDietPlan date payload]) as ->.
  { cbn [bind call]. apply issued_get. intros x s'. cbn [bind].
    apply issued_base_post. }
  destruct (returned _); reflexivity.
Qed.

Lemma posted_clock_or_uuid (t : list request) :
  Forall clock_or_uuid t -> posted t = [].
Proof.
  induction 1 as [| r t [-> | ->] _ IH]; [reflexivity | exact IH | exact IH].
Qed.

(** A publish either raises before its final request, and posts nothing,
    or posts one plan, of its date. *)
Lemma publish_posts_or_raises (date : string) (meal_ids meal_weights : dict value)
  (s : state W) :
  (posted (issued (run W (publish_diet_plan MEAL_MAPPING date meal_ids
                            meal_weights) s)) = []
   /\ exists e, returned (run W (publish_diet_plan MEAL_MAPPING date meal_ids
                                   meal_weights) s) = Err e)
  \/ exists payload,
       posted (issued (run W (publish_diet_plan MEAL_MAPPING date meal_ids
                                meal_weights) s)) = [(date, payload)].
Proof.
  unfold publish_diet_plan.
  rewrite issued_bind, returned_bind, run_get_existing_diet_plan.
  rewrite posted_app. cbn [posted flat_map app].
  destruct (returned (run W (get_existing_diet_plan date) s)) as [existing | e];
    [| left; split; [reflexivity | now exists e]].
  rewrite issued_bind, returned_bind, posted_app.
  rewrite (posted_clock_or_uuid _ (footprint_mark_plan (values meal_ids) existing []
             (final (run W (get_existing_diet_plan date) s)))).
  destruct (returned (run W (mark_plan _ existing []) _)) as [marked_plan | e];
    [| left; split; [reflexivity | now exists e]].
  rewrite issued_bind, returned_bind, posted_app.
  match goal with
  | |- context [run W (add_meals ?m ?p ?w ?e ?d) ?st] =>
      rewrite (posted_clock_or_uuid _ (footprint_add_meals p w e d st));
      destruct (returned (run W (add_meals m p w e d) st)) as [diet_plan | e']
  end.
  2:{ left. split; [reflexivity | now exists e']. }
  right. rewrite issued_post_plan. eexists. reflexivity.
Qed.

(** X18. Whatever the tracker answers, a publish starts with the one plan
    request, then only reads the clock and generates identifiers, and
    posts at most one plan, as its last request: it never searches,
    creates or deletes a product. *)
Theorem publish_diet_plan_footprint (date : string)
  (meal_ids meal_weights : dict value) (s : state W) :
  exists rest,
    issued (run W (publish_diet_plan MEAL_MAPPING date meal_ids meal_weights) s)
    = GetDietPlan date :: rest
    /\ (Forall clock_or_uuid rest
        \/ exists before payload,
            rest = before ++ [PostDietPlan date payload]
            /\ Forall clock_or_uuid before).
Proof.
  unfold publish_diet_plan.
  rewrite issued_bind, run_get_existing_diet_plan. cbn [app].
  eexists. split; [reflexivity|].
  destruct (returned (run W (get_existing_diet_plan date) s)) as [existing | e];
    [| left; constructor].
  rewrite issued_bind.
  pose proof (footprint_mark_plan (values meal_ids) existing []
                (final (run W (get_existing_diet_plan date) s))) as Fm.
  destruct (returned (run W (mark_plan _ existing []) _)) as [marked_plan | e];
    [| left; now rewrite app_nil_r].
  rewrite issued_bind.
  match goal with
  | |- context [run W (add_meals ?m ?p ?w ?e ?d) ?st] =>
      pose proof (footprint_add_meals p w e d st) as Fa;
      destruct (returned (run W (add_meals m p w e d) st)) as [diet_plan | e']
  end.
  2:{ left. rewrite app_nil_r. apply Forall_app. auto. }
  right. rewrite issued_post_plan.
  eexists. eexists. split; [rewrite app_assoc; reflexivity|].
  apply Forall_app. auto.
Qed.

End PublisherPaths.

(** X15 on an example: a snack the default mapping does not know, with a
    weight that is no number. *)
Lemma add_meal_unmapped_example :
  run (scripted quiet)
      (add_meal_to_diet_plan default_MEAL_MAPPING [] "Deser" (VInt 7) (VStr "N/A") [])
      0%nat
  = (Ok [], [], 0%nat).
Proof.
  apply (add_meal_unmapped (scripted quiet) default_MEAL_MAPPING).
  left. reflexivity.
Defined.

(** X16 on an example: the plan holds items of products 7 and 8 for
    dinner, nothing is resolved, and both get a deletion timestamp. *)
Lemma publish_without_meals_example :
  exists payload,
    posted (issued (run (scripted (planning [("dinner", [planned_item 7; planned_item 8])]))
                      (publish_diet_plan default_MEAL_MAPPING "2024-01-02" [] [])
                      0%nat))
    = [("2024-01-02", payload)]
    /\ Forall2 soft_deleted [planned_item 7; planned_item 8]
               (slot_items "dinner" payload).
Proof.
  destruct (publish_without_meals
              (scripted (planning [("dinner", [planned_item 7; planned_item 8])]))
              default_MEAL_MAPPING "2024-01-02" [] 0%nat 0%nat
              [("dinner", [planned_item 7; planned_item 8])]
              [GetDietPlan "2024-01-02"] eq_refl
              ltac:(repeat constructor; simpl; tauto)
              ltac:(intros slot items it [E | []] Hin; inversion E; subst;
                    destruct Hin as [<- | [<- | []]]; discriminate))
    as (payload & P & S).
  exists payload. split; [exact P|].
  apply S. now left.
Defined.

(** X17 on an example: the tracker holds the lunch already, the plan
    request is answered with status 500, and the lunch is added again. *)
Lemma publish_after_failed_fetch_example :
  exists payload,
    posted (issued (run (scripted (plan_answering
                                     (Response 500 [("dinner", [planned_item 7])])))
                      (publish_diet_plan default_MEAL_MAPPING "2024-01-02"
                         [("Obiad", VInt 7)] [("Obiad", VInt 400)]) 0%nat))
    = [("2024-01-02", payload)]
    /\ In (VInt 7) (map (get "productId") (slot_items "dinner" payload)).
Proof.
  destruct (publish_after_failed_fetch
              (scripted (plan_answering (Response 500 [("dinner", [planned_item 7])])))
              default_MEAL_MAPPING "2024-01-02"
              [("Obiad", VInt 7)] [("Obiad", VInt 400)] 0%nat 500
              [("dinner", [planned_item 7])] eq_refl ltac:(discriminate)
              ltac:(intros name id [E | []]; inversion E; subst;
                    exists 400; reflexivity))
    as (payload & P & _ & A).
  exists payload. split; [exact P|].
  apply (A "Obiad" (VInt 7) "dinner"); [now left | reflexivity | discriminate].
Defined.

(** ** The main flow *)

Section Main.
Variable W : world.
Variable MEAL_MAPPING : dict string.

(** X19. [main] reads the date settings only after the order has been
    fetched.  When the order request is answered with a status other than
    200, or with an empty object, [main] returns without any further
    request and without error, even with both date settings given; when
    the order is there, an error of the date selection is raised before
    any further request, and an empty selection ends the run at once. *)
Theorem main_order_first (TARGET_DATES TARGET_DATE_RANGE : config_value)
  (order_response : http order_json) (s : state W) :
  (order_response = NoResponse ->
   run W (main MEAL_MAPPING TARGET_DATES TARGET_DATE_RANGE order_response) s
   = (Err RequestException, [], s))
  /\ (forall status json,
        order_response = Response status json ->
        status <> 200 \/ json = EmptyOrder ->
        run W (main MEAL_MAPPING TARGET_DATES TARGET_DATE_RANGE order_response) s
        = (Ok tt, [], s))
  /\ (forall deliveries,
        order_response = Response 200 (Order deliveries) ->
        (forall e, select_dates TARGET_DATES TARGET_DATE_RANGE = Err e ->
                   run W (main MEAL_MAPPING TARGET_DATES TARGET_DATE_RANGE
                            order_response) s = (Err e, [], s))
        /\ (select_dates TARGET_DATES TARGET_DATE_RANGE = Ok [] ->
            run W (main MEAL_MAPPING TARGET_DATES TARGET_DATE_RANGE
                     order_response) s = (Ok tt, [], s))).
Proof.
  unfold main. split; [| split].
  - intros ->. reflexivity.
  - intros status json -> H. cbn [BaseClient_get].
    destruct (Z.eqb_spec status 200) as [E | E]; [|reflexivity].
    destruct H as [H | ->]; [contradiction | reflexivity].
  - intros deliveries ->. cbn [BaseClient_get Z.eqb Pos.eqb bind]. split.
    + intros e ->. reflexivity.
    + intros ->. reflexivity.
Qed.

(** X20. A selected date on which the order has no delivery is still
    published, with no resolved meal: [main] asks for no details and no
    product, and posts the existing vendor plan of the date with a
    deletion timestamp on every item. *)
Theorem main_date_without_deliveries (target_date : string) (deliveries : list obj)
  (s s0 : state W) (existing_plan : plan) (t0 : list request) :
  Forall (fun d => py_eq (get "date" d) (VStr target_date) = false) deliveries ->
  run W (get_existing_diet_plan target_date) s = (Ok existing_plan, t0, s0) ->
  NoDup (keys existing_plan) ->
  with_product_ids existing_plan ->
  exists payload,
    issued (run W (main MEAL_MAPPING (CfgList [target_date]) CfgNone
                     (Response 200 (Order deliveries))) s)
    = issued (run W (publish_diet_plan MEAL_MAPPING target_date [] []) s)
    /\ posted (issued (run W (main MEAL_MAPPING (CfgList [target_date]) CfgNone
                               (Response 200 (Order deliveries))) s))
       = [(target_date, payload)]
    /\ forall slot items,
        In (slot, items) existing_plan ->
        Forall2 soft_deleted items (slot_items slot payload).
Proof.
  intros Hn Rg N Hp.
  destruct (posted_without_meals W MEAL_MAPPING target_date [] s s0 existing_plan t0
              Rg N Hp) as (payload & P & S).
  exists payload.
  assert (fetch_deliveries_for_date deliveries target_date = []) as Ef.
  { unfold fetch_deliveries_for_date. clear Rg.
    induction Hn as [| d l Hd _ IH]; [reflexivity|].
    cbn [filter]. now rewrite Hd. }
  assert (issued (run W (main MEAL_MAPPING (CfgList [target_date]) CfgNone
                           (Response 200 (Order deliveries))) s)
          = issued (run W (publish_diet_plan MEAL_MAPPING target_date [] []) s)) as E.
  { unfold main. cbn [BaseClient_get Z.eqb Pos.eqb bind select_dates cfg_truthy
                      andb lift main_loop].
    unfold process_date. rewrite Ef. cbn [process_deliveries bind fst snd].
    rewrite issued_bind.
    destruct (returned _); cbn [main_loop]; now rewrite app_nil_r. }
  split; [exact E|]. split; [rewrite E; exact P | exact S].
Qed.

Lemma posted_product_requests (t : list request) :
  Forall product_request t -> posted t = [].
Proof.
  induction 1 as [| r t Hr _ IH]; [reflexivity|].
  destruct r; try contradiction; exact IH.
Qed.

Lemma main_loop_posts (deliveries : list obj) (dates : list string) :
  forall s,
    (exists n, map fst (posted (issued (run W (main_loop MEAL_MAPPING deliveries
                                                 dates) s)))
               = firstn n dates)
    /\ (returned (run W (main_loop MEAL_MAPPING deliveries dates) s) = Ok tt ->
        map fst (posted (issued (run W (main_loop MEAL_MAPPING deliveries dates) s)))
        = dates).
Proof.
  induction dates as [| d rest IH]; intro s.
  { split; [exists 0%nat; reflexivity | reflexivity]. }
  cbn [main_loop].
  rewrite issued_bind, returned_bind, posted_app.
  assert (posted (issued (run W (process_date d deliveries) s)) = []) as ->.
  { apply posted_product_requests. unfold process_date.
    apply footprint_process_deliveries. }
  cbn [app].
  destruct (returned (run W (process_date d deliveries) s)) as [result | e].
  2:{ split; [exists 0%nat; reflexivity | discriminate]. }
  rewrite issued_bind, returned_bind, posted_app.
  destruct (publish_posts_or_raises W MEAL_MAPPING d (fst result) (snd result)
              (final (run W (process_date d deliveries) s)))
    as [[P [e E]] | [payload P]]; rewrite P.
  - rewrite E. split; [exists 0%nat; reflexivity | discriminate].
  - destruct (returned (run W (publish_diet_plan _ d _ _) _)) as [b | e].
    + cbn [app map fst].
      match goal with
      | |- context [run W (main_loop _ _ rest) ?st] =>
          destruct (IH st) as [[n Hn] Hall]
      end.
      split.
      * exists (S n). cbn [firstn]. now rewrite Hn.
      * intro R. now rewrite (Hall R).
    + split; [exists 1%nat; reflexivity | discriminate].
Qed.

(** X21. [main] publishes the selected dates in order, one plan a date,
    and stops at the first date on which something raises: the dates of
    the plans posted are the first dates of the selection, and when [main]
    returns without error they are all the selected dates. *)
Theorem main_posts_in_order (TARGET_DATES TARGET_DATE_RANGE : config_value)
  (deliveries : list obj) (dates : list string) (s : state W) :
  select_dates TARGET_DATES TARGET_DATE_RANGE = Ok dates ->
  (exists n, map fst (posted (issued (run W (main MEAL_MAPPING TARGET_DATES
                                               TARGET_DATE_RANGE
                                               (Response 200 (Order deliveries))) s)))
             = firstn n dates)
  /\ (returned (run W (main MEAL_MAPPING TARGET_DATES TARGET_DATE_RANGE
                         (Response 200 (Order deliveries))) s) = Ok tt ->
      map fst (posted (issued (run W (main MEAL_MAPPING TARGET_DATES
                                        TARGET_DATE_RANGE
                                        (Response 200 (Order deliveries))) s)))
      = dates).
Proof.
  intro Sel. unfold main. cbn [BaseClient_get Z.eqb Pos.eqb bind].
  rewrite Sel. cbn [lift bind]. apply main_loop_posts.
Qed.

End Main.

(** X20 on an example: the order has a delivery on another day only. *)
Lemma main_date_without_deliveries_example :
  exists payload,
    posted (issued (run (scripted (planning [("dinner", [planned_item 7])]))
                      (main default_MEAL_MAPPING (CfgList ["2024-01-02"]) CfgNone
                         (Response 200
                            (Order [[("deliveryId", VInt 5);
                                     ("date", VStr "2024-01-05")]])))
                      0%nat))
    = [("2024-01-02", payload)]
    /\ Forall2 soft_deleted [planned_item 7] (slot_items "dinner" payload).
Proof.
  destruct (main_date_without_deliveries
              (scripted (planning [("dinner", [planned_item 7])]))
              default_MEAL_MAPPING "2024-01-02"
              [[("deliveryId", VInt 5); ("date", VStr "2024-01-05")]]
              0%nat 0%nat [("dinner", [planned_item 7])]
              [GetDietPlan "2024-01-02"]
              ltac:(repeat constructor) eq_refl
              ltac:(repeat constructor; simpl; tauto)
              ltac:(intros slot items it [E | []] Hin; inversion E; subst;
                    destruct Hin as [<- | []]; discriminate))
    as (payload & _ & P & S).
  exists payload. split; [exact P|]. apply S. now left.
Defined.

(** X21 on an example: a range of two days, a delivery with a lunch on the
    first of them. *)
Lemma main_posts_in_order_example :
  map fst (posted (issued (run (scripted (delivering two_lines (VInt 7)))
                             (main default_MEAL_MAPPING CfgNone
                                (CfgTuple ["2024-01-01"; "2024-01-02"])
                                (Response 200
                                   (Order [[("deliveryId", VInt 5);
                                            ("date", VStr "2024-01-01")]])))
                             0%nat)))
  = ["2024-01-01"; "2024-01-02"].
Proof.
  apply (main_posts_in_order (scripted (delivering two_lines (VInt 7)))
           default_MEAL_MAPPING CfgNone (CfgTuple ["2024-01-01"; "2024-01-02"])
           [[("deliveryId", VInt 5); ("date", VStr "2024-01-01")]]
           ["2024-01-01"; "2024-01-02"] 0%nat).
  - vm_compute. reflexivity.
  - vm_compute. reflexivity.
Defined.
